(** * A model of the websocket notification relay (chalicelib/__init__.py)

    The Python module has three classes: [Storage] (a DynamoDB table of
    connection registrations), [Sender] (websocket delivery with per
    recipient redaction) and [Handler] (the entry point classifying every
    inbound frame by its role).  They are modelled here over an explicit
    world: the Python heap holding the parsed JSON objects, the DynamoDB
    table, the websocket transport and the log.

    A Python [str] is represented by its UTF-8 encoding (a lone surrogate,
    which [json.loads] makes of an unpaired [\uD800] escape, by its three
    byte form); a Python [float] by an IEEE 754 binary64 value. *)

From Stdlib Require Import String Ascii ZArith List Bool Lia.
From Stdlib Require Import Floats.SpecFloat.
From stdpp Require Import base gmap strings list pretty.
Import ListNotations.
Open Scope string_scope.
#[local] Set Warnings "-register-all".

(* ================================================================= *)
(** ** Exceptions *)

Inductive exn : Type :=
| JSONDecodeError
| ValueError        (** [int]/[str] conversion of more than 4300 digits *)
| AttributeError
| KeyError
| TypeError (msg : string)
| Rounded           (** [decimal.Rounded]: boto3's number of more than 38 digits *)
| ClientError (code : string)  (** an error answer of the DynamoDB service *)
| RecursionError
| WebsocketDisconnectedError
| Dangling.  (** a reference to no object; never built by [alloc] *)

Inductive result (A : Type) : Type :=
| Ok (a : A)
| Raise (e : exn).
Arguments Ok {A} a.
Arguments Raise {A} e.

(* ================================================================= *)
(** ** Floats *)

(** Python's [float]: binary64, 53 bits of precision. *)
Definition f64_prec : Z := 53.
Definition f64_emax : Z := 1024.

(** [float(text)] of the decimal [d * 10 ^ p] (with sign [neg]), correctly
    rounded to nearest, ties to even, as CPython's [dtoa] does. *)
Definition float_of_decimal (neg : bool) (d p : Z) : spec_float :=
  if (d =? 0)%Z then S754_zero neg
  else if (0 <=? p)%Z then binary_round f64_prec f64_emax neg (Z.to_pos (d * 10 ^ p)) 0
  else let '(mz, ez, lz) := SFdiv_core_binary f64_prec f64_emax d 0 (10 ^ (- p)) 0 in
       binary_round_aux f64_prec f64_emax neg mz ez lz.

(** Identity of two floats (not IEEE equality: [nan] is itself here). *)
Definition sf_eqb (x y : spec_float) : bool :=
  match x, y with
  | S754_zero a, S754_zero b => Bool.eqb a b
  | S754_infinity a, S754_infinity b => Bool.eqb a b
  | S754_nan, S754_nan => true
  | S754_finite a m e, S754_finite b m' e' => Bool.eqb a b && Pos.eqb m m' && Z.eqb e e'
  | _, _ => false
  end.

(** Number of decimal digits of [z > 0]. *)
Fixpoint ndigits_aux (fuel : nat) (z : Z) : Z :=
  match fuel with
  | O => 1
  | S f => if (z <? 10)%Z then 1 else 1 + ndigits_aux f (z / 10)
  end%Z.
Definition ndigits (z : Z) : Z := ndigits_aux (Z.to_nat (Z.log2 z) + 1) z.

(** [floor (log10 (num / den))] for [num, den > 0]. *)
Definition ilog10 (num den : Z) : Z :=
  (if (den <=? num)%Z then ndigits (num / den) - 1
  else let j0 := ndigits den - ndigits num in
       if (den <=? num * 10 ^ j0)%Z then - j0 else - (j0 + 1))%Z.

(** The shortest decimal [d * 10 ^ p] that reads back as [x = num / den]
    (in absolute value, [10 ^ k <= x < 10 ^ (k + 1)]): [n] significant
    digits are tried from 1 on, the nearer of the two [n]-digit
    neighbours of [x] is kept, a tie going to the even one. *)
Fixpoint shortest (fuel : nat) (n : Z) (s : bool) (x : spec_float) (num den k : Z)
  : Z * Z :=
  match fuel with
  | O => (0, 0)
  | S f =>
      let p := k - n + 1 in
      let a := if (0 <=? p)%Z then num else num * 10 ^ (- p) in
      let b := if (0 <=? p)%Z then den * 10 ^ p else den in
      let d := a / b in
      let lo_ok := sf_eqb (float_of_decimal s d p) x in
      let hi_ok := sf_eqb (float_of_decimal s (d + 1) p) x in
      if lo_ok && hi_ok then
        match Z.compare (2 * (a - d * b)) b with
        | Lt => (d, p)
        | Gt => (d + 1, p)
        | Eq => if Z.even d then (d, p) else (d + 1, p)
        end
      else if lo_ok then (d, p)
      else if hi_ok then (d + 1, p)
      else shortest f (n + 1) s x num den k
  end%Z.

Fixpoint strip_zeros (fuel : nat) (d p : Z) : Z * Z :=
  match fuel with
  | O => (d, p)
  | S f => if (d mod 10 =? 0) && negb (d =? 0) then strip_zeros f (d / 10) (p + 1)
           else (d, p)
  end%Z.

Definition zeros (n : Z) : string := string_of_list_ascii (repeat "0"%char (Z.to_nat n)).

Definition exp_text (x : Z) : string :=
  (if (x <? 0)%Z then "-" else "+") ++ (if (Z.abs x <? 10)%Z then "0" else "")
  ++ pretty (Z.abs x).

(** [repr] of a float: the shortest digits that read back as it, in
    positional notation when the decimal point falls within 16 digits,
    else in scientific notation. *)
Definition float_repr (f : spec_float) : string :=
  match f with
  | S754_nan => "nan"
  | S754_infinity s => if s then "-inf" else "inf"
  | S754_zero s => if s then "-0.0" else "0.0"
  | S754_finite s m e =>
      let num := if (0 <=? e)%Z then (Zpos m * 2 ^ e)%Z else Zpos m in
      let den := if (0 <=? e)%Z then 1%Z else (2 ^ (- e))%Z in
      let k := ilog10 num den in
      let '(d0, p0) := shortest 17 1 s f num den k in
      let '(d, p) := strip_zeros 17 d0 p0 in
      let ds := pretty d in
      let len := Z.of_nat (String.length ds) in
      let decpt := (len + p)%Z in
      (if s then "-" else "") ++
      (if (decpt <=? -4)%Z || (16 <? decpt)%Z then
         String.substring 0 1 ds ++
         (if (len =? 1)%Z then "" else "." ++ String.substring 1 (Z.to_nat len) ds) ++
         "e" ++ exp_text (decpt - 1)
       else if (decpt <=? 0)%Z then "0." ++ zeros (- decpt) ++ ds
       else if (len <=? decpt)%Z then ds ++ zeros (decpt - len) ++ ".0"
       else String.substring 0 (Z.to_nat decpt) ds ++ "." ++
            String.substring (Z.to_nat decpt) (Z.to_nat len) ds)
  end.

(* ================================================================= *)
(** ** Python strings *)

(** The UTF-8 bytes of a code point (a surrogate in its three byte form). *)
Definition utf8_encode (cp : Z) : list ascii :=
  let b z := ascii_of_N (Z.to_N z) in
  (if cp <? 128 then [b cp]
  else if (cp <? 2048)%Z then [b (192 + cp / 64); b (128 + cp mod 64)]
  else if (cp <? 65536)%Z then
    [b (224 + cp / 4096); b (128 + (cp / 64) mod 64); b (128 + cp mod 64)]
  else [b (240 + cp / 262144); b (128 + (cp / 4096) mod 64);
        b (128 + (cp / 64) mod 64); b (128 + cp mod 64)])%Z.

(** The code point of the bytes of one character. *)
Definition utf8_decode (cs : list ascii) : Z :=
  let n c := Z.of_nat (nat_of_ascii c) in
  match cs with
  | [a] => n a
  | [a; b] => (n a - 192) * 64 + (n b - 128)
  | [a; b; c] => (n a - 224) * 4096 + (n b - 128) * 64 + (n c - 128)
  | [a; b; c; d] => (n a - 240) * 262144 + (n b - 128) * 4096 + (n c - 128) * 64 + (n d - 128)
  | _ => 0
  end%Z.

(** Length of the encoding of a character, read from its lead byte. *)
Definition utf8_len (c : ascii) : nat :=
  let n := nat_of_ascii c in
  if (n <? 192)%nat then 1 else if (n <? 224)%nat then 2 else if (n <? 240)%nat then 3 else 4.

Fixpoint chars_aux (fuel : nat) (cs : list ascii) : list (list ascii) :=
  match fuel, cs with
  | S f, c :: _ => firstn (utf8_len c) cs :: chars_aux f (skipn (utf8_len c) cs)
  | _, _ => []
  end.

(** [list(s)]: the characters of a string, each a string of its own. *)
Definition py_chars (s : string) : list string :=
  let cs := list_ascii_of_string s in
  map string_of_list_ascii (chars_aux (length cs) cs).

(** [str(z)] of an int: more than 4300 digits raise [ValueError]
    ([sys.get_int_max_str_digits()]); [None] stands for it. *)
Definition int_str (z : Z) : option string :=
  if (Z.abs z <? 10 ^ 4300)%Z then Some (pretty z) else None.

Definition hex_digit (n : Z) : ascii :=
  ascii_of_N (Z.to_N (if (n <? 10)%Z then 48 + n else 87 + n)%Z).

Fixpoint hex_text (k : nat) (n : Z) : string :=
  match k with
  | O => ""
  | S k' => hex_text k' (n / 16) ++ String (hex_digit (n mod 16)) ""
  end.

(** Python's [str.isprintable] on a non-ASCII character.  Within
    Latin-1 it is exact (C1 controls, the no-break space and the soft
    hyphen are not printable); beyond it only the surrogates are taken
    as not printable, Unicode's other format and separator characters
    being counted printable. *)
Definition printable (cp : Z) : bool :=
  negb (((128 <=? cp) && (cp <=? 160)) || (cp =? 173) || ((55296 <=? cp) && (cp <=? 57343)))%Z.

(** One character inside the [repr] of a string quoted with [q]. *)
Definition repr_char (q : ascii) (ch : list ascii) : string :=
  match ch with
  | [c] =>
      let n := Z.of_nat (nat_of_ascii c) in
      if Ascii.eqb c q || Ascii.eqb c "\" then String "\" (String c "")
      else if Ascii.eqb c "009" then "\t"
      else if Ascii.eqb c "010" then "\n"
      else if Ascii.eqb c "013" then "\r"
      else if (n <? 32)%Z || (n =? 127)%Z || (128 <=? n)%Z then "\x" ++ hex_text 2 n
      else String c ""
  | _ =>
      let cp := utf8_decode ch in
      if printable cp then string_of_list_ascii ch
      else if (cp <? 256)%Z then "\x" ++ hex_text 2 cp
      else if (cp <? 65536)%Z then "\u" ++ hex_text 4 cp
      else "\U" ++ hex_text 8 cp
  end.

(** [repr(s)]: single quotes, unless [s] holds a single quote and no
    double one. *)
Definition str_repr (s : string) : string :=
  let cs := list_ascii_of_string s in
  let q := if existsb (Ascii.eqb "'") cs && negb (existsb (Ascii.eqb "034") cs)
           then "034"%char else "'"%char in
  String q (String.concat "" (map (repr_char q) (chars_aux (length cs) cs)) ++ String q "").

(* ================================================================= *)
(** ** JSON documents *)

(** The values [json.loads] produces and [json.dumps] consumes. *)
Inductive jvalue : Type :=
| JNull
| JBool (b : bool)
| JNum (z : Z)
| JFloat (f : spec_float)
| JStr (s : string)
| JArr (vs : list jvalue)
| JObj (kvs : list (string * jvalue)).

(** A Python dict built from key/value pairs in order: a repeated key
    keeps the position of its first occurrence and the last value. *)
Fixpoint dict_set {A} (kvs : list (string * A)) (k : string) (v : A)
  : list (string * A) :=
  match kvs with
  | [] => [(k, v)]
  | (k', v') :: rest =>
      if String.eqb k k' then (k, v) :: rest else (k', v') :: dict_set rest k v
  end.

(** The decoder of CPython's [_json] module ([scan_once], strict mode). *)
Module Json.

Definition is_ws (c : ascii) : bool :=
  Ascii.eqb c " " || Ascii.eqb c "010" || Ascii.eqb c "013" || Ascii.eqb c "009".

Fixpoint skip_ws (s : list ascii) : list ascii :=
  match s with
  | c :: r => if is_ws c then skip_ws r else s
  | [] => []
  end.

Definition digit_of (c : ascii) : option Z :=
  let n := nat_of_ascii c in
  if (48 <=? n)%nat && (n <=? 57)%nat then Some (Z.of_nat (n - 48)) else None.

Definition hex_of (c : ascii) : option Z :=
  let n := nat_of_ascii c in
  if (48 <=? n)%nat && (n <=? 57)%nat then Some (Z.of_nat (n - 48))
  else if (97 <=? n)%nat && (n <=? 102)%nat then Some (Z.of_nat (n - 87))
  else if (65 <=? n)%nat && (n <=? 70)%nat then Some (Z.of_nat (n - 55))
  else None.

(** Exactly four hex digits. *)
Definition hex4 (s : list ascii) : option (Z * list ascii) :=
  match s with
  | a :: b :: c :: d :: r =>
      match hex_of a, hex_of b, hex_of c, hex_of d with
      | Some x, Some y, Some z, Some t => Some (((x * 16 + y) * 16 + z) * 16 + t, r)%Z
      | _, _, _, _ => None
      end
  | _ => None
  end.

(** A [\u] escape, after its [u]: a high surrogate followed by the
    escape of a low one stands for one character; any other surrogate
    stays on its own. *)
Definition unicode_escape (s : list ascii) : option (Z * list ascii) :=
  match hex4 s with
  | Some (c, r) =>
      if (55296 <=? c)%Z && (c <=? 56319)%Z then
        match r with
        | "\"%char :: "u"%char :: r' =>
            match hex4 r' with
            | Some (c2, r'') =>
                if (56320 <=? c2)%Z && (c2 <=? 57343)%Z
                then Some (65536 + (c - 55296) * 1024 + (c2 - 56320), r'')%Z
                else Some (c, r)
            | None => Some (c, r)
            end
        | _ => Some (c, r)
        end
      else Some (c, r)
  | None => None
  end.

Definition simple_escape (e : ascii) : option ascii :=
  if Ascii.eqb e "034"%char || Ascii.eqb e "\" || Ascii.eqb e "/" then Some e
  else if Ascii.eqb e "n" then Some "010"%char
  else if Ascii.eqb e "t" then Some "009"%char
  else if Ascii.eqb e "r" then Some "013"%char
  else if Ascii.eqb e "b" then Some "008"%char
  else if Ascii.eqb e "f" then Some "012"%char
  else None.

(** The body of a string literal, after its opening quote: a control
    character (below 0x20) is an error, as in strict mode. *)
Fixpoint str_body (fuel : nat) (s : list ascii) : option (list ascii * list ascii) :=
  match fuel with
  | O => None
  | S fuel' =>
      match s with
      | [] => None
      | c :: r =>
          if Ascii.eqb c "034"%char then Some ([], r)
          else if Ascii.eqb c "\" then
            match r with
            | e :: r' =>
                if Ascii.eqb e "u" then
                  match unicode_escape r' with
                  | Some (cp, r'') =>
                      match str_body fuel' r'' with
                      | Some (b, rest) => Some (app (utf8_encode cp) b, rest)
                      | None => None
                      end
                  | None => None
                  end
                else
                  match simple_escape e, str_body fuel' r' with
                  | Some e', Some (b, rest) => Some (e' :: b, rest)
                  | _, _ => None
                  end
            | [] => None
            end
          else if (nat_of_ascii c <? 32)%nat then None
          else match str_body fuel' r with
               | Some (b, rest) => Some (c :: b, rest)
               | None => None
               end
      end
  end.

(** The longest run of digits. *)
Fixpoint digit_run (s : list ascii) : list Z * list ascii :=
  match s with
  | c :: r => match digit_of c with
              | Some d => let '(ds, rest) := digit_run r in (d :: ds, rest)
              | None => ([], s)
              end
  | [] => ([], s)
  end.

Definition digits_value (ds : list Z) : Z := fold_left (fun acc d => 10 * acc + d)%Z ds 0%Z.

(** A number: an optional minus, [0] or digits not starting with [0],
    then optionally a dot and digits, then optionally [e] or [E], a sign
    and digits.  Without fraction and exponent it is an int
    ([ValueError] past 4300 digits), else a float. *)
Definition number (s : list ascii) : result (jvalue * list ascii) :=
  let '(neg, s1) := match s with
                    | c :: r => if Ascii.eqb c "-" then (true, r) else (false, s)
                    | [] => (false, s)
                    end in
  match s1 with
  | c :: r =>
      match digit_of c with
      | Some d =>
          let '(ids, r1) := if Z.eqb d 0 then ([0%Z], r)
                            else let '(ds, r') := digit_run r in (d :: ds, r') in
          let '(fds, r2) :=
            match r1 with
            | "."%char :: c2 :: r' =>
                match digit_of c2 with
                | Some _ => digit_run (c2 :: r')
                | None => ([], r1)
                end
            | _ => ([], r1)
            end in
          let '(ex, r3) :=
            match r2 with
            | e :: r' =>
                if Ascii.eqb e "e" || Ascii.eqb e "E" then
                  let '(eneg, r'') := match r' with
                                      | "-"%char :: t => (true, t)
                                      | "+"%char :: t => (false, t)
                                      | _ => (false, r')
                                      end in
                  match digit_run r'' with
                  | ([], _) => (None, r2)
                  | (eds, rest) => (Some (if eneg then Z.opp (digits_value eds)
                                          else digits_value eds), rest)
                  end
                else (None, r2)
            | [] => (None, r2)
            end in
          match fds, ex with
          | [], None =>
              if (4300 <? length ids)%nat then Raise ValueError
              else let z := digits_value ids in Ok (JNum (if neg then Z.opp z else z), r3)
          | _, _ =>
              let e := match ex with Some e => e | None => 0%Z end in
              Ok (JFloat (float_of_decimal neg (digits_value (app ids fds))
                            (e - Z.of_nat (length fds))), r3)
          end
      | None => Raise JSONDecodeError
      end
  | [] => Raise JSONDecodeError
  end.

(** [s] starts with [p]: the rest. *)
Fixpoint strip_prefix (p s : list ascii) : option (list ascii) :=
  match p, s with
  | [], _ => Some s
  | a :: p', b :: s' => if Ascii.eqb a b then strip_prefix p' s' else None
  | _ :: _, [] => None
  end.

(** The constants the scanner tries before a number. *)
Definition constants : list (string * jvalue) :=
  [("null", JNull); ("true", JBool true); ("false", JBool false);
   ("NaN", JFloat S754_nan); ("Infinity", JFloat (S754_infinity false));
   ("-Infinity", JFloat (S754_infinity true))].

Fixpoint constant (cs : list (string * jvalue)) (s : list ascii)
  : option (jvalue * list ascii) :=
  match cs with
  | [] => None
  | (p, v) :: cs' =>
      match strip_prefix (list_ascii_of_string p) s with
      | Some rest => Some (v, rest)
      | None => constant cs' s
      end
  end.

Fixpoint value (fuel : nat) (s : list ascii) {struct fuel}
  : result (jvalue * list ascii) :=
  match fuel with
  | O => Raise JSONDecodeError
  | S fuel' =>
      match skip_ws s with
      | [] => Raise JSONDecodeError
      | c :: r =>
          if Ascii.eqb c "{" then
            match skip_ws r with
            | c2 :: r2 => if Ascii.eqb c2 "}" then Ok (JObj [], r2)
                          else members fuel' [] r
            | [] => Raise JSONDecodeError
            end
          else if Ascii.eqb c "[" then
            match skip_ws r with
            | c2 :: r2 => if Ascii.eqb c2 "]" then Ok (JArr [], r2)
                          else elements fuel' [] r
            | [] => Raise JSONDecodeError
            end
          else if Ascii.eqb c "034"%char then
            match str_body (S (length r)) r with
            | Some (b, rest) => Ok (JStr (string_of_list_ascii b), rest)
            | None => Raise JSONDecodeError
            end
          else
            match constant constants (c :: r) with
            | Some (v, rest) => Ok (v, rest)
            | None => number (c :: r)
            end
      end
  end
with members (fuel : nat) (acc : list (string * jvalue)) (s : list ascii)
  {struct fuel} : result (jvalue * list ascii) :=
  match fuel with
  | O => Raise JSONDecodeError
  | S fuel' =>
      match skip_ws s with
      | c :: r =>
          if Ascii.eqb c "034"%char then
            match str_body (S (length r)) r with
            | Some (k, r1) =>
                match skip_ws r1 with
                | ":"%char :: r2 =>
                    match value fuel' r2 with
                    | Ok (v, r3) =>
                        let acc' := dict_set acc (string_of_list_ascii k) v in
                        match skip_ws r3 with
                        | ","%char :: r4 => members fuel' acc' r4
                        | "}"%char :: r4 => Ok (JObj acc', r4)
                        | _ => Raise JSONDecodeError
                        end
                    | Raise e => Raise e
                    end
                | _ => Raise JSONDecodeError
                end
            | None => Raise JSONDecodeError
            end
          else Raise JSONDecodeError
      | [] => Raise JSONDecodeError
      end
  end
with elements (fuel : nat) (acc : list jvalue) (s : list ascii)
  {struct fuel} : result (jvalue * list ascii) :=
  match fuel with
  | O => Raise JSONDecodeError
  | S fuel' =>
      match value fuel' s with
      | Ok (v, r) =>
          match skip_ws r with
          | ","%char :: r' => elements fuel' (acc ++ [v]) r'
          | "]"%char :: r' => Ok (JArr (acc ++ [v]), r')
          | _ => Raise JSONDecodeError
          end
      | Raise e => Raise e
      end
  end.

End Json.

(** [json.loads]: the document, or the exception it raises
    ([JSONDecodeError], or [ValueError] for an over-long integer). *)
Definition json_loads (s : string) : result jvalue :=
  let cs := list_ascii_of_string s in
  match Json.value (2 * length cs + 2) cs with
  | Ok (v, rest) => match Json.skip_ws rest with
                    | [] => Ok v
                    | _ => Raise JSONDecodeError
                    end
  | Raise e => Raise e
  end.

(** Test documents are written with single quotes, read as double ones. *)
Definition dq (s : string) : string :=
  string_of_list_ascii
    (map (fun c => if Ascii.eqb c "'" then "034"%char else c) (list_ascii_of_string s)).

Example json_loads_ex1 :
  json_loads (dq "{'id': {'type': 'ping'}, 'n': [1, -2, true, null]}")
  = Ok (JObj [("id", JObj [("type", JStr "ping")]);
              ("n", JArr [JNum 1; JNum (-2); JBool true; JNull])]).
Proof. reflexivity. Qed.

Example json_loads_ex2 :
  json_loads (dq "[0.1, 1e400, -0.0, NaN, -Infinity, 1E2, 'é😀\ud800']")
  = Ok (JArr [JFloat (S754_finite false 7205759403792794 (-56));
              JFloat (S754_infinity false); JFloat (S754_zero true);
              JFloat S754_nan; JFloat (S754_infinity true);
              JFloat (S754_finite false 7036874417766400 (-46));
              JStr (string_of_list_ascii
                      (utf8_encode 233 ++ utf8_encode 128512 ++ utf8_encode 55296))]).
Proof. vm_compute. reflexivity. Qed.

Example json_loads_ex3 :
  json_loads (dq "{'a': '" ++ String "010" "'}") = Raise JSONDecodeError /\
  json_loads (string_of_list_ascii (repeat "9"%char 4301)) = Raise ValueError /\
  json_loads "[1.]" = Raise JSONDecodeError /\ json_loads "01" = Raise JSONDecodeError.
Proof. vm_compute. repeat split. Qed.

Example float_repr_ex :
  map float_repr [float_of_decimal false 1 (-1); float_of_decimal false 1 16;
                  float_of_decimal false 15 (-8); float_of_decimal false 5 (-324);
                  float_of_decimal true 100 0; float_of_decimal false 1 (-4)]
  = ["0.1"; "1e+16"; "1.5e-07"; "5e-324"; "-100.0"; "0.0001"].
Proof. vm_compute. reflexivity. Qed.

Fixpoint assoc {A} (k : string) (kvs : list (string * A)) : option A :=
  match kvs with
  | [] => None
  | (k', v) :: rest => if String.eqb k k' then Some v else assoc k rest
  end.

(** Python's equality on JSON data: [True == 1], [1 == 1.0] and
    [False == 0]; an int equals a float of the same (exact) value; two
    floats compare as IEEE numbers ([nan] is equal to nothing); dicts
    compare by their key sets and values. *)
Inductive pynum : Type :=
| NInt (z : Z)
| NFloat (f : spec_float).

Definition num_of (v : jvalue) : option pynum :=
  match v with
  | JBool b => Some (NInt (if b then 1%Z else 0%Z))
  | JNum z => Some (NInt z)
  | JFloat f => Some (NFloat f)
  | _ => None
  end.

Definition float_eq_int (f : spec_float) (z : Z) : bool :=
  match f with
  | S754_zero _ => Z.eqb z 0
  | S754_finite s m e =>
      let sm := if s then Zneg m else Zpos m in
      if (0 <=? e)%Z then Z.eqb z (sm * 2 ^ e) else Z.eqb (z * 2 ^ (- e)) sm
  | _ => false
  end.

Definition num_eqb (x y : pynum) : bool :=
  match x, y with
  | NInt a, NInt b => Z.eqb a b
  | NInt a, NFloat f | NFloat f, NInt a => float_eq_int f a
  | NFloat f, NFloat g => SFeqb f g
  end.

Fixpoint py_eq (a b : jvalue) {struct a} : bool :=
  match a, b with
  | JNull, JNull => true
  | JStr s, JStr t => String.eqb s t
  | JArr xs, JArr ys =>
      (fix go (xs ys : list jvalue) : bool :=
         match xs, ys with
         | [], [] => true
         | x :: xs', y :: ys' => py_eq x y && go xs' ys'
         | _, _ => false
         end) xs ys
  | JObj xs, JObj ys =>
      (length xs =? length ys)%nat &&
      (fix go (xs : list (string * jvalue)) : bool :=
         match xs with
         | [] => true
         | (k, x) :: xs' =>
             match assoc k ys with
             | Some y => py_eq x y && go xs'
             | None => false
             end
         end) xs
  | _, _ =>
      match num_of a, num_of b with
      | Some x, Some y => num_eqb x y
      | _, _ => false
      end
  end.

(** DynamoDB's attribute equality (typed: a number is not a boolean). *)
Fixpoint jv_eqb (a b : jvalue) {struct a} : bool :=
  match a, b with
  | JNull, JNull => true
  | JBool x, JBool y => Bool.eqb x y
  | JNum x, JNum y => Z.eqb x y
  | JFloat x, JFloat y => sf_eqb x y
  | JStr s, JStr t => String.eqb s t
  | JArr xs, JArr ys =>
      (fix go (xs ys : list jvalue) : bool :=
         match xs, ys with
         | [], [] => true
         | x :: xs', y :: ys' => jv_eqb x y && go xs' ys'
         | _, _ => false
         end) xs ys
  | JObj xs, JObj ys =>
      (fix go (xs ys : list (string * jvalue)) : bool :=
         match xs, ys with
         | [], [] => true
         | (k, x) :: xs', (k', y) :: ys' => String.eqb k k' && jv_eqb x y && go xs' ys'
         | _, _ => false
         end) xs ys
  | _, _ => false
  end.

(** [repr] of a JSON value, as an f-string prints a container; [None]
    is the [ValueError] of an over-long integer. *)
Fixpoint py_repr (v : jvalue) : option string :=
  match v with
  | JNull => Some "None"
  | JBool true => Some "True"
  | JBool false => Some "False"
  | JNum z => int_str z
  | JFloat f => Some (float_repr f)
  | JStr s => Some (str_repr s)
  | JArr vs =>
      match (fix go (vs : list jvalue) : option (list string) :=
               match vs with
               | [] => Some []
               | v :: vs' => match py_repr v, go vs' with
                             | Some t, Some ts => Some (t :: ts)
                             | _, _ => None
                             end
               end) vs with
      | Some ts => Some ("[" ++ String.concat ", " ts ++ "]")
      | None => None
      end
  | JObj kvs =>
      match (fix go (kvs : list (string * jvalue)) : option (list string) :=
               match kvs with
               | [] => Some []
               | (k, v) :: kvs' => match py_repr v, go kvs' with
                                   | Some t, Some ts => Some ((str_repr k ++ ": " ++ t) :: ts)
                                   | _, _ => None
                                   end
               end) kvs with
      | Some ts => Some ("{" ++ String.concat ", " ts ++ "}")
      | None => None
      end
  end.

Example py_repr_ex :
  py_repr (JArr [JStr "it's"; JStr ("a" ++ String "010" ""); JNum (-3);
                 JObj [("k", JFloat (float_of_decimal false 25 (-1)))]])
  = Some ("[" ++ String "034" ("it's" ++ String "034" ", 'a\n', -3, {'k': 2.5}]")).
Proof. vm_compute. reflexivity. Qed.

(** [t in s] for two strings. *)
Fixpoint str_contains (s t : string) : bool :=
  String.prefix t s ||
  match s with
  | EmptyString => false
  | String _ s' => str_contains s' t
  end.

(* ================================================================= *)
(** ** The Python heap *)

(** A Python value: immutable scalars, or a reference to a mutable
    container (dict or list) in the heap. *)
Inductive pyval : Type :=
| PNone
| PBool (b : bool)
| PInt (z : Z)
| PFloat (f : spec_float)
| PStr (s : string)
| PRef (l : nat).

Inductive pyobj : Type :=
| ODict (kvs : list (string * pyval))
| OList (xs : list pyval).

(** Building the Python objects of a JSON document: the children first,
    each at fresh addresses from [n] on, the container last. *)
Definition alloc_seq
    (alloc : jvalue -> gmap nat pyobj -> nat -> pyval * gmap nat pyobj * nat) :=
  fix go (vs : list jvalue) (h : gmap nat pyobj) (n : nat)
    : list pyval * gmap nat pyobj * nat :=
    match vs with
    | [] => ([], h, n)
    | v :: vs' =>
        let '(p, h1, n1) := alloc v h n in
        let '(ps, h2, n2) := go vs' h1 n1 in
        (p :: ps, h2, n2)
    end.

Definition alloc_fields
    (alloc : jvalue -> gmap nat pyobj -> nat -> pyval * gmap nat pyobj * nat) :=
  fix go (kvs : list (string * jvalue)) (h : gmap nat pyobj) (n : nat)
    : list (string * pyval) * gmap nat pyobj * nat :=
    match kvs with
    | [] => ([], h, n)
    | (k, v) :: kvs' =>
        let '(p, h1, n1) := alloc v h n in
        let '(ps, h2, n2) := go kvs' h1 n1 in
        ((k, p) :: ps, h2, n2)
    end.

Fixpoint alloc (v : jvalue) (h : gmap nat pyobj) (n : nat)
  : pyval * gmap nat pyobj * nat :=
  match v with
  | JNull => (PNone, h, n)
  | JBool b => (PBool b, h, n)
  | JNum z => (PInt z, h, n)
  | JFloat f => (PFloat f, h, n)
  | JStr s => (PStr s, h, n)
  | JArr vs =>
      let '(ps, h1, n1) := alloc_seq alloc vs h n in
      (PRef n1, <[n1 := OList ps]> h1, S n1)
  | JObj kvs =>
      let '(ps, h1, n1) := alloc_fields alloc kvs h n in
      (PRef n1, <[n1 := ODict ps]> h1, S n1)
  end.

(** Reading a Python value back as a JSON document, as [json.dumps] and
    [copy.deepcopy] traverse it; [fuel] is the recursion limit. *)
Fixpoint tree_seq (rd : pyval -> option jvalue) (ps : list pyval)
  : option (list jvalue) :=
  match ps with
  | [] => Some []
  | p :: ps' =>
      match rd p, tree_seq rd ps' with
      | Some j, Some js => Some (j :: js)
      | _, _ => None
      end
  end.

Fixpoint tree_fields (rd : pyval -> option jvalue) (kvs : list (string * pyval))
  : option (list (string * jvalue)) :=
  match kvs with
  | [] => Some []
  | (k, p) :: kvs' =>
      match rd p, tree_fields rd kvs' with
      | Some j, Some js => Some ((k, j) :: js)
      | _, _ => None
      end
  end.

Fixpoint to_tree (fuel : nat) (h : gmap nat pyobj) (v : pyval) : option jvalue :=
  match v with
  | PNone => Some JNull
  | PBool b => Some (JBool b)
  | PInt z => Some (JNum z)
  | PFloat f => Some (JFloat f)
  | PStr s => Some (JStr s)
  | PRef l =>
      match fuel with
      | O => None
      | S f =>
          match h !! l with
          | Some (OList ps) =>
              match tree_seq (to_tree f h) ps with
              | Some js => Some (JArr js)
              | None => None
              end
          | Some (ODict kvs) =>
              match tree_fields (to_tree f h) kvs with
              | Some js => Some (JObj js)
              | None => None
              end
          | None => None
          end
      end
  end.

(** Python's default recursion limit. *)
Definition recursion_limit : nat := 1000.

(* ================================================================= *)
(** ** The world: heap, DynamoDB table, websocket transport, log *)

(** A row of the DynamoDB table, as [set_user_by_connection_id] writes
    it; boto3 stores the JSON values it is given. *)
Record item : Type := mkItem {
  PK : string;
  merchant_id : jvalue;
  user_id : jvalue;
  ExpirationTime : Z
}.

(** An element of the list [get_connection_ids_by_reference] returns:
    the dict [{"cid": item["PK"], "user_id": item["user_id"]}]. *)
Record conn : Type := mkConn {
  cid : string;
  conn_user_id : jvalue
}.

(** A text frame handed to the websocket: [json.dumps v] is recorded as
    the document [v] it prints ([json.dumps] is injective), any other
    string as itself. *)
Inductive wire : Type :=
| WJson (v : jvalue)
| WText (s : string).

Record world : Type := mkWorld {
  w_heap : gmap nat pyobj;   (** the Python heap *)
  w_next : nat;              (** the next fresh address *)
  w_table : list item;       (** the DynamoDB table, in scan order *)
  w_live : list string;      (** the connections API Gateway still holds *)
  w_clock : Z;               (** [int(time.time())] *)
  w_sent : list (string * wire);  (** every [websocket_api.send] call *)
  w_logs : list string
}.

(** Python statements: state passing with exceptions that keep the
    effects performed before the raise. *)
Definition M (A : Type) : Type := world -> result A * world.

Definition ret {A} (a : A) : M A := fun w => (Ok a, w).

Definition bind {A B} (m : M A) (k : A -> M B) : M B :=
  fun w => match m w with
           | (Ok a, w') => k a w'
           | (Raise e, w') => (Raise e, w')
           end.

Definition raise {A} (e : exn) : M A := fun w => (Raise e, w).

(** [try: m except Exception as e: handler(e)] *)
Definition try_except {A} (m : M A) (handler : exn -> M A) : M A :=
  fun w => match m w with
           | (Raise e, w') => handler e w'
           | r => r
           end.

Notation "'do' x <- m ; k" := (bind m (fun x => k))
  (at level 60, x name, m at next level, right associativity).
Notation "'do_' m ; k" := (bind m (fun _ => k))
  (at level 60, m at next level, right associativity).

Definition modify (f : world -> world) : M unit := fun w => (Ok tt, f w).

Definition set_heap (h : gmap nat pyobj) (n : nat) (w : world) : world :=
  mkWorld h n (w_table w) (w_live w) (w_clock w) (w_sent w) (w_logs w).
Definition set_table (t : list item) (w : world) : world :=
  mkWorld (w_heap w) (w_next w) t (w_live w) (w_clock w) (w_sent w) (w_logs w).
Definition add_sent (m : string * wire) (w : world) : world :=
  mkWorld (w_heap w) (w_next w) (w_table w) (w_live w) (w_clock w) (w_sent w ++ [m]) (w_logs w).
Definition add_log (s : string) (w : world) : world :=
  mkWorld (w_heap w) (w_next w) (w_table w) (w_live w) (w_clock w) (w_sent w) (w_logs w ++ [s]).

Definition log (s : string) : M unit := modify (add_log s).

(* ================================================================= *)
(** ** Python primitives on heap values *)

Definition get_obj (l : nat) : M pyobj :=
  fun w => match w_heap w !! l with
           | Some o => (Ok o, w)
           | None => (Raise Dangling, w)
           end.

Definition put_obj (l : nat) (o : pyobj) : M unit :=
  fun w => (Ok tt, set_heap (<[l := o]> (w_heap w)) (w_next w) w).

(** Building fresh objects ([json.loads], a literal [{}], [deepcopy]). *)
Definition alloc_m (v : jvalue) : M pyval :=
  fun w => let '(p, h', n') := alloc v (w_heap w) (w_next w) in
           (Ok p, set_heap h' n' w).

(** [json.dumps v], as the document it prints. *)
Definition dumps (v : pyval) : M jvalue :=
  fun w => match to_tree recursion_limit (w_heap w) v with
           | Some j => (Ok j, w)
           | None => (Raise RecursionError, w)
           end.

(** [copy.deepcopy v]: the same document in fresh objects. *)
Definition deepcopy (v : pyval) : M pyval :=
  do j <- dumps v; alloc_m j.

(** [v.get(k, dflt)]: only dicts have [get]. *)
Definition py_get (v : pyval) (k : string) (dflt : pyval) : M pyval :=
  match v with
  | PRef l =>
      do o <- get_obj l;
      match o with
      | ODict kvs => ret (match assoc k kvs with Some x => x | None => dflt end)
      | OList _ => raise AttributeError
      end
  | _ => raise AttributeError
  end.

(** [v[k]] with a string key. *)
Definition py_getitem (v : pyval) (k : string) : M pyval :=
  match v with
  | PRef l =>
      do o <- get_obj l;
      match o with
      | ODict kvs => match assoc k kvs with
                     | Some x => ret x
                     | None => raise KeyError
                     end
      | OList _ => raise (TypeError "list indices must be integers or slices, not str")
      end
  | PStr _ => raise (TypeError "string indices must be integers")
  | _ => raise (TypeError "object is not subscriptable")
  end.

(** [del v[k]] with a string key. *)
Definition py_delitem (v : pyval) (k : string) : M unit :=
  match v with
  | PRef l =>
      do o <- get_obj l;
      match o with
      | ODict kvs => match assoc k kvs with
                     | Some _ => put_obj l (ODict (List.filter (fun kv => negb (String.eqb (fst kv) k)) kvs))
                     | None => raise KeyError
                     end
      | OList _ => raise (TypeError "list indices must be integers or slices, not str")
      end
  | _ => raise (TypeError "object does not support item deletion")
  end.

(** [bool(v)]. *)
Definition truthy (v : pyval) : M bool :=
  match v with
  | PNone => ret false
  | PBool b => ret b
  | PInt z => ret (negb (Z.eqb z 0))
  | PFloat f => ret (match f with S754_zero _ => false | _ => true end)
  | PStr s => ret (negb (String.eqb s ""))
  | PRef l =>
      do o <- get_obj l;
      match o with
      | ODict kvs => ret (negb (Nat.eqb (length kvs) 0))
      | OList xs => ret (negb (Nat.eqb (length xs) 0))
      end
  end.

(** [v == s] for a string literal [s]. *)
Definition is_str (v : pyval) (s : string) : bool :=
  match v with
  | PStr t => String.eqb t s
  | _ => false
  end.

(** [x in coll], [x] a value read from the table. *)
Definition py_in (x : jvalue) (coll : pyval) : M bool :=
  match coll with
  | PRef _ =>
      do j <- dumps coll;
      match j with
      | JArr vs => ret (existsb (py_eq x) vs)
      | JObj kvs =>
          match x with
          | JArr _ | JObj _ => raise (TypeError "unhashable type")
          | _ => ret (existsb (fun kv => py_eq x (JStr (fst kv))) kvs)
          end
      | _ => raise Dangling
      end
  | PStr s =>
      match x with
      | JStr t => ret (str_contains s t)
      | _ => raise (TypeError "'in <string>' requires string as left operand")
      end
  | _ => raise (TypeError "argument is not iterable")
  end.

(** [for x in v]: the elements a for loop visits. *)
Definition py_iter (v : pyval) : M (list pyval) :=
  match v with
  | PStr s => ret (map PStr (py_chars s))
  | PRef l =>
      do o <- get_obj l;
      match o with
      | OList xs => ret xs
      | ODict kvs => ret (map (fun kv => PStr (fst kv)) kvs)
      end
  | _ => raise (TypeError "object is not iterable")
  end.

(** [f"{v}"]. *)
Definition fstring (v : pyval) : M string :=
  match v with
  | PStr s => ret s
  | PNone => ret "None"
  | PBool true => ret "True"
  | PBool false => ret "False"
  | PInt z => match int_str z with Some t => ret t | None => raise ValueError end
  | PFloat f => ret (float_repr f)
  | PRef _ => do j <- dumps v;
              match py_repr j with Some t => ret t | None => raise ValueError end
  end.

(* ================================================================= *)
(** ** Storage *)

(** [table.put_item]: a row with the same primary key is replaced. *)
Fixpoint put_item (it : item) (t : list item) : list item :=
  match t with
  | [] => [it]
  | it' :: t' => if String.eqb (PK it') (PK it) then it :: t' else it' :: put_item it t'
  end.

(** [table.delete_item(Key={"PK": pk})]. *)
Definition delete_item (pk : string) (t : list item) : list item :=
  List.filter (fun it => negb (String.eqb (PK it) pk)) t.

(** boto3's [TypeSerializer] on a value it sends: a float anywhere
    raises [TypeError], an int of more than 38 digits [decimal.Rounded]
    (its [DYNAMODB_CONTEXT] traps rounding). *)
Fixpoint ddb_error (v : jvalue) : option exn :=
  match v with
  | JFloat _ => Some (TypeError "Float types are not supported. Use Decimal types instead.")
  | JNum z => if (Z.abs z <? 10 ^ 38)%Z then None else Some Rounded
  | JArr vs =>
      (fix go (vs : list jvalue) : option exn :=
         match vs with
         | [] => None
         | v :: vs' => match ddb_error v with Some e => Some e | None => go vs' end
         end) vs
  | JObj kvs =>
      (fix go (kvs : list (string * jvalue)) : option exn :=
         match kvs with
         | [] => None
         | (_, v) :: kvs' => match ddb_error v with Some e => Some e | None => go kvs' end
         end) kvs
  | _ => None
  end.

Definition ddb_ok (v : jvalue) : bool :=
  match ddb_error v with None => true | Some _ => false end.

(** The first serialization error among the values of a request. *)
Fixpoint ddb_errors (vs : list jvalue) : option exn :=
  match vs with
  | [] => None
  | v :: vs' => match ddb_error v with Some e => Some e | None => ddb_errors vs' end
  end.

(** [table.put_item(Item=...)]: the item is serialized, then the service
    refuses an empty string as the key [PK].  [ExpirationTime] is a
    clock reading, always a number DynamoDB takes.  The service's size
    and nesting limits (400 KB an item, 32 levels) are not modelled. *)
Definition put_item_m (it : item) : M unit :=
  match ddb_errors [merchant_id it; user_id it] with
  | Some e => raise e
  | None =>
      if String.eqb (PK it) "" then raise (ClientError "ValidationException")
      else modify (fun w => set_table (put_item it (w_table w)) w)
  end.

(** [table.scan(FilterExpression=...)] with the values [vals] in the
    filter: the values are serialized, then one response, no
    [LastEvaluatedKey] (the table fits in one scan page). *)
Definition scan (vals : list jvalue) (p : item -> bool) : M (list item) :=
  fun w => match ddb_errors vals with
           | Some e => (Raise e, w)
           | None => (Ok (List.filter p (w_table w)), w)
           end.

Definition set_user_by_connection_id (connection_id : string)
    (merchant_id user_id : pyval) (ts : Z) : M string :=
  do_ try_except
        (do m <- dumps merchant_id;
         do u <- dumps user_id;
         put_item_m (mkItem connection_id m u ts))
        (fun _ => log "message_handle frontend ERROR");
  ret connection_id.

(** The [for user_id in user_ids] loop; [done] is the flag the loop
    shares with the [__all__] branch. *)
Fixpoint scan_users (merchant : jvalue) (us : list pyval) (done : bool)
    (data : list item) : M (list item) :=
  match us with
  | [] => ret data
  | u :: us' =>
      do s <- fstring u;
      if done then scan_users merchant us' done data
      else
        do items <- scan [merchant; JStr s]
                         (fun it => jv_eqb (merchant_id it) merchant
                                    && jv_eqb (user_id it) (JStr s));
        scan_users merchant us' true (data ++ items)
  end.

Definition get_connection_ids_by_reference (merchant : pyval) (user_ids : pyval)
  : M (list conn) :=
  do m <- dumps merchant;
  do data <-
    (if is_str user_ids "__all__" then
       scan [m] (fun it => jv_eqb (merchant_id it) m)
     else
       do us <- py_iter user_ids;
       scan_users m us false []);
  ret (map (fun it => mkConn (PK it) (user_id it)) data).

Definition delete_connection (connection_id : string) : M string :=
  do_ log ("delete_connection connection_id: " ++ connection_id);
  do_ (if String.eqb connection_id "" then ret tt
       else modify (fun w => set_table (delete_item connection_id (w_table w)) w));
  ret connection_id.

(* ================================================================= *)
(** ** Sender *)

(** [app.websocket_api.send]: the frame is handed to API Gateway, which
    answers with [WebsocketDisconnectedError] for a closed connection. *)
Definition websocket_send (connection_id : string) (data : wire) : M unit :=
  fun w =>
    let w' := add_sent (connection_id, data) w in
    if existsb (String.eqb connection_id) (w_live w) then (Ok tt, w')
    else (Raise WebsocketDisconnectedError, w').

Definition send (connection_id : string) (data : wire) : M unit :=
  try_except (websocket_send connection_id data)
    (fun e => match e with
              | WebsocketDisconnectedError => do_ delete_connection connection_id; ret tt
              | e => raise e
              end).

(** One iteration of the loop of [broadcast]. *)
Definition broadcast_one (c : conn) (data : pyval) : M unit :=
  do message_data <- deepcopy data;
  do audience <- py_get data "audience" PNone;
  do allowed <- py_get audience "message" PNone;
  do is_in <- py_in (conn_user_id c) allowed;
  if is_in then
    do j <- dumps data; send (cid c) (WJson j)
  else
    do content <- py_getitem message_data "content";
    do m <- py_getitem content "message";
    do b <- truthy m;
    do_ (if b then
           do content' <- py_getitem message_data "content";
           py_delitem content' "message"
         else ret tt);
    do j <- dumps message_data;
    send (cid c) (WJson j).

Fixpoint broadcast_loop (connection_ids : list conn) (data : pyval) : M unit :=
  match connection_ids with
  | [] => ret tt
  | c :: rest => do_ broadcast_one c data; broadcast_loop rest data
  end.

Definition broadcast (connection_ids : list conn) (data : pyval) : M (list conn) :=
  do_ broadcast_loop connection_ids data; ret connection_ids.

(* ================================================================= *)
(** ** Handler *)

Definition now : M Z := fun w => (Ok (w_clock w), w).

(** [merchant_id and user_id] in a condition. *)
Definition both_truthy (a b : pyval) : M bool :=
  do x <- truthy a; if x then truthy b else ret false.

Definition handle_frontend (connection_id : string) (merchant_id user_id : pyval)
  : M string :=
  do ts <- now;
  do ok <- both_truthy merchant_id user_id;
  if ok then
    do_ set_user_by_connection_id connection_id merchant_id user_id ts;
    ret connection_id
  else raise (TypeError "merchant_id and user_id is required").

Definition handle_backend (merchant_id user_id : pyval) : M (list conn) :=
  try_except
    (do ok <- both_truthy merchant_id user_id;
     if ok then
       do connection_ids <- get_connection_ids_by_reference merchant_id user_id;
       do_ log "connection ids";
       ret connection_ids
     else raise (TypeError "merchant_id and user_id is required"))
    (fun _ => do_ log "message_handle backend ERROR"; ret []).

(** The [if client == ...] chain of [Handler.handle]. *)
Definition dispatch (connection_id : string) (data client merchant_id user_id : pyval)
  : M unit :=
  if is_str client "frontend" then
    do_ handle_frontend connection_id merchant_id user_id; ret tt
  else if is_str client "backend" then
    do connection_ids <- handle_backend merchant_id user_id;
    match connection_ids with
    | [] => ret tt
    | _ :: _ => do_ broadcast connection_ids data; ret tt
    end
  else if is_str client "ping" then
    send connection_id (WText "pong")
  else log "message_handle client expecting frontend or backend".

(** [Handler.handle]; [None] is the absent body. *)
Definition handle (connection_id : string) (message : option string) : M unit :=
  match message with
  | Some s =>
      if String.eqb s "" then log "message_handle message body not found"
      else
        match json_loads s with
        | Raise e => raise e
        | Ok j =>
            do data <- alloc_m j;
            do id <- py_get data "id" PNone;
            do client <- py_get id "type" PNone;
            do empty1 <- alloc_m (JObj []);
            do audience <- py_get data "audience" empty1;
            do user_id <- py_get audience "data" (PStr "");
            do empty2 <- alloc_m (JObj []);
            do id' <- py_get data "id" empty2;
            do merchant_id <- py_get id' "merchant_id" (PStr "");
            dispatch connection_id data client merchant_id user_id
        end
  | None => log "message_handle message body not found"
  end.

(* ================================================================= *)
(** ** The routes of app.py *)

(** [Storage.create_connection]: the new connection is only logged; its
    row is written by its first [frontend] message. *)
Definition create_connection (connection_id : string) : M unit :=
  log ("create_connection connection_id: " ++ connection_id).

(** [@app.on_ws_connect] *)
Definition connect (connection_id : string) : M unit :=
  create_connection connection_id.

(** [@app.on_ws_disconnect] *)
Definition disconnect (connection_id : string) : M unit :=
  do_ delete_connection connection_id; ret tt.

(** [@app.on_ws_message]: [body] is the frame's text. *)
Definition message (connection_id : string) (body : option string) : M unit :=
  handle connection_id body.

(* ================================================================= *)
(** ** Sample worlds *)

Definition world0 : world := mkWorld ∅ 0 [] [] 1665500000 [] [].

Definition with_table (t : list item) (live : list string) : world :=
  mkWorld ∅ 0 t live 1665500000 [] [].

Definition run {A} (m : M A) (w : world) : result A * world := m w.

(* ================================================================= *)
(** ** Vocabulary of the statements *)

(** Nesting depth of a document: the recursion depth [json.dumps] needs. *)
Fixpoint depth (v : jvalue) : nat :=
  match v with
  | JArr vs => S (list_max (map depth vs))
  | JObj kvs => S (list_max (map (fun kv => depth (snd kv)) kvs))
  | _ => 0
  end.

(** [d.get(k, dflt)] on a document. *)
Definition get_or (kvs : list (string * jvalue)) (k : string) (d : jvalue) : jvalue :=
  match assoc k kvs with Some v => v | None => d end.

(** [v == s] on the document [v]. *)
Definition jv_is_str (v : jvalue) (s : string) : bool :=
  match v with JStr t => String.eqb t s | _ => false end.

(** The [id] object of a parsed message, when there is one. *)
Definition id_block (j : jvalue) : option (list (string * jvalue)) :=
  match j with
  | JObj kvs => match assoc "id" kvs with Some (JObj ikvs) => Some ikvs | _ => None end
  | _ => None
  end.

(** The registrations a scan for [merchant] and the user id [u] keeps. *)
Definition matches (merchant : jvalue) (u : string) (it : item) : bool :=
  jv_eqb (merchant_id it) merchant && jv_eqb (user_id it) (JStr u).

Definition to_conn (it : item) : conn := mkConn (PK it) (user_id it).

(** Truthiness of the Python object a document is parsed into. *)
Definition jtruthy (v : jvalue) : bool :=
  match v with
  | JNull => false
  | JBool b => b
  | JNum z => negb (Z.eqb z 0)
  | JFloat f => match f with S754_zero _ => false | _ => true end
  | JStr s => negb (String.eqb s "")
  | JArr vs => negb (Nat.eqb (length vs) 0)
  | JObj kvs => negb (Nat.eqb (length kvs) 0)
  end.

Fixpoint update_first (k : string) (f : jvalue -> jvalue)
    (kvs : list (string * jvalue)) : list (string * jvalue) :=
  match kvs with
  | [] => []
  | (k', v) :: rest =>
      if String.eqb k k' then (k', f v) :: rest else (k', v) :: update_first k f rest
  end.

Definition drop_message {A} (kvs : list (string * A)) : list (string * A) :=
  List.filter (fun kv => negb (String.eqb (fst kv) "message")) kvs.

Definition strip_content (c : jvalue) : jvalue :=
  match c with
  | JObj ckvs => JObj (drop_message ckvs)
  | c => c
  end.

(** The payload with its [content.message] field taken out and every
    other field as it is. *)
Definition strip_message (v : jvalue) : jvalue :=
  match v with
  | JObj kvs => JObj (update_first "content" strip_content kvs)
  | v => v
  end.

(** Whether a recipient is on the [audience.message] allow-list. *)
Definition is_allowed (allow : list jvalue) (c : conn) : bool :=
  existsb (py_eq (conn_user_id c)) allow.

(** The frame each recipient is sent, for a payload [v] whose allow-list
    is [allow] and whose [content.message] is [mv]. *)
Definition frame_for (v : jvalue) (allow : list jvalue) (mv : jvalue) (c : conn)
  : string * wire :=
  (cid c, WJson (if is_allowed allow c then v
                 else if jtruthy mv then strip_message v else v)).

(** The registry after a send to [c]: its row is deleted when the
    connection is gone. *)
Definition cleanup (live : list string) (t : list item) (c : conn) : list item :=
  if existsb (String.eqb (cid c)) live then t
  else if String.eqb (cid c) "" then t
  else delete_item (cid c) t.

(** The world after [table.put_item(Item=it)] inside the [try] of
    [set_user_by_connection_id]: the row is written, or the refusal is
    logged and the table left as it is. *)
Definition after_put (it : item) (w : world) : world :=
  if ddb_ok (merchant_id it) && ddb_ok (user_id it) && negb (String.eqb (PK it) "")
  then set_table (put_item it (w_table w)) w
  else add_log "message_handle frontend ERROR" w.

(** [allocd h lo hi p v]: the Python value [p] holds the document [v],
    with all its objects in heap [h] at addresses in [lo, hi), and the
    objects of different fields at disjoint addresses. *)
Inductive allocd (h : gmap nat pyobj) : nat -> nat -> pyval -> jvalue -> Prop :=
| al_null lo hi : lo <= hi -> allocd h lo hi PNone JNull
| al_bool lo hi b : lo <= hi -> allocd h lo hi (PBool b) (JBool b)
| al_num lo hi z : lo <= hi -> allocd h lo hi (PInt z) (JNum z)
| al_float lo hi x : lo <= hi -> allocd h lo hi (PFloat x) (JFloat x)
| al_str lo hi s : lo <= hi -> allocd h lo hi (PStr s) (JStr s)
| al_arr lo top hi ps vs :
    allocd_seq h lo top ps vs -> h !! top = Some (OList ps) -> top < hi ->
    allocd h lo hi (PRef top) (JArr vs)
| al_obj lo top hi ps kvs :
    allocd_fields h lo top ps kvs -> h !! top = Some (ODict ps) -> top < hi ->
    allocd h lo hi (PRef top) (JObj kvs)
with allocd_seq (h : gmap nat pyobj) : nat -> nat -> list pyval -> list jvalue -> Prop :=
| as_nil lo hi : lo <= hi -> allocd_seq h lo hi [] []
| as_cons lo mid hi p v ps vs :
    allocd h lo mid p v -> allocd_seq h mid hi ps vs ->
    allocd_seq h lo hi (p :: ps) (v :: vs)
with allocd_fields (h : gmap nat pyobj) : nat -> nat -> list (string * pyval)
    -> list (string * jvalue) -> Prop :=
| af_nil lo hi : lo <= hi -> allocd_fields h lo hi [] []
| af_cons lo mid hi k p v ps kvs :
    allocd h lo mid p v -> allocd_fields h mid hi ps kvs ->
    allocd_fields h lo hi ((k, p) :: ps) ((k, v) :: kvs).

Scheme allocd_ind3 := Induction for allocd Sort Prop
  with allocd_seq_ind3 := Induction for allocd_seq Sort Prop
  with allocd_fields_ind3 := Induction for allocd_fields Sort Prop.
Combined Scheme allocd_mutind from allocd_ind3, allocd_seq_ind3, allocd_fields_ind3.

(** The payload of the test suite's [backend_data], shortened, already
    parsed and laid out in a heap of its own. *)
Definition sample_content : list (string * jvalue) :=
  [("alert", JStr "success");
   ("message", JStr "Payment request report generation has finished.");
   ("data", JObj [("id", JNum 18); ("status", JStr "FINISHED")])].

Definition sample_audience : list (string * jvalue) :=
  [("data", JStr "__all__"); ("message", JArr [JStr "72"])].

Definition sample_kvs : list (string * jvalue) :=
  [("id", JObj [("merchant_id", JStr "staging4.ottu.dev"); ("type", JStr "backend")]);
   ("audience", JObj sample_audience);
   ("content", JObj sample_content)].

Definition sample_alloc : pyval * gmap nat pyobj * nat := alloc (JObj sample_kvs) ∅ 0.

Definition sample_data : pyval := fst (fst sample_alloc).

(** A heap holding the list [["72", "99"]] at address 0, and a registry
    with one row for each of these user ids. *)
Definition two_ids_world : world :=
  mkWorld {[0 := OList [PStr "72"; PStr "99"]]} 1
    [mkItem "c1" (JStr "m") (JStr "72") 0; mkItem "c2" (JStr "m") (JStr "99") 0]
    [] 0 [] [].

(** A heap holding the list [["72"]] at address 0, and a registry with a
    row of another user. *)
Definition one_id_world : world :=
  mkWorld {[0 := OList [PStr "72"]]} 1
    [mkItem "2001" (JStr "staging.ottu.dev") (JStr "99") 0] [] 0 [] [].

(** A heap holding the list [[72]] (an integer) at address 0, and a
    registry with the user id "72" once as a string and once as a number. *)
Definition int_id_world : world :=
  mkWorld {[0 := OList [PInt 72]]} 1
    [mkItem "c1" (JStr "m") (JStr "72") 0; mkItem "c2" (JStr "m") (JNum 72) 0] [] 0 [] [].

(** A heap holding an empty list at address 0. *)
Definition empty_ids_world : world :=
  mkWorld {[0 := OList []]} 1 [mkItem "c1" (JStr "m") (JStr "72") 0] [] 0 [] [].

Definition sample_world (t : list item) (live : list string) : world :=
  mkWorld (snd (fst sample_alloc)) (snd sample_alloc) t live 1665500000 [] [].

(* ================================================================= *)
(** * Proofs *)

(** ** The heap: allocation and reading back *)

Section jvalue_induction.
  Variable P : jvalue -> Prop.
  Hypothesis P_null : P JNull.
  Hypothesis P_bool : forall b, P (JBool b).
  Hypothesis P_num : forall z, P (JNum z).
  Hypothesis P_float : forall f, P (JFloat f).
  Hypothesis P_str : forall s, P (JStr s).
  Hypothesis P_arr : forall vs, Forall P vs -> P (JArr vs).
  Hypothesis P_obj : forall kvs, Forall (fun kv => P (snd kv)) kvs -> P (JObj kvs).

Fixpoint jvalue_ind' (v : jvalue) : P v :=
    match v with
    | JNull => P_null
    | JBool b => P_bool b
    | JNum z => P_num z
    | JFloat f => P_float f
    | JStr s => P_str s
    | JArr vs =>
        P_arr vs ((fix go (vs : list jvalue) : Forall P vs :=
                     match vs with
                     | [] => List.Forall_nil _
                     | v :: vs' => @List.Forall_cons _ P v vs' (jvalue_ind' v) (go vs')
                     end) vs)
    | JObj kvs =>
        P_obj kvs ((fix go (kvs : list (string * jvalue)) : Forall (fun kv => P (snd kv)) kvs :=
                      match kvs with
                      | [] => List.Forall_nil _
                      | kv :: kvs' => @List.Forall_cons _ (fun kv => P (snd kv)) kv kvs' (jvalue_ind' (snd kv)) (go kvs')
                      end) kvs)
    end.
End jvalue_induction.

Lemma allocd_bounds h :
  (forall lo hi p v, allocd h lo hi p v ->
     lo <= hi /\ forall t, p = PRef t -> lo <= t < hi) /\
  (forall lo hi ps vs, allocd_seq h lo hi ps vs -> lo <= hi) /\
  (forall lo hi ps kvs, allocd_fields h lo hi ps kvs -> lo <= hi).
Proof.
  apply allocd_mutind; intros;
    repeat match goal with Hc : _ /\ _ |- _ => destruct Hc end;
    try (split; [lia | intros t' Heq; try discriminate; injection Heq as <-; lia]);
    lia.
Qed.

Lemma allocd_le h lo hi p v : allocd h lo hi p v -> lo <= hi.
Proof. intros H. apply (proj1 (allocd_bounds h)) in H. tauto. Qed.

Lemma allocd_ref h lo hi t v : allocd h lo hi (PRef t) v -> lo <= t < hi.
Proof. intros H. apply (proj1 (allocd_bounds h)) in H. destruct H as [_ H]. auto. Qed.

Lemma allocd_fields_le h lo hi ps kvs : allocd_fields h lo hi ps kvs -> lo <= hi.
Proof. intros H. apply (proj2 (proj2 (allocd_bounds h))) in H. exact H. Qed.

Lemma allocd_seq_le h lo hi ps vs : allocd_seq h lo hi ps vs -> lo <= hi.
Proof. intros H. apply (proj1 (proj2 (allocd_bounds h))) in H. exact H. Qed.

(** Only the addresses of its region matter to a document's objects. *)
Lemma allocd_frame_all h h' :
  (forall lo hi p v, allocd h lo hi p v ->
     (forall l, lo <= l < hi -> h' !! l = h !! l) -> allocd h' lo hi p v) /\
  (forall lo hi ps vs, allocd_seq h lo hi ps vs ->
     (forall l, lo <= l < hi -> h' !! l = h !! l) -> allocd_seq h' lo hi ps vs) /\
  (forall lo hi ps kvs, allocd_fields h lo hi ps kvs ->
     (forall l, lo <= l < hi -> h' !! l = h !! l) -> allocd_fields h' lo hi ps kvs).
Proof.
  apply allocd_mutind; intros; try (constructor; lia).
  - pose proof (allocd_seq_le _ _ _ _ _ a).
    eapply al_arr; [apply H; intros; apply H0; lia | rewrite H0 by lia; exact e | exact l].
  - pose proof (allocd_fields_le _ _ _ _ _ a).
    eapply al_obj; [apply H; intros; apply H0; lia | rewrite H0 by lia; exact e | exact l].
  - pose proof (allocd_le _ _ _ _ _ a). pose proof (allocd_seq_le _ _ _ _ _ a0).
    econstructor; [apply H | apply H0]; intros; apply H1; lia.
  - pose proof (allocd_le _ _ _ _ _ a). pose proof (allocd_fields_le _ _ _ _ _ a0).
    econstructor; [apply H | apply H0]; intros; apply H1; lia.
Qed.

Lemma allocd_frame h h' lo hi p v :
  allocd h lo hi p v -> (forall l, lo <= l < hi -> h' !! l = h !! l) ->
  allocd h' lo hi p v.
Proof. apply (proj1 (allocd_frame_all h h')). Qed.

Lemma allocd_widen_all h :
  (forall lo hi p v, allocd h lo hi p v ->
     forall lo' hi', lo' <= lo -> hi <= hi' -> allocd h lo' hi' p v) /\
  (forall lo hi ps vs, allocd_seq h lo hi ps vs ->
     forall lo' hi', lo' <= lo -> hi <= hi' -> allocd_seq h lo' hi' ps vs) /\
  (forall lo hi ps kvs, allocd_fields h lo hi ps kvs ->
     forall lo' hi', lo' <= lo -> hi <= hi' -> allocd_fields h lo' hi' ps kvs).
Proof.
  apply allocd_mutind; intros; try (constructor; lia).
  - eapply al_arr; [apply H; lia | exact e | lia].
  - eapply al_obj; [apply H; lia | exact e | lia].
  - pose proof (allocd_le _ _ _ _ _ a).
    apply as_cons with mid; [apply H; lia | apply H0; lia].
  - pose proof (allocd_le _ _ _ _ _ a).
    apply af_cons with mid; [apply H; lia | apply H0; lia].
Qed.

Lemma allocd_fields_widen h lo hi ps kvs lo' hi' :
  allocd_fields h lo hi ps kvs -> lo' <= lo -> hi <= hi' -> allocd_fields h lo' hi' ps kvs.
Proof. intros H. apply (proj2 (proj2 (allocd_widen_all h))); auto. Qed.

Definition alloc_post (v : jvalue) (h : gmap nat pyobj) (n : nat)
    (r : pyval * gmap nat pyobj * nat) : Prop :=
  let '(p, h', n') := r in
  n <= n' /\ (forall l, l < n \/ n' <= l -> h' !! l = h !! l) /\ allocd h' n n' p v.

Lemma alloc_spec v h n : alloc_post v h n (alloc v h n).
Proof.
  revert h n. induction v as [| b | z | f | s | vs IH | kvs IH] using jvalue_ind';
    intros h n; simpl; try (split; [lia | split; [auto | constructor; lia]]).
  - assert (Hseq : forall h n, let '(ps, h1, n1) := alloc_seq alloc vs h n in
              n <= n1 /\ (forall l, l < n \/ n1 <= l -> h1 !! l = h !! l) /\
              allocd_seq h1 n n1 ps vs).
    { clear h n. induction IH as [| v vs Hv _ IHvs]; intros h n; simpl.
      - split; [lia | split; [auto | constructor; lia]].
      - specialize (Hv h n). destruct (alloc v h n) as [[p h1] n1].
        destruct Hv as (Hle1 & Hfr1 & Hal1).
        specialize (IHvs h1 n1). destruct (alloc_seq alloc vs h1 n1) as [[ps h2] n2].
        destruct IHvs as (Hle2 & Hfr2 & Hal2).
        split; [lia | split].
        + intros l [Hl | Hl]; rewrite Hfr2 by lia; apply Hfr1; lia.
        + econstructor; [| exact Hal2].
          eapply allocd_frame; [exact Hal1 |]. intros; apply Hfr2; lia. }
    specialize (Hseq h n). destruct (alloc_seq alloc vs h n) as [[ps h1] n1].
    destruct Hseq as (Hle & Hfr & Hal).
    split; [lia | split].
    + intros l Hl. rewrite lookup_insert_ne by lia. apply Hfr; lia.
    + eapply al_arr; [| apply lookup_insert_eq | lia].
      eapply allocd_frame_all; [exact Hal |]. intros. rewrite lookup_insert_ne by lia. done.
  - assert (Hf : forall h n, let '(ps, h1, n1) := alloc_fields alloc kvs h n in
              n <= n1 /\ (forall l, l < n \/ n1 <= l -> h1 !! l = h !! l) /\
              allocd_fields h1 n n1 ps kvs).
    { clear h n. induction IH as [| [k v] kvs Hv _ IHkvs]; intros h n; simpl.
      - split; [lia | split; [auto | constructor; lia]].
      - specialize (Hv h n). simpl in Hv. destruct (alloc v h n) as [[p h1] n1].
        destruct Hv as (Hle1 & Hfr1 & Hal1).
        specialize (IHkvs h1 n1). destruct (alloc_fields alloc kvs h1 n1) as [[ps h2] n2].
        destruct IHkvs as (Hle2 & Hfr2 & Hal2).
        split; [lia | split].
        + intros l [Hl | Hl]; rewrite Hfr2 by lia; apply Hfr1; lia.
        + econstructor; [| exact Hal2].
          eapply allocd_frame; [exact Hal1 |]. intros; apply Hfr2; lia. }
    specialize (Hf h n). destruct (alloc_fields alloc kvs h n) as [[ps h1] n1].
    destruct Hf as (Hle & Hfr & Hal).
    split; [lia | split].
    + intros l Hl. rewrite lookup_insert_ne by lia. apply Hfr; lia.
    + eapply al_obj; [| apply lookup_insert_eq | lia].
      eapply allocd_frame_all; [exact Hal |]. intros. rewrite lookup_insert_ne by lia. done.
Qed.

Lemma allocd_to_tree_all h :
  (forall lo hi p v, allocd h lo hi p v ->
     forall f, depth v <= f -> to_tree f h p = Some v) /\
  (forall lo hi ps vs, allocd_seq h lo hi ps vs ->
     forall f, list_max (map depth vs) <= f -> tree_seq (to_tree f h) ps = Some vs) /\
  (forall lo hi ps kvs, allocd_fields h lo hi ps kvs ->
     forall f, list_max (map (fun kv => depth (snd kv)) kvs) <= f ->
     tree_fields (to_tree f h) ps = Some kvs).
Proof.
  apply allocd_mutind; intros; try (destruct f; reflexivity).
  - destruct f as [| f]; simpl in *; [lia |]. rewrite e, H by lia. reflexivity.
  - destruct f as [| f]; simpl in *; [lia |]. rewrite e, H by lia. reflexivity.
  - simpl in *. rewrite H, H0 by lia. reflexivity.
  - simpl in *. rewrite H, H0 by lia. reflexivity.
Qed.

Lemma allocd_to_tree h lo hi p v f :
  allocd h lo hi p v -> depth v <= f -> to_tree f h p = Some v.
Proof. intros H. apply (proj1 (allocd_to_tree_all h)) with lo hi; exact H. Qed.

Lemma to_tree_frame_all h h' :
  (forall lo hi p v, allocd h lo hi p v ->
     (forall l, lo <= l < hi -> h' !! l = h !! l) ->
     forall f, to_tree f h' p = to_tree f h p) /\
  (forall lo hi ps vs, allocd_seq h lo hi ps vs ->
     (forall l, lo <= l < hi -> h' !! l = h !! l) ->
     forall f, tree_seq (to_tree f h') ps = tree_seq (to_tree f h) ps) /\
  (forall lo hi ps kvs, allocd_fields h lo hi ps kvs ->
     (forall l, lo <= l < hi -> h' !! l = h !! l) ->
     forall f, tree_fields (to_tree f h') ps = tree_fields (to_tree f h) ps).
Proof.
  apply allocd_mutind; intros; try (destruct f; reflexivity).
  - pose proof (allocd_seq_le _ _ _ _ _ a).
    destruct f as [| f]; [reflexivity |]. simpl.
    rewrite H0 by lia. rewrite e. rewrite H by (intros; apply H0; lia). reflexivity.
  - pose proof (allocd_fields_le _ _ _ _ _ a).
    destruct f as [| f]; [reflexivity |]. simpl.
    rewrite H0 by lia. rewrite e. rewrite H by (intros; apply H0; lia). reflexivity.
  - pose proof (allocd_le _ _ _ _ _ a). pose proof (allocd_seq_le _ _ _ _ _ a0).
    simpl. rewrite H, H0 by (intros; apply H1; lia). reflexivity.
  - pose proof (allocd_le _ _ _ _ _ a). pose proof (allocd_fields_le _ _ _ _ _ a0).
    simpl. rewrite H, H0 by (intros; apply H1; lia). reflexivity.
Qed.

Lemma to_tree_frame h h' lo hi p v f :
  allocd h lo hi p v -> (forall l, lo <= l < hi -> h' !! l = h !! l) ->
  to_tree f h' p = to_tree f h p.
Proof. intros H1 H2. eapply (proj1 (to_tree_frame_all h h')); eauto. Qed.

(** Field lookup in a dict built from a document. *)
Lemma allocd_fields_assoc h lo hi ps kvs k :
  allocd_fields h lo hi ps kvs ->
  match assoc k kvs with
  | None => assoc k ps = None
  | Some v => exists p lo' hi', assoc k ps = Some p /\ allocd h lo' hi' p v /\
                                lo <= lo' /\ hi' <= hi
  end.
Proof.
  induction 1 as [lo hi Hle | lo mid hi k' p v ps kvs Hp Hrest IH]; simpl; [done |].
  pose proof (allocd_fields_le _ _ _ _ _ Hrest). pose proof (allocd_le _ _ _ _ _ Hp).
  destruct (String.eqb k k').
  - exists p, lo, mid. repeat split; auto; lia.
  - destruct (assoc k kvs) as [v' |]; [| exact IH].
    destruct IH as (p' & lo' & hi' & H1 & H2 & H3 & H4).
    exists p', lo', hi'. repeat split; auto; lia.
Qed.

Lemma allocd_fields_length h lo hi ps kvs :
  allocd_fields h lo hi ps kvs -> length ps = length kvs.
Proof. induction 1; simpl; auto. Qed.

Lemma allocd_seq_length h lo hi ps vs :
  allocd_seq h lo hi ps vs -> length ps = length vs.
Proof. induction 1; simpl; auto. Qed.

Lemma allocd_obj_inv h lo hi p kvs :
  allocd h lo hi p (JObj kvs) ->
  exists top ps, p = PRef top /\ h !! top = Some (ODict ps) /\
                 allocd_fields h lo top ps kvs /\ top < hi.
Proof. inversion 1; subst. eauto 7. Qed.

Lemma allocd_arr_inv h lo hi p vs :
  allocd h lo hi p (JArr vs) ->
  exists top ps, p = PRef top /\ h !! top = Some (OList ps) /\
                 allocd_seq h lo top ps vs /\ top < hi.
Proof. inversion 1; subst. eauto 7. Qed.

Lemma allocd_str_inv h lo hi p s : allocd h lo hi p (JStr s) -> p = PStr s.
Proof. inversion 1; auto. Qed.

Lemma depth_assoc k kvs v :
  assoc k kvs = Some v -> depth v < depth (JObj kvs).
Proof.
  simpl. induction kvs as [| [k' v'] kvs IH]; simpl; [discriminate |].
  destruct (String.eqb k k'); [intros [= <-]; lia |]. intros H. apply IH in H. lia.
Qed.

(** Python operations that only read the world. *)
Lemma py_get_allocd w lo hi p kvs k d :
  allocd (w_heap w) lo hi p (JObj kvs) ->
  exists top ps, p = PRef top /\ w_heap w !! top = Some (ODict ps) /\
    allocd_fields (w_heap w) lo top ps kvs /\ top < hi /\
    py_get p k d w = (Ok (match assoc k ps with Some x => x | None => d end), w).
Proof.
  intros H. apply allocd_obj_inv in H as (top & ps & -> & Hl & Hf & Hlt).
  exists top, ps. repeat split; auto.
  unfold py_get, bind, get_obj. rewrite Hl. reflexivity.
Qed.

Lemma truthy_allocd w lo hi p v :
  allocd (w_heap w) lo hi p v -> truthy p w = (Ok (jtruthy v), w).
Proof.
  inversion 1; subst; try reflexivity.
  - unfold truthy, bind, get_obj. rewrite H1. simpl.
    apply allocd_seq_length in H0. rewrite H0. reflexivity.
  - unfold truthy, bind, get_obj. rewrite H1. simpl.
    apply allocd_fields_length in H0. rewrite H0. reflexivity.
Qed.

Lemma dumps_allocd w lo hi p v :
  allocd (w_heap w) lo hi p v -> depth v <= recursion_limit ->
  dumps p w = (Ok v, w).
Proof. intros H Hd. unfold dumps. erewrite allocd_to_tree; eauto. Qed.

(** ** Effects of the primitives *)

Definition readonly {A} (m : M A) : Prop := forall w, snd (m w) = w.

Create HintDb readonly.

Lemma readonly_ret {A} (a : A) : readonly (ret a).
Proof. intros w; reflexivity. Qed.

Lemma readonly_raise {A} e : readonly (@raise A e).
Proof. intros w; reflexivity. Qed.

Lemma readonly_bind {A B} (m : M A) (k : A -> M B) :
  readonly m -> (forall a, readonly (k a)) -> readonly (bind m k).
Proof.
  intros Hm Hk w. unfold bind. specialize (Hm w).
  destruct (m w) as [[a | e] w'] eqn:E; simpl in Hm; subst; [apply Hk | reflexivity].
Qed.

Lemma readonly_get_obj l : readonly (get_obj l).
Proof. intros w. unfold get_obj. destruct (w_heap w !! l); reflexivity. Qed.

Lemma readonly_dumps v : readonly (dumps v).
Proof. intros w. unfold dumps. destruct (to_tree _ _ _); reflexivity. Qed.

#[local] Hint Resolve readonly_ret readonly_raise readonly_bind readonly_get_obj
  readonly_dumps : readonly.

Ltac readonly_tac :=
  repeat (apply readonly_bind; [auto with readonly | intros ?]);
  repeat match goal with
         | |- readonly (match ?x with _ => _ end) => destruct x
         | |- readonly (bind _ _) => apply readonly_bind; [auto with readonly | intros ?]
         end; auto with readonly.

Lemma readonly_py_get v k d : readonly (py_get v k d).
Proof. unfold py_get. destruct v; readonly_tac. Qed.

Lemma readonly_py_getitem v k : readonly (py_getitem v k).
Proof. unfold py_getitem. destruct v; readonly_tac. Qed.

Lemma readonly_truthy v : readonly (truthy v).
Proof. unfold truthy. destruct v; readonly_tac. Qed.

Lemma readonly_py_in x v : readonly (py_in x v).
Proof. unfold py_in. destruct v; readonly_tac. Qed.

Lemma run_readonly {A} (m : M A) w : readonly m -> m w = (fst (m w), w).
Proof. intros H. specialize (H w). destruct (m w); simpl in *; subst; reflexivity. Qed.

Lemma delete_connection_heap x w :
  w_heap (snd (delete_connection x w)) = w_heap w /\
  w_next (snd (delete_connection x w)) = w_next w /\
  w_live (snd (delete_connection x w)) = w_live w /\
  w_sent (snd (delete_connection x w)) = w_sent w /\
  w_table (snd (delete_connection x w)) =
    (if String.eqb x "" then w_table w else delete_item x (w_table w)) /\
  fst (delete_connection x w) = Ok x.
Proof.
  unfold delete_connection, bind, log, modify, ret. simpl.
  destruct (String.eqb x ""); simpl; repeat split.
Qed.

(** [Sender.send] never raises; for a closed connection it deletes the
    connection's row. *)
Lemma send_eq x d w :
  send x d w =
  (Ok tt, if existsb (String.eqb x) (w_live w) then add_sent (x, d) w
          else snd (delete_connection x (add_sent (x, d) w))).
Proof.
  unfold send, try_except, websocket_send.
  destruct (existsb (String.eqb x) (w_live w)); [reflexivity |].
  unfold bind, delete_connection, bind, log, modify, ret. simpl.
  destruct (String.eqb x ""); reflexivity.
Qed.

Lemma send_world x d w :
  let w' := snd (send x d w) in
  w_heap w' = w_heap w /\ w_next w' = w_next w /\ w_live w' = w_live w /\
  w_sent w' = (w_sent w ++ [(x, d)])%list /\
  w_table w' = cleanup (w_live w) (w_table w) (mkConn x JNull) /\
  fst (send x d w) = Ok tt.
Proof.
  rewrite send_eq. unfold cleanup. simpl.
  destruct (existsb (String.eqb x) (w_live w)); [repeat split |].
  destruct (delete_connection_heap x (add_sent (x, d) w)) as (H1 & H2 & H3 & H4 & H5 & _).
  rewrite H1, H2, H3, H4, H5. simpl. repeat split.
Qed.

(** ** The per-recipient step of [broadcast] *)

#[local] Hint Resolve readonly_py_get readonly_py_getitem readonly_truthy
  readonly_py_in : readonly.

Lemma bind_ro {A B} (m : M A) (k : A -> M B) w :
  readonly m ->
  bind m k w = match fst (m w) with Ok a => k a w | Raise e => (Raise e, w) end.
Proof.
  intros H. unfold bind. rewrite (run_readonly m w H). destruct (fst (m w)); reflexivity.
Qed.

Lemma bind_eq {A B} (m : M A) (k : A -> M B) w :
  bind m k w = match m w with
               | (Ok a, w') => k a w'
               | (Raise e, w') => (Raise e, w')
               end.
Proof. reflexivity. Qed.

Lemma bind_assoc {A B C} (m : M A) (f : A -> M B) (g : B -> M C) w :
  bind (bind m f) g w = bind m (fun a => bind (f a) g) w.
Proof. unfold bind. destruct (m w) as [[a | e] w']; reflexivity. Qed.

Lemma bind_alloc_m {B} v (k : pyval -> M B) w :
  bind (alloc_m v) k w =
  let '(p, h', n') := alloc v (w_heap w) (w_next w) in k p (set_heap h' n' w).
Proof. unfold bind, alloc_m. destruct (alloc v (w_heap w) (w_next w)) as [[p h'] n']. reflexivity. Qed.

Lemma bind_send {B} x d (k : unit -> M B) w :
  bind (send x d) k w = k tt (snd (send x d w)).
Proof. unfold bind. rewrite send_eq. reflexivity. Qed.

Ltac ro_step x :=
  rewrite bind_ro by (auto with readonly);
  let E := fresh "E" in
  match goal with
  | |- context [match fst (?m ?w) with _ => _ end] =>
      destruct (fst (m w)) as [x | ?] eqn:E
  end.

(** What [py_getitem] returns from a dict built from a document lies in
    the region of the document. *)
Lemma getitem_allocd w lo hi p v k x w' :
  allocd (w_heap w) lo hi p v -> py_getitem p k w = (Ok x, w') ->
  exists v' lo' hi', allocd (w_heap w) lo' hi' x v' /\ lo <= lo'.
Proof.
  intros Hal Hg. destruct p as [| | | | | t]; simpl in Hg; try discriminate.
  unfold bind, get_obj in Hg.
  inversion Hal as [| | | | | lo0 top hi0 ps vs Hseq Hl Hlt | lo0 top hi0 ps kvs Hf Hl Hlt];
    subst; rewrite Hl in Hg; simpl in Hg; [discriminate |].
  pose proof (allocd_fields_assoc _ _ _ _ _ k Hf) as Ha.
  destruct (assoc k ps) as [x' |] eqn:Ex; [| discriminate]. injection Hg as <- <-.
  destruct (assoc k kvs) as [v' |]; [| congruence].
  destruct Ha as (p' & lo' & hi' & E1 & E2 & E3 & E4).
  assert (p' = x') by congruence. subst. eauto.
Qed.

Lemma delitem_frame p k w n :
  (forall t, p = PRef t -> n <= t) ->
  w_next (snd (py_delitem p k w)) = w_next w /\
  forall l, l < n -> w_heap (snd (py_delitem p k w)) !! l = w_heap w !! l.
Proof.
  intros Hp. destruct p as [| | | | | t]; simpl; try (split; [reflexivity | auto]).
  specialize (Hp t eq_refl). unfold bind, get_obj.
  destruct (w_heap w !! t) as [[kvs | xs] |]; simpl; try (split; [reflexivity | auto]).
  destruct (assoc k kvs); simpl; [| split; [reflexivity | auto]].
  split; [reflexivity |]. intros l Hl. apply lookup_insert_ne. lia.
Qed.

Lemma broadcast_one_frame c data w :
  w_next w <= w_next (snd (broadcast_one c data w)) /\
  forall l, l < w_next w ->
    w_heap (snd (broadcast_one c data w)) !! l = w_heap w !! l.
Proof.
  unfold broadcast_one, deepcopy. rewrite bind_assoc.
  ro_step j; [| simpl; auto].
  rewrite bind_alloc_m.
  pose proof (alloc_spec j (w_heap w) (w_next w)) as Hs.
  destruct (alloc j (w_heap w) (w_next w)) as [[md h1] n1] eqn:Ea.
  destruct Hs as (Hle & Hfr & Hal).
  set (w1 := set_heap h1 n1 w).
  assert (Hbase : w_next w <= w_next w1 /\
                  forall l, l < w_next w -> w_heap w1 !! l = w_heap w !! l).
  { split; [exact Hle | intros l Hl; apply Hfr; lia]. }
  assert (Htail : forall w2 d,
    w_next w <= w_next w2 /\ (forall l, l < w_next w -> w_heap w2 !! l = w_heap w !! l) ->
    let w3 := snd (bind (dumps d) (fun j => send (cid c) (WJson j)) w2) in
    w_next w <= w_next w3 /\ forall l, l < w_next w -> w_heap w3 !! l = w_heap w !! l).
  { intros w2 d Hw2. simpl. ro_step j'; [| exact Hw2]. rewrite send_eq.
    destruct (existsb _ _); simpl; [exact Hw2 |].
    destruct (delete_connection_heap (cid c) (add_sent (cid c, WJson j') w2)) as (H1 & H2 & _).
    rewrite H1, H2. exact Hw2. }
  ro_step audience; [| exact Hbase].
  ro_step allowed; [| exact Hbase].
  ro_step is_in; [| exact Hbase].
  destruct is_in.
  - apply Htail. exact Hbase.
  - ro_step content; [| exact Hbase].
    ro_step msg; [| exact Hbase].
    ro_step b; [| exact Hbase].
    destruct b; [| apply Htail; exact Hbase].
    rewrite bind_assoc. ro_step content'; [| exact Hbase].
    assert (Hg : py_getitem md "content" w1 = (Ok content', w1)).
    { rewrite (run_readonly _ w1 (readonly_py_getitem _ _)).
      match goal with H : fst (py_getitem md "content" w1) = Ok content' |- _ => rewrite H end.
      reflexivity. }
    assert (Hal1 : allocd (w_heap w1) (w_next w) n1 md j) by exact Hal.
    destruct (getitem_allocd _ _ _ _ _ _ _ _ Hal1 Hg) as (v' & lo' & hi' & Hc & Hlo).
    pose proof (delitem_frame content' "message" w1 (w_next w)) as [Hd1 Hd2].
    { intros t ->. apply allocd_ref in Hc. lia. }
    rewrite (bind_eq (py_delitem content' "message")).
    destruct (py_delitem content' "message" w1) as [[[] | e] w2] eqn:Ed; simpl in Hd1, Hd2.
    + apply Htail. split; [destruct Hbase; lia |].
      intros l Hl. rewrite Hd2 by exact Hl. apply Hbase; exact Hl.
    + simpl. split; [destruct Hbase; lia |].
      intros l Hl. rewrite Hd2 by exact Hl. apply Hbase; exact Hl.
Qed.

Lemma broadcast_loop_frame ts data w :
  w_next w <= w_next (snd (broadcast_loop ts data w)) /\
  forall l, l < w_next w ->
    w_heap (snd (broadcast_loop ts data w)) !! l = w_heap w !! l.
Proof.
  revert w. induction ts as [| c ts IH]; intros w; simpl; [split; auto |].
  rewrite bind_eq. pose proof (broadcast_one_frame c data w) as [H1 H2].
  destruct (broadcast_one c data w) as [[[] | e] w1]; simpl in *; [| split; auto].
  destruct (IH w1) as [H3 H4]. split; [lia |].
  intros l Hl. rewrite H4 by lia. auto.
Qed.

Lemma allocd_fields_frame h h' lo hi ps kvs :
  allocd_fields h lo hi ps kvs -> (forall l, lo <= l < hi -> h' !! l = h !! l) ->
  allocd_fields h' lo hi ps kvs.
Proof. apply (proj2 (proj2 (allocd_frame_all h h'))). Qed.

Lemma allocd_fields_assoc_some h lo hi ps kvs k x :
  allocd_fields h lo hi ps kvs -> assoc k ps = Some x ->
  exists v lo' hi', assoc k kvs = Some v /\ allocd h lo' hi' x v /\ lo <= lo' /\ hi' <= hi.
Proof.
  intros Hf Hx. pose proof (allocd_fields_assoc _ _ _ _ _ k Hf) as Ha.
  destruct (assoc k kvs) as [v |]; [| congruence].
  destruct Ha as (p & lo' & hi' & E1 & E2 & E3 & E4).
  exists v, lo', hi'. repeat split; auto. congruence.
Qed.

Lemma fields_drop_message h lo hi ps kvs :
  allocd_fields h lo hi ps kvs ->
  allocd_fields h lo hi (drop_message ps) (drop_message kvs).
Proof.
  unfold drop_message.
  induction 1 as [lo hi Hle | lo mid hi k p v ps kvs Hp Hrest IH]; simpl; [constructor; lia |].
  destruct (String.eqb k "message"); simpl.
  - eapply allocd_fields_widen; [exact IH | apply (allocd_le _ _ _ _ _ Hp) | lia].
  - econstructor; eauto.
Qed.

Lemma fields_strip h lo hi ps kvs tc cps :
  allocd_fields h lo hi ps kvs -> assoc "content" ps = Some (PRef tc) ->
  h !! tc = Some (ODict cps) ->
  allocd_fields (<[tc := ODict (drop_message cps)]> h) lo hi ps
    (update_first "content" strip_content kvs).
Proof.
  induction 1 as [lo hi Hle | lo mid hi k p v ps kvs Hp Hrest IH]; [discriminate |].
  intros Hc Htc. cbn [assoc] in Hc. cbn [update_first].
  destruct (String.eqb "content" k).
  - injection Hc as ->.
    inversion Hp as [| | | | | lo0 top hi0 ps0 vs Hseq Hl Hlt | lo0 top hi0 ps0 ckvs Hf Hl Hlt];
      subst; rewrite Htc in Hl; [discriminate |].
    injection Hl as <-.
    econstructor.
    + simpl. eapply al_obj; [| apply lookup_insert_eq | exact Hlt].
      eapply allocd_fields_frame; [apply fields_drop_message; exact Hf |].
      intros l Hl. apply lookup_insert_ne. lia.
    + eapply allocd_fields_frame; [exact Hrest |].
      intros l Hl. apply lookup_insert_ne. lia.
  - destruct (allocd_fields_assoc_some _ _ _ _ _ _ _ Hrest Hc) as (v' & lo' & hi' & _ & Hx & H1 & H2).
    apply allocd_ref in Hx.
    econstructor; [| apply IH; auto].
    eapply allocd_frame; [exact Hp |].
    intros l Hl. apply lookup_insert_ne. lia.
Qed.

Lemma depth_drop_message ckvs :
  list_max (map (fun kv => depth (snd kv)) (drop_message ckvs)) <=
  list_max (map (fun kv => depth (snd kv)) ckvs).
Proof.
  unfold drop_message. induction ckvs as [| [k v] ckvs IH]; cbn [List.filter map list_max fold_right fst snd]; [lia |].
  destruct (String.eqb k "message"); cbn [map list_max fold_right snd fst negb]; unfold list_max in *; lia.
Qed.

Lemma depth_strip_message v : depth (strip_message v) <= depth v.
Proof.
  destruct v as [| | | | | | kvs]; cbn [strip_message depth]; try lia.
  induction kvs as [| [k v] kvs IH]; cbn [update_first map list_max fold_right]; [lia |].
  destruct (String.eqb "content" k); cbn [map list_max fold_right snd].
  - destruct v as [| | | | | | ckvs]; cbn [strip_content depth]; try lia.
    pose proof (depth_drop_message ckvs). unfold list_max in *. lia.
  - unfold list_max in *. lia.
Qed.

Lemma bind_ok {A B} (m : M A) (k : A -> M B) w a w' :
  m w = (Ok a, w') -> bind m k w = k a w'.
Proof. intros E. unfold bind. rewrite E. reflexivity. Qed.

Lemma getitem_fields w t ps k x :
  w_heap w !! t = Some (ODict ps) -> assoc k ps = Some x ->
  py_getitem (PRef t) k w = (Ok x, w).
Proof. intros H1 H2. unfold py_getitem, bind, get_obj. rewrite H1, H2. reflexivity. Qed.

Lemma delitem_fields w t ps k x :
  w_heap w !! t = Some (ODict ps) -> assoc k ps = Some x ->
  py_delitem (PRef t) k w =
  (Ok tt, set_heap (<[t := ODict (List.filter (fun kv => negb (String.eqb (fst kv) k)) ps)]>
                      (w_heap w)) (w_next w) w).
Proof. intros H1 H2. unfold py_delitem, bind, get_obj. rewrite H1, H2. reflexivity. Qed.

Lemma py_get_field w lo hi p kvs k v d :
  allocd (w_heap w) lo hi p (JObj kvs) -> assoc k kvs = Some v ->
  exists x lo' hi', py_get p k d w = (Ok x, w) /\ allocd (w_heap w) lo' hi' x v /\
                    lo <= lo' /\ hi' <= hi.
Proof.
  intros Hal Hk.
  destruct (py_get_allocd w lo hi p kvs k d Hal) as (top & ps & -> & Hl & Hf & Htop & Eg).
  pose proof (allocd_fields_assoc _ _ _ _ _ k Hf) as Ha. rewrite Hk in Ha.
  destruct Ha as (x & lo' & hi' & Ex & Hx & H1 & H2).
  exists x, lo', hi'. rewrite Ex in Eg. repeat split; auto. lia.
Qed.

Lemma py_in_allocd w lo hi p vs x :
  allocd (w_heap w) lo hi p (JArr vs) -> depth (JArr vs) <= recursion_limit ->
  py_in x p w = (Ok (existsb (py_eq x) vs), w).
Proof.
  intros H Hd. pose proof (dumps_allocd _ _ _ _ _ H Hd) as Hj.
  apply allocd_arr_inv in H as (top & ps & -> & _).
  unfold py_in. rewrite (bind_ok _ _ _ _ _ Hj). reflexivity.
Qed.

Lemma dumps_send c p w2 j :
  dumps p w2 = (Ok j, w2) ->
  let r := bind (dumps p) (fun j => send (cid c) (WJson j)) w2 in
  fst r = Ok tt /\ w_sent (snd r) = (w_sent w2 ++ [(cid c, WJson j)])%list /\
  w_table (snd r) = cleanup (w_live w2) (w_table w2) c /\ w_live (snd r) = w_live w2.
Proof.
  intros Hj. cbv zeta. rewrite (bind_ok _ _ _ _ _ Hj).
  destruct (send_world (cid c) (WJson j) w2) as (_ & _ & H3 & H4 & H5 & H6).
  repeat split; auto.
Qed.

(** One recipient of [broadcast]: the frame sent is [frame_for], and the
    registry loses the row of a closed connection. *)
Lemma broadcast_one_spec c data w lo hi kvs akvs ckvs allow mv :
  allocd (w_heap w) lo hi data (JObj kvs) -> hi <= w_next w ->
  depth (JObj kvs) <= recursion_limit ->
  assoc "audience" kvs = Some (JObj akvs) -> assoc "message" akvs = Some (JArr allow) ->
  assoc "content" kvs = Some (JObj ckvs) -> assoc "message" ckvs = Some mv ->
  fst (broadcast_one c data w) = Ok tt /\
  w_sent (snd (broadcast_one c data w)) =
    (w_sent w ++ [frame_for (JObj kvs) allow mv c])%list /\
  w_table (snd (broadcast_one c data w)) = cleanup (w_live w) (w_table w) c /\
  w_live (snd (broadcast_one c data w)) = w_live w.
Proof.
  intros Hal Hhi Hd Ha Ham Hc Hcm.
  unfold broadcast_one, deepcopy. rewrite bind_assoc.
  rewrite (bind_ok _ _ _ _ _ (dumps_allocd _ _ _ _ _ Hal Hd)).
  rewrite bind_alloc_m.
  pose proof (alloc_spec (JObj kvs) (w_heap w) (w_next w)) as Hs.
  destruct (alloc (JObj kvs) (w_heap w) (w_next w)) as [[md h1] n1] eqn:Ea.
  destruct Hs as (Hle & Hfr & Hmd).
  set (w1 := set_heap h1 n1 w).
  assert (Hal1 : allocd (w_heap w1) lo hi data (JObj kvs)).
  { eapply allocd_frame; [exact Hal |]. intros l Hl. apply Hfr. lia. }
  assert (Hmd1 : allocd (w_heap w1) (w_next w) n1 md (JObj kvs)) by exact Hmd.
  pose proof (depth_assoc _ _ _ Ha) as Hd1. pose proof (depth_assoc _ _ _ Ham) as Hd2.
  pose proof (depth_assoc _ _ _ Hc) as Hd3. pose proof (depth_assoc _ _ _ Hcm) as Hd4.
  destruct (py_get_field w1 _ _ _ _ _ _ PNone Hal1 Ha) as (pa & loa & hia & Epa & Hpa & _).
  rewrite (bind_ok _ _ _ _ _ Epa).
  destruct (py_get_field w1 _ _ _ _ _ _ PNone Hpa Ham) as (pl & lol & hil & Epl & Hpl & _).
  rewrite (bind_ok _ _ _ _ _ Epl).
  rewrite (bind_ok _ _ _ _ _ (py_in_allocd _ _ _ _ _ (conn_user_id c) Hpl ltac:(lia))).
  unfold frame_for, is_allowed.
  destruct (existsb (py_eq (conn_user_id c)) allow) eqn:Eal.
  - apply (dumps_send c data w1 (JObj kvs)). apply (dumps_allocd _ _ _ _ _ Hal1 Hd).
  - destruct (allocd_obj_inv _ _ _ _ _ Hmd1) as (t & mps & -> & Ht & Hmf & Htn).
    pose proof (allocd_fields_assoc _ _ _ _ _ "content" Hmf) as Hx. rewrite Hc in Hx.
    destruct Hx as (pc & loc & hic & Epc & Hpc & Hloc & Hhic).
    rewrite (bind_ok _ _ _ _ _ (getitem_fields _ _ _ _ _ Ht Epc)).
    destruct (allocd_obj_inv _ _ _ _ _ Hpc) as (tc & cps & -> & Htc & Hcf & Htcn).
    pose proof (allocd_fields_assoc _ _ _ _ _ "message" Hcf) as Hx. rewrite Hcm in Hx.
    destruct Hx as (pm & lom & him & Epm & Hpm & _).
    rewrite (bind_ok _ _ _ _ _ (getitem_fields _ _ _ _ _ Htc Epm)).
    rewrite (bind_ok _ _ _ _ _ (truthy_allocd _ _ _ _ _ Hpm)).
    destruct (jtruthy mv) eqn:Et.
    + rewrite bind_assoc.
      rewrite (bind_ok _ _ _ _ _ (getitem_fields _ _ _ _ _ Ht Epc)).
      rewrite (bind_ok _ _ _ _ _ (delitem_fields _ _ _ _ _ Htc Epm)).
      set (w2 := set_heap _ _ w1).
      assert (Hs2 : allocd (w_heap w2) (w_next w) n1 (PRef t) (strip_message (JObj kvs))).
      { eapply al_obj; [| | exact Htn].
        - apply (fields_strip _ _ _ _ _ tc cps Hmf Epc Htc).
        - simpl. rewrite lookup_insert_ne by lia. exact Ht. }
      pose proof (depth_strip_message (JObj kvs)) as Hds.
      destruct (dumps_send c (PRef t) w2 (strip_message (JObj kvs))
                  (dumps_allocd _ _ _ _ _ Hs2 ltac:(lia))) as (H1 & H2 & H3 & H4).
      repeat split; assumption.
    + rewrite (bind_ok _ _ _ _ _ (eq_refl : ret tt w1 = (Ok tt, w1))).
      apply (dumps_send c (PRef t) w1 (JObj kvs)). apply (dumps_allocd _ _ _ _ _ Hmd1 Hd).
Qed.

Lemma allocd_frame_below h h' lo hi p v n :
  allocd h lo hi p v -> hi <= n -> (forall l, l < n -> h' !! l = h !! l) ->
  allocd h' lo hi p v.
Proof. intros H1 H2 H3. eapply allocd_frame; [exact H1 |]. intros l Hl. apply H3. lia. Qed.

Lemma is_str_allocd h lo hi p v s : allocd h lo hi p v -> is_str p s = jv_is_str v s.
Proof. inversion 1; reflexivity. Qed.

Lemma py_get_or w lo hi p kvs k d dv dlo dhi :
  allocd (w_heap w) lo hi p (JObj kvs) -> allocd (w_heap w) dlo dhi d dv ->
  exists x lo' hi', py_get p k d w = (Ok x, w) /\
    allocd (w_heap w) lo' hi' x (get_or kvs k dv) /\ hi' <= Nat.max hi dhi.
Proof.
  intros Hal Hd.
  destruct (py_get_allocd w lo hi p kvs k d Hal) as (top & ps & -> & Hl & Hf & Htop & Eg).
  pose proof (allocd_fields_assoc _ _ _ _ _ k Hf) as Ha. unfold get_or.
  destruct (assoc k kvs) as [v |].
  - destruct Ha as (x & lo' & hi' & Ex & Hx & H1 & H2). rewrite Ex in Eg.
    exists x, lo', hi'. repeat split; auto. lia.
  - rewrite Ha in Eg. exists d, dlo, dhi. repeat split; auto. lia.
Qed.

Lemma py_get_nonobj w lo hi x v k d :
  allocd (w_heap w) lo hi x v -> (forall kvs, v <> JObj kvs) ->
  py_get x k d w = (Raise AttributeError, w).
Proof.
  intros H Hv. inversion H as [| | | | | lo0 top hi0 ps vs Hs Hl Hlt | lo0 top hi0 ps kvs Hf Hl Hlt];
    subst; try reflexivity.
  - unfold py_get, bind, get_obj. rewrite Hl. reflexivity.
  - exfalso. eapply Hv. reflexivity.
Qed.

(** The part of [handle] before the [if client == ...] chain, on a
    message that parses to an object with an [id] object. *)
(** ** The decoder raises only [JSONDecodeError] and [ValueError] *)

Ltac json_raises IHv IHm IHe :=
  repeat match goal with
  | H : Raise _ = Raise _ |- _ => injection H; intros; subst; clear H
  | H : Ok _ = Raise _ |- _ => discriminate H
  | H : Json.value _ _ = Raise _ |- _ => exact (IHv _ _ H)
  | H : Json.members _ _ _ = Raise _ |- _ => exact (IHm _ _ _ H)
  | H : Json.elements _ _ _ = Raise _ |- _ => exact (IHe _ _ _ H)
  | H : match Json.value ?f ?s with _ => _ end = _ |- _ =>
      let E := fresh "E" in destruct (Json.value f s) eqn:E; cbn beta iota zeta in H
  | H : match ?x with _ => _ end = _ |- _ => destruct x; cbn beta iota zeta in H
  end; auto.

Lemma number_raises s e :
  Json.number s = Raise e -> e = JSONDecodeError \/ e = ValueError.
Proof. unfold Json.number. intros H. json_raises idtac idtac idtac. Qed.

Lemma json_raises_all fuel :
  (forall s e, Json.value fuel s = Raise e -> e = JSONDecodeError \/ e = ValueError) /\
  (forall acc s e, Json.members fuel acc s = Raise e -> e = JSONDecodeError \/ e = ValueError) /\
  (forall acc s e, Json.elements fuel acc s = Raise e -> e = JSONDecodeError \/ e = ValueError).
Proof.
  induction fuel as [| f (IHv & IHm & IHe)];
    [split; [| split]; intros * H; cbn in H; injection H; intros; subst; auto |].
  split; [| split]; intros * H; cbn [Json.value Json.members Json.elements] in H.
  - json_raises IHv IHm IHe. exact (number_raises _ _ H).
  - json_raises IHv IHm IHe.
  - json_raises IHv IHm IHe.
Qed.

Lemma json_loads_raises s e :
  json_loads s = Raise e -> e = JSONDecodeError \/ e = ValueError.
Proof.
  unfold json_loads. intros H.
  destruct (Json.value _ _) as [[v rest] | e'] eqn:Ev.
  - destruct (Json.skip_ws rest); [discriminate H | injection H; intros; subst; auto].
  - injection H; intros; subst. exact (proj1 (json_raises_all _) _ _ Ev).
Qed.

Lemma handle_prefix cid s kvs ikvs akvs w :
  String.eqb s "" = false -> json_loads s = Ok (JObj kvs) ->
  assoc "id" kvs = Some (JObj ikvs) -> get_or kvs "audience" (JObj []) = JObj akvs ->
  exists w' data tp mp up lo hi lot hit lom him lou hiu,
    handle cid (Some s) w = dispatch cid data tp mp up w' /\
    w_table w' = w_table w /\ w_live w' = w_live w /\ w_clock w' = w_clock w /\
    w_sent w' = w_sent w /\ w_logs w' = w_logs w /\
    allocd (w_heap w') lo hi data (JObj kvs) /\ hi <= w_next w' /\
    allocd (w_heap w') lot hit tp (get_or ikvs "type" JNull) /\ hit <= w_next w' /\
    allocd (w_heap w') lom him mp (get_or ikvs "merchant_id" (JStr "")) /\ him <= w_next w' /\
    allocd (w_heap w') lou hiu up (get_or akvs "data" (JStr "")) /\ hiu <= w_next w'.
Proof.
  intros Hs Hj Hid Haud.
  assert (Hid1 : forall d, get_or kvs "id" d = JObj ikvs) by (intros; unfold get_or; rewrite Hid; reflexivity).
  unfold handle. rewrite Hs, Hj.
  rewrite bind_alloc_m.
  pose proof (alloc_spec (JObj kvs) (w_heap w) (w_next w)) as Hs1.
  destruct (alloc (JObj kvs) (w_heap w) (w_next w)) as [[data h1] n1].
  destruct Hs1 as (Hle1 & Hfr1 & Hal1).
  set (w1 := set_heap h1 n1 w).
  change (allocd (w_heap w1) (w_next w) (w_next w1) data (JObj kvs)) in Hal1.
  destruct (py_get_or w1 _ _ _ _ "id" PNone JNull 0 0 Hal1 (al_null _ 0 0 (le_n 0)))
    as (idp & loi & hii & Ei & Hi & Hhii). rewrite Hid1 in Hi.
  rewrite (bind_ok _ _ _ _ _ Ei).
  destruct (py_get_or w1 _ _ _ _ "type" PNone JNull 0 0 Hi (al_null _ 0 0 (le_n 0)))
    as (tp & lot & hit & Et & Ht & Hhit).
  rewrite (bind_ok _ _ _ _ _ Et).
  rewrite bind_alloc_m.
  pose proof (alloc_spec (JObj []) (w_heap w1) (w_next w1)) as Hs2.
  destruct (alloc (JObj []) (w_heap w1) (w_next w1)) as [[e1 h2] n2].
  destruct Hs2 as (Hle2 & Hfr2 & He1).
  set (w2 := set_heap h2 n2 w1).
  assert (N2 : w_next w2 = n2) by reflexivity.
  assert (F2 : forall l, l < w_next w1 -> w_heap w2 !! l = w_heap w1 !! l)
    by (intros l Hl; apply Hfr2; lia).
  change (allocd (w_heap w2) (w_next w1) (w_next w2) e1 (JObj [])) in He1.
  assert (Hal2 : allocd (w_heap w2) (w_next w) (w_next w1) data (JObj kvs))
    by (eapply allocd_frame_below; [exact Hal1 | | exact F2]; lia).
  destruct (py_get_or w2 _ _ _ _ "audience" e1 (JObj []) _ _ Hal2 He1)
    as (ap & loa & hia & Ea & Ha & Hhia). rewrite Haud in Ha.
  rewrite (bind_ok _ _ _ _ _ Ea).
  destruct (py_get_or w2 _ _ _ _ "data" (PStr "") (JStr "") 0 0 Ha (al_str _ 0 0 _ (le_n 0)))
    as (up & lou & hiu & Eu & Hu & Hhiu).
  rewrite (bind_ok _ _ _ _ _ Eu).
  rewrite bind_alloc_m.
  pose proof (alloc_spec (JObj []) (w_heap w2) (w_next w2)) as Hs3.
  destruct (alloc (JObj []) (w_heap w2) (w_next w2)) as [[e2 h3] n3].
  destruct Hs3 as (Hle3 & Hfr3 & He2).
  set (w3 := set_heap h3 n3 w2).
  assert (N3 : w_next w3 = n3) by reflexivity.
  assert (F3 : forall l, l < w_next w2 -> w_heap w3 !! l = w_heap w2 !! l)
    by (intros l Hl; apply Hfr3; lia).
  change (allocd (w_heap w3) (w_next w2) (w_next w3) e2 (JObj [])) in He2.
  assert (Hal3 : allocd (w_heap w3) (w_next w) (w_next w1) data (JObj kvs))
    by (eapply allocd_frame_below; [exact Hal2 | | exact F3]; lia).
  destruct (py_get_or w3 _ _ _ _ "id" e2 (JObj []) _ _ Hal3 He2)
    as (idp' & loi' & hii' & Ei' & Hi' & Hhii'). rewrite Hid1 in Hi'.
  rewrite (bind_ok _ _ _ _ _ Ei').
  destruct (py_get_or w3 _ _ _ _ "merchant_id" (PStr "") (JStr "") 0 0 Hi' (al_str _ 0 0 _ (le_n 0)))
    as (mp & lom & him & Em & Hm & Hhim).
  rewrite (bind_ok _ _ _ _ _ Em).
  exists w3, data, tp, mp, up, (w_next w), (w_next w1), lot, hit, lom, him, lou, hiu.
  split; [reflexivity |].
  do 5 (split; [reflexivity |]).
  split; [exact Hal3 | split; [lia |]].
  split.
  { eapply allocd_frame_below; [| | exact F3]; [| lia].
    eapply allocd_frame_below; [exact Ht | | exact F2]; lia. }
  split; [lia |]. split; [exact Hm | split; [lia |]].
  split; [eapply allocd_frame_below; [exact Hu | | exact F3]; lia | lia].
Qed.

Lemma handle_audience_nonobj cid s kvs ikvs w :
  String.eqb s "" = false -> json_loads s = Ok (JObj kvs) ->
  assoc "id" kvs = Some (JObj ikvs) -> (forall akvs, get_or kvs "audience" (JObj []) <> JObj akvs) ->
  exists w', handle cid (Some s) w = (Raise AttributeError, w') /\
    w_table w' = w_table w /\ w_live w' = w_live w /\ w_clock w' = w_clock w /\
    w_sent w' = w_sent w /\ w_logs w' = w_logs w.
Proof.
  intros Hs Hj Hid Haud.
  assert (Hid1 : forall d, get_or kvs "id" d = JObj ikvs) by (intros; unfold get_or; rewrite Hid; reflexivity).
  unfold handle. rewrite Hs, Hj.
  rewrite bind_alloc_m.
  pose proof (alloc_spec (JObj kvs) (w_heap w) (w_next w)) as Hs1.
  destruct (alloc (JObj kvs) (w_heap w) (w_next w)) as [[data h1] n1].
  destruct Hs1 as (Hle1 & Hfr1 & Hal1).
  set (w1 := set_heap h1 n1 w).
  change (allocd (w_heap w1) (w_next w) (w_next w1) data (JObj kvs)) in Hal1.
  destruct (py_get_or w1 _ _ _ _ "id" PNone JNull 0 0 Hal1 (al_null _ 0 0 (le_n 0)))
    as (idp & loi & hii & Ei & Hi & Hhii). rewrite Hid1 in Hi.
  rewrite (bind_ok _ _ _ _ _ Ei).
  destruct (py_get_or w1 _ _ _ _ "type" PNone JNull 0 0 Hi (al_null _ 0 0 (le_n 0)))
    as (tp & lot & hit & Et & Ht & Hhit).
  rewrite (bind_ok _ _ _ _ _ Et).
  rewrite bind_alloc_m.
  pose proof (alloc_spec (JObj []) (w_heap w1) (w_next w1)) as Hs2.
  destruct (alloc (JObj []) (w_heap w1) (w_next w1)) as [[e1 h2] n2].
  destruct Hs2 as (Hle2 & Hfr2 & He1).
  set (w2 := set_heap h2 n2 w1).
  assert (F2 : forall l, l < w_next w1 -> w_heap w2 !! l = w_heap w1 !! l)
    by (intros l Hl; apply Hfr2; lia).
  change (allocd (w_heap w2) (w_next w1) (w_next w2) e1 (JObj [])) in He1.
  assert (Hal2 : allocd (w_heap w2) (w_next w) (w_next w1) data (JObj kvs))
    by (eapply allocd_frame_below; [exact Hal1 | | exact F2]; lia).
  destruct (py_get_or w2 _ _ _ _ "audience" e1 (JObj []) _ _ Hal2 He1)
    as (ap & loa & hia & Ea & Ha & Hhia).
  rewrite (bind_ok _ _ _ _ _ Ea), bind_eq, (py_get_nonobj _ _ _ _ _ _ _ Ha Haud).
  exists w2. split; [reflexivity |]. repeat split; reflexivity.
Qed.

Lemma depth_get_or kvs k d : depth (get_or kvs k d) <= Nat.max (depth d) (depth (JObj kvs)).
Proof.
  unfold get_or. destruct (assoc k kvs) eqn:E; [| lia].
  apply depth_assoc in E. lia.
Qed.

Lemma put_item_m_eq it w :
  try_except (put_item_m it) (fun _ => log "message_handle frontend ERROR") w =
  (Ok tt, after_put it w).
Proof.
  unfold put_item_m, after_put, try_except, log, modify, raise, ddb_errors, ddb_ok.
  destruct (ddb_error (merchant_id it)); [reflexivity |].
  destruct (ddb_error (user_id it)); [reflexivity |].
  destruct (String.eqb (PK it) ""); reflexivity.
Qed.

Lemma set_user_eq cid mp up ts w lom him m lou hiu u :
  allocd (w_heap w) lom him mp m -> allocd (w_heap w) lou hiu up u ->
  depth m <= recursion_limit -> depth u <= recursion_limit ->
  set_user_by_connection_id cid mp up ts w = (Ok cid, after_put (mkItem cid m u ts) w).
Proof.
  intros Hm Hu Hdm Hdu.
  assert (E : (do m' <- dumps mp; do u' <- dumps up; put_item_m (mkItem cid m' u' ts)) w
              = put_item_m (mkItem cid m u ts) w).
  { rewrite (bind_ok _ _ _ _ _ (dumps_allocd _ _ _ _ _ Hm Hdm)).
    exact (bind_ok _ _ _ _ _ (dumps_allocd _ _ _ _ _ Hu Hdu)). }
  pose proof (put_item_m_eq (mkItem cid m u ts) w) as E2. unfold try_except in E2.
  unfold set_user_by_connection_id. unfold bind at 1. unfold try_except at 1.
  rewrite E, E2. reflexivity.
Qed.

Lemma handle_frontend_eq cid mp up w lom him m lou hiu u :
  allocd (w_heap w) lom him mp m -> allocd (w_heap w) lou hiu up u ->
  depth m <= recursion_limit -> depth u <= recursion_limit ->
  handle_frontend cid mp up w =
  if jtruthy m && jtruthy u
  then (Ok cid, after_put (mkItem cid m u (w_clock w)) w)
  else (Raise (TypeError "merchant_id and user_id is required"), w).
Proof.
  intros Hm Hu Hdm Hdu. unfold handle_frontend.
  rewrite (bind_ok _ _ _ _ _ (eq_refl : now w = (Ok (w_clock w), w))). cbv beta.
  unfold both_truthy. rewrite bind_assoc.
  rewrite (bind_ok _ _ _ _ _ (truthy_allocd _ _ _ _ _ Hm)). cbv beta.
  destruct (jtruthy m); [| reflexivity].
  rewrite (bind_ok _ _ _ _ _ (truthy_allocd _ _ _ _ _ Hu)). cbv beta.
  destruct (jtruthy u); [| reflexivity].
  rewrite (bind_ok _ _ _ _ _ (set_user_eq _ _ _ _ _ _ _ _ _ _ _ Hm Hu Hdm Hdu)).
  reflexivity.
Qed.

Lemma set_user_table cid mp up ts w :
  exists w', set_user_by_connection_id cid mp up ts w = (Ok cid, w') /\
    (w_table w' = w_table w \/ exists m u, w_table w' = put_item (mkItem cid m u ts) (w_table w)).
Proof.
  unfold set_user_by_connection_id, try_except, bind, ret, log, modify.
  rewrite (run_readonly (dumps mp) w (readonly_dumps mp)).
  destruct (fst (dumps mp w)) as [m | e]; cbv beta iota.
  - rewrite (run_readonly (dumps up) w (readonly_dumps up)).
    destruct (fst (dumps up w)) as [u | e]; cbv beta iota.
    + unfold put_item_m, raise. destruct (ddb_errors _); [eexists; split; [reflexivity | left; reflexivity] |].
      cbn [PK]. destruct (String.eqb cid "").
      * eexists; split; [reflexivity | left; reflexivity].
      * eexists; split; [reflexivity | right; exists m, u; reflexivity].
    + eexists; split; [reflexivity | left; reflexivity].
  - eexists; split; [reflexivity | left; reflexivity].
Qed.

Lemma handle_frontend_table cid mp up w :
  w_table (snd (handle_frontend cid mp up w)) = w_table w \/
  exists m u ts, w_table (snd (handle_frontend cid mp up w)) = put_item (mkItem cid m u ts) (w_table w).
Proof.
  unfold handle_frontend, both_truthy.
  rewrite (bind_ok _ _ _ _ _ (eq_refl : now w = (Ok (w_clock w), w))). cbv beta.
  rewrite bind_assoc, bind_eq, (run_readonly (truthy mp) w (readonly_truthy mp)).
  destruct (fst (truthy mp w)) as [[] | e]; [| left; reflexivity | left; reflexivity].
  rewrite bind_eq, (run_readonly (truthy up) w (readonly_truthy up)).
  destruct (fst (truthy up w)) as [[] | e]; [| left; reflexivity | left; reflexivity].
  rewrite bind_eq. destruct (set_user_table cid mp up (w_clock w) w) as (w' & -> & [E | (m & u & E)]).
  - left. exact E.
  - right. exists m, u, (w_clock w). exact E.
Qed.

(** ** Resolution of targets *)

Lemma dumps_str s w : dumps (PStr s) w = (Ok (JStr s), w).
Proof. reflexivity. Qed.

Lemma jv_eqb_str x s : jv_eqb x (JStr s) = true -> x = JStr s.
Proof. destruct x; simpl; try discriminate. intros H. apply String.eqb_eq in H. subst. reflexivity. Qed.

Lemma scan_users_done m us data w :
  Forall (fun u => exists s, u = PStr s) us ->
  scan_users m us true data w = (Ok data, w).
Proof.
  intros H. induction H as [| u us [s ->] _ IH]; [reflexivity |].
  cbn [scan_users]. rewrite (bind_ok _ _ _ _ _ (eq_refl : fstring (PStr s) w = (Ok s, w))).
  exact IH.
Qed.

Lemma scan_ok vals p w :
  ddb_errors vals = None -> scan vals p w = (Ok (List.filter p (w_table w)), w).
Proof. intros H. unfold scan. rewrite H. reflexivity. Qed.

Lemma ddb_errors_one m : ddb_ok m = true -> ddb_errors [m] = None.
Proof. unfold ddb_ok. simpl. destruct (ddb_error m); [discriminate | reflexivity]. Qed.

Lemma ddb_errors_str m s : ddb_ok m = true -> ddb_errors [m; JStr s] = None.
Proof. unfold ddb_ok. simpl. destruct (ddb_error m); [discriminate | reflexivity]. Qed.

Lemma get_ids_iter mp m v s us w lo hi :
  allocd (w_heap w) lo hi mp m -> depth m <= recursion_limit -> ddb_ok m = true ->
  is_str v "__all__" = false -> py_iter v w = (Ok (PStr s :: us), w) ->
  Forall (fun u => exists s, u = PStr s) us ->
  get_connection_ids_by_reference mp v w =
  (Ok (map to_conn (List.filter (matches m s) (w_table w))), w).
Proof.
  intros Hm Hd Hok Hall Hit Hus. unfold get_connection_ids_by_reference.
  rewrite (bind_ok _ _ _ _ _ (dumps_allocd _ _ _ _ _ Hm Hd)), Hall.
  rewrite bind_assoc, (bind_ok _ _ _ _ _ Hit).
  assert (E : scan_users m (PStr s :: us) false [] w =
              (Ok (List.filter (matches m s) (w_table w)), w)).
  { cbn [scan_users]. rewrite (bind_ok _ _ _ _ _ (eq_refl : fstring (PStr s) w = (Ok s, w))).
    cbv beta. rewrite (bind_ok _ _ _ _ _ (scan_ok _ _ _ (ddb_errors_str m s Hok))).
    rewrite scan_users_done by exact Hus. reflexivity. }
  rewrite (bind_ok _ _ _ _ _ E). reflexivity.
Qed.

Lemma getitem_missing w t ps k :
  w_heap w !! t = Some (ODict ps) -> assoc k ps = None ->
  py_getitem (PRef t) k w = (Raise KeyError, w).
Proof. intros H1 H2. unfold py_getitem, bind, get_obj. rewrite H1, H2. reflexivity. Qed.

Lemma filter_put_item p it t :
  Forall (fun x => p x = false) t -> p it = true -> List.filter p (put_item it t) = [it].
Proof.
  intros Ht Hp. induction Ht as [| x t Hx Ht' IH]; simpl; [rewrite Hp; reflexivity |].
  destruct (String.eqb (PK x) (PK it)); simpl.
  - rewrite Hp. f_equal. clear - Ht'. induction Ht' as [| y t Hy _ IH]; simpl; [reflexivity |].
    rewrite Hy. exact IH.
  - rewrite Hx. exact IH.
Qed.

Lemma in_put_item x it t : In x (put_item it t) -> x = it \/ In x t.
Proof.
  induction t as [| y t IH]; simpl; [intuition |].
  destruct (String.eqb (PK y) (PK it)); simpl; intros [H | H]; auto.
  destruct (IH H); auto.
Qed.

Lemma filter_delete_put p it t :
  Forall (fun x => p x = false) t ->
  List.filter p (delete_item (PK it) (put_item it t)) = [].
Proof.
  intros Ht. unfold delete_item.
  assert (H : forall x, In x (put_item it t) -> p x = false \/ PK x = PK it).
  { intros x Hx. destruct (in_put_item _ _ _ Hx) as [-> | Hin]; [right; reflexivity |].
    left. rewrite List.Forall_forall in Ht. apply Ht, Hin. }
  induction (put_item it t) as [| y l IH]; [reflexivity |]. simpl.
  destruct (H y (or_introl eq_refl)) as [Hy | Hy].
  - destruct (negb (String.eqb (PK y) (PK it))); simpl; [rewrite Hy |]; apply IH; intros; apply H; right; auto.
  - rewrite Hy, String.eqb_refl. simpl. apply IH. intros; apply H; right; auto.
Qed.

Lemma py_chars_cons sel : String.eqb sel "" = false -> exists ch rest, py_chars sel = ch :: rest.
Proof. destruct sel as [| c s']; [discriminate |]. intros _. eexists _, _. reflexivity. Qed.

Lemma handle_backend_str mp m sel w lo hi :
  allocd (w_heap w) lo hi mp m -> depth m <= recursion_limit -> jtruthy m = true ->
  ddb_ok m = true -> String.eqb sel "" = false -> String.eqb sel "__all__" = false ->
  exists ch rest,
    py_chars sel = ch :: rest /\
    handle_backend mp (PStr sel) w =
      (Ok (map to_conn (List.filter (matches m ch) (w_table w))), add_log "connection ids" w).
Proof.
  intros Hm Hd Htr Hok Hsel Hall.
  assert (E1 : both_truthy mp (PStr sel) w = (Ok true, w)).
  { unfold both_truthy. rewrite (bind_ok _ _ _ _ _ (truthy_allocd _ _ _ _ _ Hm)), Htr.
    unfold truthy, ret. rewrite Hsel. reflexivity. }
  destruct (py_chars_cons sel Hsel) as (ch & rest & Hc). exists ch, rest. split; [exact Hc |].
  assert (Hus : Forall (fun u => exists s, u = PStr s) (map PStr rest)).
  { clear. induction rest; constructor; eauto. }
  assert (Hit : py_iter (PStr sel) w = (Ok (PStr ch :: map PStr rest), w)).
  { unfold py_iter, ret. rewrite Hc. reflexivity. }
  unfold handle_backend, try_except.
  rewrite (bind_ok _ _ _ _ _ E1).
  rewrite (bind_ok _ _ _ _ _ (get_ids_iter mp m (PStr sel) ch _ w lo hi Hm Hd Hok Hall Hit Hus)).
  reflexivity.
Qed.

Lemma handle_backend_str_err mp m sel w lo hi :
  allocd (w_heap w) lo hi mp m -> depth m <= recursion_limit -> jtruthy m = true ->
  ddb_ok m = false -> String.eqb sel "" = false -> String.eqb sel "__all__" = false ->
  handle_backend mp (PStr sel) w = (Ok [], add_log "message_handle backend ERROR" w).
Proof.
  intros Hm Hd Htr Hok Hsel Hall.
  assert (E1 : both_truthy mp (PStr sel) w = (Ok true, w)).
  { unfold both_truthy. rewrite (bind_ok _ _ _ _ _ (truthy_allocd _ _ _ _ _ Hm)), Htr.
    unfold truthy, ret. rewrite Hsel. reflexivity. }
  destruct (py_chars_cons sel Hsel) as (ch & rest & Hc).
  unfold ddb_ok in Hok. destruct (ddb_error m) as [e |] eqn:Ee; [| discriminate].
  assert (Es : scan_users m (PStr ch :: map PStr rest) false [] w = (Raise e, w)).
  { cbn [scan_users]. rewrite (bind_ok _ _ _ _ _ (eq_refl : fstring (PStr ch) w = (Ok ch, w))).
    cbv beta. unfold bind at 1, scan. simpl ddb_errors. rewrite Ee. reflexivity. }
  unfold handle_backend, try_except.
  rewrite (bind_ok _ _ _ _ _ E1). cbv beta iota.
  unfold get_connection_ids_by_reference.
  rewrite bind_assoc, (bind_ok _ _ _ _ _ (dumps_allocd _ _ _ _ _ Hm Hd)).
  cbv beta. change (is_str (PStr sel) "__all__") with (String.eqb sel "__all__"). rewrite Hall.
  rewrite !bind_assoc.
  rewrite (bind_ok _ _ _ _ _ (eq_refl : py_iter (PStr sel) w = (Ok (map PStr (py_chars sel)), w))).
  rewrite Hc. cbv beta. cbn [map]. rewrite bind_eq, Es. reflexivity.
Qed.

Lemma broadcast_one_keyerror c data w lo hi kvs akvs ckvs allow :
  allocd (w_heap w) lo hi data (JObj kvs) -> hi <= w_next w ->
  depth (JObj kvs) <= recursion_limit ->
  assoc "audience" kvs = Some (JObj akvs) -> assoc "message" akvs = Some (JArr allow) ->
  assoc "content" kvs = Some (JObj ckvs) -> assoc "message" ckvs = None ->
  is_allowed allow c = false ->
  fst (broadcast_one c data w) = Raise KeyError /\
  w_sent (snd (broadcast_one c data w)) = w_sent w /\
  w_table (snd (broadcast_one c data w)) = w_table w.
Proof.
  intros Hal Hhi Hd Ha Ham Hc Hcm Hno.
  unfold broadcast_one, deepcopy. rewrite bind_assoc.
  rewrite (bind_ok _ _ _ _ _ (dumps_allocd _ _ _ _ _ Hal Hd)).
  rewrite bind_alloc_m.
  pose proof (alloc_spec (JObj kvs) (w_heap w) (w_next w)) as Hs.
  destruct (alloc (JObj kvs) (w_heap w) (w_next w)) as [[md h1] n1] eqn:Ea.
  destruct Hs as (Hle & Hfr & Hmd).
  set (w1 := set_heap h1 n1 w).
  assert (Hal1 : allocd (w_heap w1) lo hi data (JObj kvs)).
  { eapply allocd_frame; [exact Hal |]. intros l Hl. apply Hfr. lia. }
  assert (Hmd1 : allocd (w_heap w1) (w_next w) n1 md (JObj kvs)) by exact Hmd.
  pose proof (depth_assoc _ _ _ Ha) as Hd1. pose proof (depth_assoc _ _ _ Ham) as Hd2.
  destruct (py_get_field w1 _ _ _ _ _ _ PNone Hal1 Ha) as (pa & loa & hia & Epa & Hpa & _).
  rewrite (bind_ok _ _ _ _ _ Epa).
  destruct (py_get_field w1 _ _ _ _ _ _ PNone Hpa Ham) as (pl & lol & hil & Epl & Hpl & _).
  rewrite (bind_ok _ _ _ _ _ Epl).
  rewrite (bind_ok _ _ _ _ _ (py_in_allocd _ _ _ _ _ (conn_user_id c) Hpl ltac:(lia))).
  unfold is_allowed in Hno. rewrite Hno.
  destruct (allocd_obj_inv _ _ _ _ _ Hmd1) as (t & mps & -> & Ht & Hmf & Htn).
  pose proof (allocd_fields_assoc _ _ _ _ _ "content" Hmf) as Hx. rewrite Hc in Hx.
  destruct Hx as (pc & loc & hic & Epc & Hpc & Hloc & Hhic).
  rewrite (bind_ok _ _ _ _ _ (getitem_fields _ _ _ _ _ Ht Epc)).
  destruct (allocd_obj_inv _ _ _ _ _ Hpc) as (tc & cps & -> & Htc & Hcf & Htcn).
  pose proof (allocd_fields_assoc _ _ _ _ _ "message" Hcf) as Hx. rewrite Hcm in Hx.
  rewrite bind_eq, (getitem_missing _ _ _ _ Htc Hx).
  repeat split.
Qed.

Lemma broadcast_loop_spec ts data w lo hi kvs akvs ckvs allow mv :
  allocd (w_heap w) lo hi data (JObj kvs) -> hi <= w_next w ->
  depth (JObj kvs) <= recursion_limit ->
  assoc "audience" kvs = Some (JObj akvs) -> assoc "message" akvs = Some (JArr allow) ->
  assoc "content" kvs = Some (JObj ckvs) -> assoc "message" ckvs = Some mv ->
  fst (broadcast_loop ts data w) = Ok tt /\
  w_sent (snd (broadcast_loop ts data w)) =
    (w_sent w ++ map (frame_for (JObj kvs) allow mv) ts)%list /\
  w_table (snd (broadcast_loop ts data w)) = fold_left (cleanup (w_live w)) ts (w_table w) /\
  w_live (snd (broadcast_loop ts data w)) = w_live w.
Proof.
  intros Hal Hhi Hd Ha Ham Hc Hcm. revert w Hal Hhi.
  induction ts as [| c ts IH]; intros w Hal Hhi; cbn [broadcast_loop map fold_left].
  - rewrite app_nil_r. repeat split.
  - destruct (broadcast_one_spec c data w lo hi kvs akvs ckvs allow mv Hal Hhi Hd Ha Ham Hc Hcm)
      as (H1 & H2 & H3 & H4).
    pose proof (broadcast_one_frame c data w) as [F1 F2].
    destruct (broadcast_one c data w) as [r w1] eqn:E. simpl in H1, H2, H3, H4, F1, F2. subst r.
    rewrite (bind_ok _ _ _ _ _ E).
    assert (Hal1 : allocd (w_heap w1) lo hi data (JObj kvs)).
    { eapply allocd_frame; [exact Hal |]. intros l Hl. apply F2. lia. }
    destruct (IH w1 Hal1 ltac:(lia)) as (G1 & G2 & G3 & G4).
    rewrite G2, G3, G4, H2, H3, H4, <- app_assoc. repeat split; auto.
Qed.

Lemma broadcast_eq ts data w :
  broadcast ts data w =
  match broadcast_loop ts data w with
  | (Ok _, w') => (Ok ts, w')
  | (Raise e, w') => (Raise e, w')
  end.
Proof. unfold broadcast, bind. destruct (broadcast_loop ts data w) as [[] w']; reflexivity. Qed.

Lemma sample_allocd :
  allocd (snd (fst sample_alloc)) 0 (snd sample_alloc) sample_data (JObj sample_kvs).
Proof.
  unfold sample_data, sample_alloc.
  pose proof (alloc_spec (JObj sample_kvs) ∅ 0) as H.
  destruct (alloc (JObj sample_kvs) ∅ 0) as [[p h] n]. simpl. apply H.
Qed.

Lemma sample_depth : depth (JObj sample_kvs) <= recursion_limit.
Proof. vm_compute. lia. Qed.

(** C5: [broadcast] redacts fresh copies only: every object that exists
    before the call is unchanged after it, so the original payload reads
    back as the same document. *)
Theorem broadcast_keeps_payload ts data w :
  (forall l, l < w_next w -> w_heap (snd (broadcast ts data w)) !! l = w_heap w !! l) /\
  (forall lo hi v, allocd (w_heap w) lo hi data v -> hi <= w_next w ->
     forall f, to_tree f (w_heap (snd (broadcast ts data w))) data = to_tree f (w_heap w) data).
Proof.
  assert (Hh : forall l, l < w_next w ->
                 w_heap (snd (broadcast ts data w)) !! l = w_heap w !! l).
  { intros l Hl. rewrite broadcast_eq.
    pose proof (broadcast_loop_frame ts data w) as [_ F].
    destruct (broadcast_loop ts data w) as [[] w']; simpl in *; apply F; exact Hl. }
  split; [exact Hh |].
  intros lo hi v Hal Hhi f. eapply to_tree_frame; [exact Hal |].
  intros l Hl. apply Hh. lia.
Qed.

Lemma broadcast_keeps_payload_witness :
  let w := sample_world [] ["1092"] in
  0 < w_next w /\
  w_heap (snd (broadcast [mkConn "1092" (JStr "72"); mkConn "2001" (JStr "99")] sample_data w)) !! 0
    = w_heap w !! 0 /\
  to_tree recursion_limit
    (w_heap (snd (broadcast [mkConn "1092" (JStr "72"); mkConn "2001" (JStr "99")] sample_data w)))
    sample_data = Some (JObj sample_kvs).
Proof.
  cbv zeta. split; [vm_compute; lia |]. split.
  - apply (proj1 (broadcast_keeps_payload _ _ _)). vm_compute. lia.
  - rewrite (proj2 (broadcast_keeps_payload _ _ (sample_world [] ["1092"]))
               0 (snd sample_alloc) (JObj sample_kvs) sample_allocd (le_n _)).
    apply (allocd_to_tree _ _ _ _ _ _ sample_allocd sample_depth).
Defined.

(** C4 (as the code behaves): when the payload's [content.message] is
    present, [broadcast] sends every target one frame, in order: the whole
    payload to a target on the [audience.message] allow-list, and to any
    other target the payload without [content.message] when that field
    is truthy, or the whole payload when it is falsy. *)
Theorem broadcast_frames ts data w lo hi kvs akvs ckvs allow mv :
  allocd (w_heap w) lo hi data (JObj kvs) -> hi <= w_next w ->
  depth (JObj kvs) <= recursion_limit ->
  assoc "audience" kvs = Some (JObj akvs) -> assoc "message" akvs = Some (JArr allow) ->
  assoc "content" kvs = Some (JObj ckvs) -> assoc "message" ckvs = Some mv ->
  fst (broadcast ts data w) = Ok ts /\
  w_sent (snd (broadcast ts data w)) =
    (w_sent w ++ map (frame_for (JObj kvs) allow mv) ts)%list.
Proof.
  intros Hal Hhi Hd Ha Ham Hc Hcm.
  destruct (broadcast_loop_spec ts data w lo hi kvs akvs ckvs allow mv Hal Hhi Hd Ha Ham Hc Hcm)
    as (H1 & H2 & _).
  rewrite broadcast_eq. destruct (broadcast_loop ts data w) as [r w']. simpl in *. subst r.
  split; [reflexivity | exact H2].
Qed.

Lemma broadcast_frames_witness :
  let w := sample_world [] ["1092"; "2001"] in
  let ts := [mkConn "1092" (JStr "72"); mkConn "2001" (JStr "99")] in
  allocd (w_heap w) 0 (w_next w) sample_data (JObj sample_kvs) /\
  fst (broadcast ts sample_data w) = Ok ts /\
  w_sent (snd (broadcast ts sample_data w)) =
    (w_sent w ++ map (frame_for (JObj sample_kvs) [JStr "72"]
       (JStr "Payment request report generation has finished.")) ts)%list.
Proof.
  cbv zeta. split; [exact sample_allocd |].
  apply (broadcast_frames _ _ (sample_world [] ["1092"; "2001"]) 0 (snd sample_alloc) sample_kvs sample_audience sample_content);
    first [exact sample_allocd | exact sample_depth | reflexivity].
Defined.

(** C4: a recipient outside the allow-list whose payload has an empty
    [content.message] is sent that field unchanged. *)
Lemma broadcast_falsy_message_kept :
  let kvs := [("audience", JObj sample_audience);
              ("content", JObj [("message", JStr "")])] in
  let '(p, h, n) := alloc (JObj kvs) ∅ 0 in
  w_sent (snd (broadcast [mkConn "2001" (JStr "99")] p (mkWorld h n [] ["2001"] 0 [] [])))
  = [("2001", WJson (JObj kvs))].
Proof. vm_compute. reflexivity. Qed.

(** C6: a send to a connection the gateway reports closed does not
    raise: the attempt is made, [delete_connection] runs for the id (so
    its registry row is gone), and in a broadcast every target is still
    attempted in order, each closed one cleaned up. *)
Theorem send_disconnected_swallowed x d w :
  existsb (String.eqb x) (w_live w) = false ->
  send x d w = (Ok tt, snd (delete_connection x (add_sent (x, d) w))) /\
  w_table (snd (send x d w)) =
    (if String.eqb x "" then w_table w else delete_item x (w_table w)) /\
  (forall ts data lo hi kvs akvs ckvs allow mv,
     allocd (w_heap w) lo hi data (JObj kvs) -> hi <= w_next w ->
     depth (JObj kvs) <= recursion_limit ->
     assoc "audience" kvs = Some (JObj akvs) -> assoc "message" akvs = Some (JArr allow) ->
     assoc "content" kvs = Some (JObj ckvs) -> assoc "message" ckvs = Some mv ->
     fst (broadcast ts data w) = Ok ts /\
     map fst (w_sent (snd (broadcast ts data w))) = (map fst (w_sent w) ++ map cid ts)%list /\
     w_table (snd (broadcast ts data w)) = fold_left (cleanup (w_live w)) ts (w_table w)).
Proof.
  intros Hx.
  assert (Hs : send x d w = (Ok tt, snd (delete_connection x (add_sent (x, d) w)))).
  { rewrite send_eq, Hx. reflexivity. }
  split; [exact Hs |]. split.
  - rewrite Hs. simpl snd.
    destruct (delete_connection_heap x (add_sent (x, d) w)) as (_ & _ & _ & _ & E & _).
    exact E.
  - intros ts data lo hi kvs akvs ckvs allow mv Hal Hhi Hd Ha Ham Hc Hcm.
    destruct (broadcast_loop_spec ts data w lo hi kvs akvs ckvs allow mv Hal Hhi Hd Ha Ham Hc Hcm)
      as (H1 & H2 & H3 & _).
    rewrite broadcast_eq. destruct (broadcast_loop ts data w) as [r w']. simpl in *. subst r.
    simpl. rewrite H2, map_app, map_map. unfold frame_for. simpl. auto.
Qed.

Lemma send_disconnected_swallowed_witness :
  let w := sample_world [mkItem "1092" (JStr "m") (JStr "72") 0;
                         mkItem "2001" (JStr "m") (JStr "99") 0] ["2001"] in
  let ts := [mkConn "1092" (JStr "72"); mkConn "2001" (JStr "99")] in
  existsb (String.eqb "1092") (w_live w) = false /\
  w_table (snd (send "1092" (WText "pong") w)) = [mkItem "2001" (JStr "m") (JStr "99") 0] /\
  map fst (w_sent (snd (broadcast ts sample_data w))) = ["1092"; "2001"] /\
  w_table (snd (broadcast ts sample_data w)) = [mkItem "2001" (JStr "m") (JStr "99") 0].
Proof.
  cbv zeta.
  pose proof (send_disconnected_swallowed "1092" (WText "pong")
    (sample_world [mkItem "1092" (JStr "m") (JStr "72") 0;
                   mkItem "2001" (JStr "m") (JStr "99") 0] ["2001"]) eq_refl) as (_ & H2 & H3).
  destruct (H3 [mkConn "1092" (JStr "72"); mkConn "2001" (JStr "99")] sample_data
              0 (snd sample_alloc) sample_kvs sample_audience sample_content [JStr "72"]
              (JStr "Payment request report generation has finished."))
    as (_ & H4 & H5); first [exact sample_allocd | exact sample_depth | reflexivity | idtac].
  split; [reflexivity |]. split; [rewrite H2; reflexivity |].
  split; [rewrite H4; reflexivity | rewrite H5; reflexivity].
Defined.

(** C2 (as the code behaves): an absent or empty message is logged and
    [handle] returns normally with nothing else changed; a non-empty
    message that [json.loads] refuses makes [handle] raise the decoder's
    exception ([JSONDecodeError], or [ValueError] for an integer of more
    than 4300 digits), and one whose document has no [id] object raises
    [AttributeError]; in both failing cases the registry, the frames sent
    and the log are untouched. *)
Theorem handle_malformed (connection_id : string) (w : world) :
  (forall msg, msg = None \/ msg = Some "" ->
     handle connection_id msg w = (Ok tt, add_log "message_handle message body not found" w)) /\
  (forall s e, String.eqb s "" = false -> json_loads s = Raise e ->
     (e = JSONDecodeError \/ e = ValueError) /\
     handle connection_id (Some s) w = (Raise e, w)) /\
  (forall s j, String.eqb s "" = false -> json_loads s = Ok j -> id_block j = None ->
     fst (handle connection_id (Some s) w) = Raise AttributeError /\
     w_table (snd (handle connection_id (Some s) w)) = w_table w /\
     w_sent (snd (handle connection_id (Some s) w)) = w_sent w /\
     w_logs (snd (handle connection_id (Some s) w)) = w_logs w /\
     w_live (snd (handle connection_id (Some s) w)) = w_live w).
Proof.
  split; [intros msg [-> | ->]; reflexivity |].
  split; [intros s e Hs Hj; split; [exact (json_loads_raises s e Hj) |];
          unfold handle; rewrite Hs, Hj; reflexivity |].
  intros s j Hs Hj Hid. unfold handle. rewrite Hs, Hj, bind_alloc_m.
  pose proof (alloc_spec j (w_heap w) (w_next w)) as Hs1.
  destruct (alloc j (w_heap w) (w_next w)) as [[data h1] n1].
  destruct Hs1 as (_ & _ & Hal1).
  set (w1 := set_heap h1 n1 w).
  change (allocd (w_heap w1) (w_next w) n1 data j) in Hal1.
  assert (E : py_get data "id" PNone w1 = (Raise AttributeError, w1) \/
              exists idp, py_get data "id" PNone w1 = (Ok idp, w1) /\
                          py_get idp "type" PNone w1 = (Raise AttributeError, w1)).
  { destruct j as [| | | | | | kvs];
      try (left; apply (py_get_nonobj _ _ _ _ _ _ _ Hal1); discriminate).
    right.
    destruct (py_get_or w1 _ _ _ _ "id" PNone JNull 0 0 Hal1 (al_null _ 0 0 (le_n 0)))
      as (idp & loi & hii & Ei & Hi & _).
    exists idp. split; [exact Ei |].
    apply (py_get_nonobj _ _ _ _ _ _ _ Hi).
    intros ikvs Heq. simpl in Hid. unfold get_or in Heq.
    destruct (assoc "id" kvs) as [[] |]; congruence. }
  destruct E as [E | (idp & E1 & E2)].
  - rewrite bind_eq, E. repeat split.
  - rewrite (bind_ok _ _ _ _ _ E1), bind_eq, E2. repeat split.
Qed.

Lemma handle_malformed_witness :
  String.eqb (dq "{'audience': {'data': '72'}}") "" = false /\
  json_loads (dq "{'audience': {'data': '72'}}") =
    Ok (JObj [("audience", JObj [("data", JStr "72")])]) /\
  id_block (JObj [("audience", JObj [("data", JStr "72")])]) = None /\
  String.eqb "{x" "" = false /\ json_loads "{x" = Raise JSONDecodeError /\
  fst (handle "1092" (Some (dq "{'audience': {'data': '72'}}")) world0) = Raise AttributeError /\
  handle "1092" (Some "{x") world0 = (Raise JSONDecodeError, world0) /\
  handle "1092" None world0 = (Ok tt, add_log "message_handle message body not found" world0).
Proof.
  destruct (handle_malformed "1092" world0) as (H1 & H2 & H3).
  split; [reflexivity |]. split; [vm_compute; reflexivity |].
  split; [reflexivity |]. split; [reflexivity |]. split; [vm_compute; reflexivity |].
  split; [apply (proj1 (H3 (dq "{'audience': {'data': '72'}}")
                          (JObj [("audience", JObj [("data", JStr "72")])])
                          eq_refl ltac:(vm_compute; reflexivity) eq_refl)) |].
  split; [exact (proj2 (H2 "{x" JSONDecodeError eq_refl ltac:(vm_compute; reflexivity))) |].
  apply H1. left. reflexivity.
Defined.

(** C7: for a [frontend] message whose audience is absent or an
    object, when [merchant_id] or the audience's [data] (the user id) is
    falsy, [handle] raises the [TypeError] "merchant_id and user_id is
    required" to its caller and writes nothing to the registry.  When
    both are truthy, [handle] returns normally and sends nothing; the
    registration (connection id, merchant, user, current time) is
    written whenever DynamoDB takes it (the connection id is not empty,
    and merchant and user hold no float and no integer of more than 38
    digits); otherwise [put_item]'s error is logged and the registry is
    left as it was. *)
Theorem handle_frontend_scope cid s kvs ikvs akvs w :
  String.eqb s "" = false -> json_loads s = Ok (JObj kvs) ->
  depth (JObj kvs) <= recursion_limit ->
  assoc "id" kvs = Some (JObj ikvs) -> get_or kvs "audience" (JObj []) = JObj akvs ->
  get_or ikvs "type" JNull = JStr "frontend" ->
  let m := get_or ikvs "merchant_id" (JStr "") in
  let u := get_or akvs "data" (JStr "") in
  (jtruthy m && jtruthy u = false ->
     fst (handle cid (Some s) w) = Raise (TypeError "merchant_id and user_id is required") /\
     w_table (snd (handle cid (Some s) w)) = w_table w /\
     w_sent (snd (handle cid (Some s) w)) = w_sent w) /\
  (jtruthy m && jtruthy u = true ->
     fst (handle cid (Some s) w) = Ok tt /\
     w_sent (snd (handle cid (Some s) w)) = w_sent w /\
     w_table (snd (handle cid (Some s) w)) =
       (if ddb_ok m && ddb_ok u && negb (String.eqb cid "")
        then put_item (mkItem cid m u (w_clock w)) (w_table w) else w_table w) /\
     w_logs (snd (handle cid (Some s) w)) =
       (if ddb_ok m && ddb_ok u && negb (String.eqb cid "")
        then w_logs w else (w_logs w ++ ["message_handle frontend ERROR"])%list)).
Proof.
  intros Hs Hj Hd Hid Haud Htype m u. subst m u.
  destruct (handle_prefix cid s kvs ikvs akvs w Hs Hj Hid Haud)
    as (w' & data & tp & mp & up & lo & hi & lot & hit & lom & him & lou & hiu &
        Eh & Et & _ & Ec & Es & El & _ & _ & Ht & _ & Hm & _ & Hu & _).
  rewrite Eh. unfold dispatch.
  rewrite (is_str_allocd _ _ _ _ _ "frontend" Ht), Htype.
  replace (jv_is_str (JStr "frontend") "frontend") with true by reflexivity.
  pose proof (depth_get_or ikvs "merchant_id" (JStr "")) as D1.
  pose proof (depth_get_or akvs "data" (JStr "")) as D2.
  pose proof (depth_get_or kvs "audience" (JObj [])) as D3. rewrite Haud in D3.
  pose proof (depth_assoc _ _ _ Hid) as D4.
  assert (D5 : 1 <= depth (JObj kvs)) by (simpl; lia).
  change (depth (JStr "")) with 0 in D1, D2. change (depth (JObj [])) with 1 in D3.
  rewrite bind_eq, (handle_frontend_eq cid mp up w' _ _ _ _ _ _ Hm Hu); [| lia | lia].
  rewrite <- Et, <- Ec, <- Es, <- El.
  destruct (_ && _); split; intros Htr; try discriminate Htr.
  - cbn [fst snd ret]. unfold after_put. cbn [merchant_id user_id PK].
    destruct (_ && _ && _); repeat split.
  - repeat split.
Qed.

Lemma handle_frontend_scope_witness :
  let s := dq "{'id': {'type': 'frontend', 'merchant_id': 'staging.ottu.dev'}, 'audience': {'data': ''}}" in
  String.eqb s "" = false /\
  fst (handle "1092" (Some s) world0) = Raise (TypeError "merchant_id and user_id is required") /\
  w_table (snd (handle "1092" (Some s) world0)) = [].
Proof.
  cbv zeta. split; [reflexivity |].
  refine ((fun H => conj (proj1 H) (proj1 (proj2 H)))
            (proj1 (handle_frontend_scope "1092"
                      (dq "{'id': {'type': 'frontend', 'merchant_id': 'staging.ottu.dev'}, 'audience': {'data': ''}}")
                      [("id", JObj [("type", JStr "frontend"); ("merchant_id", JStr "staging.ottu.dev")]);
                       ("audience", JObj [("data", JStr "")])]
                      [("type", JStr "frontend"); ("merchant_id", JStr "staging.ottu.dev")]
                      [("data", JStr "")] world0
                      eq_refl ltac:(vm_compute; reflexivity) ltac:(vm_compute; lia)
                      eq_refl eq_refl eq_refl) eq_refl)).
Defined.

(** C7, counterexample: a [frontend] message whose [merchant_id] is the
    float 1.5 and whose user id is "72", both truthy, writes no
    registration: boto3 refuses to serialize the float, the error is
    caught and logged, and [handle] returns normally with the registry
    still empty. *)
Lemma handle_frontend_float_not_written :
  let s := dq "{'id': {'type': 'frontend', 'merchant_id': 1.5}, 'audience': {'data': '72'}}" in
  fst (handle "1092" (Some s) world0) = Ok tt /\
  w_table (snd (handle "1092" (Some s) world0)) = [] /\
  w_logs (snd (handle "1092" (Some s) world0)) = ["message_handle frontend ERROR"].
Proof. vm_compute. split; [reflexivity | split; reflexivity]. Qed.

(** C8: for a [backend] message whose audience is absent or an object,
    when [merchant_id] or the audience selector is falsy, the failure is logged, [handle] returns normally
    and no frame is sent and the registry is unchanged; otherwise the
    targets are resolved, and [broadcast] runs exactly when the resolved
    list is non-empty (a failure of the resolution is logged and sends
    nothing). *)
Theorem handle_backend_flow cid s kvs ikvs akvs w :
  String.eqb s "" = false -> json_loads s = Ok (JObj kvs) ->
  assoc "id" kvs = Some (JObj ikvs) -> get_or kvs "audience" (JObj []) = JObj akvs ->
  get_or ikvs "type" JNull = JStr "backend" ->
  (jtruthy (get_or ikvs "merchant_id" (JStr "")) && jtruthy (get_or akvs "data" (JStr "")) = false ->
     fst (handle cid (Some s) w) = Ok tt /\
     w_table (snd (handle cid (Some s) w)) = w_table w /\
     w_sent (snd (handle cid (Some s) w)) = w_sent w /\
     w_logs (snd (handle cid (Some s) w)) = (w_logs w ++ ["message_handle backend ERROR"])%list) /\
  (jtruthy (get_or ikvs "merchant_id" (JStr "")) && jtruthy (get_or akvs "data" (JStr "")) = true ->
     exists w' data mp up lo hi lom him lou hiu,
       w_table w' = w_table w /\ w_sent w' = w_sent w /\
       allocd (w_heap w') lo hi data (JObj kvs) /\
       allocd (w_heap w') lom him mp (get_or ikvs "merchant_id" (JStr "")) /\
       allocd (w_heap w') lou hiu up (get_or akvs "data" (JStr "")) /\
       handle cid (Some s) w =
         match get_connection_ids_by_reference mp up w' with
         | (Ok [], w'') => (Ok tt, add_log "connection ids" w'')
         | (Ok ids, w'') => bind (broadcast ids data) (fun _ => ret tt) (add_log "connection ids" w'')
         | (Raise _, w'') => (Ok tt, add_log "message_handle backend ERROR" w'')
         end).
Proof.
  intros Hs Hj Hid Haud Htype.
  destruct (handle_prefix cid s kvs ikvs akvs w Hs Hj Hid Haud)
    as (w' & data & tp & mp & up & lo & hi & lot & hit & lom & him & lou & hiu &
        Eh & Et & _ & _ & Es & El & Hal & _ & Ht & _ & Hm & _ & Hu & _).
  rewrite Eh. unfold dispatch.
  rewrite (is_str_allocd _ _ _ _ _ "frontend" Ht), (is_str_allocd _ _ _ _ _ "backend" Ht), Htype.
  replace (jv_is_str (JStr "backend") "frontend") with false by reflexivity.
  replace (jv_is_str (JStr "backend") "backend") with true by reflexivity.
  cbv beta iota.
  unfold handle_backend, try_except, both_truthy, bind, ret, raise, log, modify.
  rewrite (truthy_allocd _ _ _ _ _ Hm).
  split.
  - intros Hf.
    destruct (jtruthy (get_or ikvs "merchant_id" (JStr ""))); simpl in Hf.
    + rewrite (truthy_allocd _ _ _ _ _ Hu), Hf. simpl. repeat split; congruence.
    + simpl. repeat split; congruence.
  - intros Htr. apply andb_true_iff in Htr as [Htr1 Htr2]. rewrite Htr1.
    rewrite (truthy_allocd _ _ _ _ _ Hu), Htr2.
    exists w', data, mp, up, lo, hi, lom, him, lou, hiu.
    repeat split; auto.
    destruct (get_connection_ids_by_reference mp up w') as [[[| c ids] | e] w''];
      reflexivity.
Qed.

Lemma handle_backend_flow_witness :
  let s := dq "{'id': {'type': 'backend', 'merchant_id': ''}, 'audience': {'data': '__all__'}}" in
  String.eqb s "" = false /\
  fst (handle "1092" (Some s) world0) = Ok tt /\
  w_sent (snd (handle "1092" (Some s) world0)) = [] /\
  w_logs (snd (handle "1092" (Some s) world0)) = ["message_handle backend ERROR"].
Proof.
  cbv zeta. split; [reflexivity |].
  destruct (proj1 (handle_backend_flow "1092"
             (dq "{'id': {'type': 'backend', 'merchant_id': ''}, 'audience': {'data': '__all__'}}")
             [("id", JObj [("type", JStr "backend"); ("merchant_id", JStr "")]);
              ("audience", JObj [("data", JStr "__all__")])]
             [("type", JStr "backend"); ("merchant_id", JStr "")]
             [("data", JStr "__all__")] world0
             eq_refl ltac:(vm_compute; reflexivity) eq_refl eq_refl eq_refl) eq_refl)
    as (H1 & _ & H3 & H4).
  split; [exact H1 |]. split; [exact H3 | exact H4].
Defined.

(** C1 (as the code behaves): resolving a list selector of string user
    ids returns the registrations of the merchant and the FIRST user id
    only: the scan of the first id sets [done], and the loop skips the
    scans of all later ids. *)
Theorem resolve_first_id_only w mer l u us :
  w_heap w !! l = Some (OList (PStr u :: map PStr us)) ->
  get_connection_ids_by_reference (PStr mer) (PRef l) w =
  (Ok (map to_conn (List.filter (matches (JStr mer) u) (w_table w))), w).
Proof.
  intros Hl.
  apply (get_ids_iter (PStr mer) (JStr mer) (PRef l) u (map PStr us) w 0 0
           (al_str _ 0 0 mer (le_n 0)) (Nat.le_0_l _) eq_refl eq_refl).
  - unfold py_iter, bind, get_obj. rewrite Hl. reflexivity.
  - clear Hl. induction us as [| a us IH]; [constructor |]. constructor; [eauto | exact IH].
Qed.

Lemma resolve_first_id_only_witness :
  w_heap two_ids_world !! 0 = Some (OList (PStr "72" :: map PStr ["99"])) /\
  get_connection_ids_by_reference (PStr "m") (PRef 0) two_ids_world
    = (Ok [mkConn "c1" (JStr "72")], two_ids_world).
Proof.
  assert (H : w_heap two_ids_world !! 0 = Some (OList (PStr "72" :: map PStr ["99"])))
    by (vm_compute; reflexivity).
  split; [exact H |].
  rewrite (resolve_first_id_only two_ids_world "m" 0 "72" ["99"] H).
  vm_compute. reflexivity.
Defined.

(** C3 (as the code behaves): for a target outside the allow-list, when
    the payload's [content] has no [message] field, [broadcast] raises
    [KeyError] at that target, before sending it anything, and the
    remaining targets are not served. *)
Theorem broadcast_absent_message_raises c ts data w lo hi kvs akvs ckvs allow :
  allocd (w_heap w) lo hi data (JObj kvs) -> hi <= w_next w ->
  depth (JObj kvs) <= recursion_limit ->
  assoc "audience" kvs = Some (JObj akvs) -> assoc "message" akvs = Some (JArr allow) ->
  assoc "content" kvs = Some (JObj ckvs) -> assoc "message" ckvs = None ->
  is_allowed allow c = false ->
  fst (broadcast (c :: ts) data w) = Raise KeyError /\
  w_sent (snd (broadcast (c :: ts) data w)) = w_sent w.
Proof.
  intros Hal Hhi Hd Ha Ham Hc Hcm Hno.
  destruct (broadcast_one_keyerror c data w lo hi kvs akvs ckvs allow Hal Hhi Hd Ha Ham Hc Hcm Hno)
    as (H1 & H2 & _).
  rewrite broadcast_eq. cbn [broadcast_loop]. rewrite bind_eq.
  destruct (broadcast_one c data w) as [r w1]. simpl in H1, H2. subst r.
  split; [reflexivity | exact H2].
Qed.

Lemma broadcast_absent_message_raises_witness :
  let kvs := [("audience", JObj sample_audience); ("content", JObj [("alert", JStr "success")])] in
  let w := mkWorld (snd (fst (alloc (JObj kvs) ∅ 0))) (snd (alloc (JObj kvs) ∅ 0))
             [] ["2001"; "1092"] 0 [] [] in
  let data := fst (fst (alloc (JObj kvs) ∅ 0)) in
  allocd (w_heap w) 0 (w_next w) data (JObj kvs) /\
  fst (broadcast [mkConn "2001" (JStr "99"); mkConn "1092" (JStr "72")] data w) = Raise KeyError /\
  w_sent (snd (broadcast [mkConn "2001" (JStr "99"); mkConn "1092" (JStr "72")] data w)) = [].
Proof.
  cbv zeta.
  assert (Hal : allocd (snd (fst (alloc (JObj [("audience", JObj sample_audience);
                                               ("content", JObj [("alert", JStr "success")])]) ∅ 0)))
                  0 (snd (alloc (JObj [("audience", JObj sample_audience);
                                       ("content", JObj [("alert", JStr "success")])]) ∅ 0))
                  (fst (fst (alloc (JObj [("audience", JObj sample_audience);
                                          ("content", JObj [("alert", JStr "success")])]) ∅ 0)))
                  (JObj [("audience", JObj sample_audience); ("content", JObj [("alert", JStr "success")])])).
  { pose proof (alloc_spec (JObj [("audience", JObj sample_audience);
                                 ("content", JObj [("alert", JStr "success")])]) ∅ 0) as H.
    destruct (alloc _ ∅ 0) as [[p h] n]. apply H. }
  split; [exact Hal |].
  apply (broadcast_absent_message_raises _ _ _
           (mkWorld _ _ [] ["2001"; "1092"] 0 [] []) 0 _ _ sample_audience [("alert", JStr "success")]
           [JStr "72"] Hal (le_n _)); first [vm_compute; lia | reflexivity].
Defined.

(** C9: registering connection "1092" for merchant "staging.ottu.dev"
    and user "72", then resolving that merchant with the selector
    ["72"], returns exactly that one target; after [delete_connection]
    of "1092" the same resolution returns nothing. The registry may hold
    other rows, none of them for that merchant and user. *)
Theorem registry_round_trip w l ts :
  w_heap w !! l = Some (OList [PStr "72"]) ->
  Forall (fun it => matches (JStr "staging.ottu.dev") "72" it = false) (w_table w) ->
  let w1 := snd (set_user_by_connection_id "1092" (PStr "staging.ottu.dev") (PStr "72") ts w) in
  fst (get_connection_ids_by_reference (PStr "staging.ottu.dev") (PRef l) w1) =
    Ok [mkConn "1092" (JStr "72")] /\
  fst (get_connection_ids_by_reference (PStr "staging.ottu.dev") (PRef l)
         (snd (delete_connection "1092" w1))) = Ok [].
Proof.
  intros Hl Ht. cbv zeta.
  set (it := mkItem "1092" (JStr "staging.ottu.dev") (JStr "72") ts).
  assert (E1 : snd (set_user_by_connection_id "1092" (PStr "staging.ottu.dev") (PStr "72") ts w)
               = set_table (put_item it (w_table w)) w) by reflexivity.
  rewrite E1. set (w1 := set_table (put_item it (w_table w)) w).
  destruct (delete_connection_heap "1092" w1) as (D1 & _ & _ & _ & D5 & _).
  assert (Hit : forall w', w_heap w' = w_heap w ->
                 py_iter (PRef l) w' = (Ok [PStr "72"], w')).
  { intros w' Hw'. unfold py_iter, bind, get_obj. rewrite Hw', Hl. reflexivity. }
  split.
  - rewrite (get_ids_iter (PStr "staging.ottu.dev") (JStr "staging.ottu.dev") (PRef l) "72" [] w1
               0 0 (al_str _ 0 0 _ (le_n 0)) (Nat.le_0_l _) eq_refl eq_refl (Hit w1 eq_refl) (List.Forall_nil _)).
    simpl fst. unfold w1. simpl w_table.
    rewrite (filter_put_item _ it _ Ht eq_refl). reflexivity.
  - rewrite (get_ids_iter (PStr "staging.ottu.dev") (JStr "staging.ottu.dev") (PRef l) "72" []
               (snd (delete_connection "1092" w1))
               0 0 (al_str _ 0 0 _ (le_n 0)) (Nat.le_0_l _) eq_refl eq_refl (Hit _ D1) (List.Forall_nil _)).
    simpl fst. change "1092" with (PK it). rewrite (filter_delete_put _ _ _ Ht). reflexivity.
Qed.

Lemma registry_round_trip_witness :
  w_heap one_id_world !! 0 = Some (OList [PStr "72"]) /\
  Forall (fun it => matches (JStr "staging.ottu.dev") "72" it = false) (w_table one_id_world) /\
  fst (get_connection_ids_by_reference (PStr "staging.ottu.dev") (PRef 0)
         (snd (set_user_by_connection_id "1092" (PStr "staging.ottu.dev") (PStr "72")
                 1092387456 one_id_world)))
    = Ok [mkConn "1092" (JStr "72")].
Proof.
  assert (H1 : w_heap one_id_world !! 0 = Some (OList [PStr "72"])) by (vm_compute; reflexivity).
  assert (H2 : Forall (fun it => matches (JStr "staging.ottu.dev") "72" it = false)
                 (w_table one_id_world)) by (repeat constructor).
  split; [exact H1 |]. split; [exact H2 |].
  exact (proj1 (registry_round_trip one_id_world 0 1092387456 H1 H2)).
Defined.

(** C10: for a [backend] message whose audience [data] is a non-empty
    string other than "__all__" and whose [merchant_id] is truthy,
    [handle] resolves the targets by iterating that string character by
    character: every target it broadcasts to has a user id that is one
    character of the string, never the whole string (unless it is one
    character long). *)
Theorem handle_string_selector cid s kvs ikvs akvs sel w :
  String.eqb s "" = false -> json_loads s = Ok (JObj kvs) ->
  depth (JObj kvs) <= recursion_limit ->
  assoc "id" kvs = Some (JObj ikvs) -> get_or kvs "audience" (JObj []) = JObj akvs ->
  get_or ikvs "type" JNull = JStr "backend" ->
  jtruthy (get_or ikvs "merchant_id" (JStr "")) = true ->
  get_or akvs "data" (JStr "") = JStr sel ->
  String.eqb sel "" = false -> String.eqb sel "__all__" = false ->
  exists w' data ids,
    handle cid (Some s) w =
      match ids with
      | [] => (Ok tt, w')
      | _ :: _ => bind (broadcast ids data) (fun _ => ret tt) w'
      end /\
    Forall (fun c => exists ch, conn_user_id c = JStr ch /\ In ch (py_chars sel)) ids.
Proof.
  intros Hs Hj Hd Hid Haud Htype Hmer Hsel Hne Hall.
  destruct (handle_prefix cid s kvs ikvs akvs w Hs Hj Hid Haud)
    as (w' & data & tp & mp & up & lo & hi & lot & hit & lom & him & lou & hiu &
        Eh & _ & _ & _ & _ & _ & _ & _ & Ht & _ & Hm & _ & Hu & _).
  rewrite Hsel in Hu. apply allocd_str_inv in Hu. subst up.
  pose proof (depth_get_or ikvs "merchant_id" (JStr "")) as D1.
  pose proof (depth_assoc _ _ _ Hid) as D2. change (depth (JStr "")) with 0 in D1.
  assert (Eh' : forall ids w'', handle_backend mp (PStr sel) w' = (Ok ids, w'') ->
                handle cid (Some s) w =
                  match ids with
                  | [] => (Ok tt, w'')
                  | _ :: _ => bind (broadcast ids data) (fun _ => ret tt) w''
                  end).
  { intros ids w'' Er. rewrite Eh. unfold dispatch.
    rewrite (is_str_allocd _ _ _ _ _ "frontend" Ht), (is_str_allocd _ _ _ _ _ "backend" Ht), Htype.
    replace (jv_is_str (JStr "backend") "frontend") with false by reflexivity.
    replace (jv_is_str (JStr "backend") "backend") with true by reflexivity.
    cbv beta iota. rewrite (bind_ok _ _ _ _ _ Er). destruct ids; reflexivity. }
  destruct (ddb_ok (get_or ikvs "merchant_id" (JStr ""))) eqn:Hok.
  - destruct (handle_backend_str mp _ sel w' _ _ Hm ltac:(lia) Hmer Hok Hne Hall)
      as (ch & rest & Hc & Eb).
    exists (add_log "connection ids" w'), data,
      (map to_conn (List.filter (matches (get_or ikvs "merchant_id" (JStr "")) ch) (w_table w'))).
    split; [exact (Eh' _ _ Eb) |].
    apply List.Forall_forall. intros c Hc'.
    apply in_map_iff in Hc' as (it & <- & Hin). apply filter_In in Hin as [_ Hmt].
    unfold matches in Hmt. apply andb_true_iff in Hmt as [_ Hmt]. apply jv_eqb_str in Hmt.
    exists ch. split; [exact Hmt | rewrite Hc; left; reflexivity].
  - exists (add_log "message_handle backend ERROR" w'), data, [].
    split; [| constructor].
    exact (Eh' _ _ (handle_backend_str_err mp _ sel w' _ _ Hm ltac:(lia) Hmer Hok Hne Hall)).
Qed.

Lemma handle_string_selector_witness :
  let s := dq "{'id': {'type': 'backend', 'merchant_id': 'm'}, 'audience': {'data': '72'}}" in
  let w := with_table [mkItem "c7" (JStr "m") (JStr "7") 0;
                       mkItem "c72" (JStr "m") (JStr "72") 0] [] in
  String.eqb s "" = false /\
  exists w' data ids,
    handle "1092" (Some s) w =
      match ids with
      | [] => (Ok tt, w')
      | _ :: _ => bind (broadcast ids data) (fun _ => ret tt) w'
      end /\
    Forall (fun c => exists ch, conn_user_id c = JStr ch /\ In ch (py_chars "72")) ids.
Proof.
  cbv zeta. split; [reflexivity |].
  apply (handle_string_selector "1092"
           (dq "{'id': {'type': 'backend', 'merchant_id': 'm'}, 'audience': {'data': '72'}}")
           [("id", JObj [("type", JStr "backend"); ("merchant_id", JStr "m")]);
            ("audience", JObj [("data", JStr "72")])]
           [("type", JStr "backend"); ("merchant_id", JStr "m")]
           [("data", JStr "72")] "72");
    first [reflexivity | vm_compute; reflexivity | vm_compute; lia].
Defined.

Example handle_ping :
  w_sent (snd (handle "1092" (Some (dq "{'id': {'type': 'ping'}}")) (with_table [] ["1092"])))
  = [("1092", WText "pong")].
Proof. reflexivity. Qed.

(* ================================================================= *)
(** ** Further properties of the module *)

(** *** The registry *)

Lemma put_item_keys it t x :
  In x (map PK (put_item it t)) <-> x = PK it \/ In x (map PK t).
Proof.
  induction t as [| y t IH]; simpl; [intuition congruence |].
  destruct (String.eqb (PK y) (PK it)) eqn:E; simpl.
  - apply String.eqb_eq in E. rewrite E. intuition congruence.
  - rewrite IH. intuition congruence.
Qed.

Lemma put_item_nodup it t : List.NoDup (map PK t) -> List.NoDup (map PK (put_item it t)).
Proof.
  induction t as [| y t IH]; simpl; intros H.
  - constructor; [intros [] | constructor].
  - inversion H as [| ? ? Hy Ht]; subst.
    destruct (String.eqb (PK y) (PK it)) eqn:E; simpl.
    + apply String.eqb_eq in E. rewrite <- E. constructor; assumption.
    + constructor; [| apply IH, Ht]. rewrite put_item_keys. intros [H1 | H1]; [| contradiction].
      rewrite H1, String.eqb_refl in E. discriminate.
Qed.

Lemma filter_pk_absent k t :
  ~ In k (map PK t) -> List.filter (fun x => String.eqb (PK x) k) t = [].
Proof.
  induction t as [| z t IH]; simpl; intros H; [reflexivity |].
  destruct (String.eqb (PK z) k) eqn:E.
  - apply String.eqb_eq in E. exfalso. apply H. left. exact E.
  - apply IH. intros H'. apply H. right. exact H'.
Qed.

Lemma put_item_find it t :
  List.NoDup (map PK t) -> List.filter (fun x => String.eqb (PK x) (PK it)) (put_item it t) = [it].
Proof.
  induction t as [| y t IH]; simpl; intros H.
  - rewrite String.eqb_refl. reflexivity.
  - inversion H as [| ? ? Hy Ht]; subst.
    destruct (String.eqb (PK y) (PK it)) eqn:E; simpl.
    + rewrite String.eqb_refl. f_equal. apply String.eqb_eq in E.
      apply filter_pk_absent. rewrite <- E. exact Hy.
    + rewrite E. apply IH, Ht.
Qed.

Lemma delete_put it t : delete_item (PK it) (put_item it t) = delete_item (PK it) t.
Proof.
  unfold delete_item. induction t as [| y t IH]; simpl.
  - rewrite String.eqb_refl. reflexivity.
  - destruct (String.eqb (PK y) (PK it)) eqn:E; simpl;
      rewrite ?String.eqb_refl, ?E; simpl; [reflexivity | f_equal; exact IH].
Qed.

(** *** Resolution only reads *)

Lemma readonly_fstring v : readonly (fstring v).
Proof. unfold fstring. destruct v as [| [] | | | | ]; readonly_tac. Qed.

Lemma readonly_py_iter v : readonly (py_iter v).
Proof. unfold py_iter. destruct v; readonly_tac. Qed.

Lemma readonly_scan vals p : readonly (scan vals p).
Proof. intros w. unfold scan. destruct (ddb_errors vals); reflexivity. Qed.

Lemma readonly_scan_users m us : forall done data, readonly (scan_users m us done data).
Proof.
  induction us as [| u us IH]; intros done data; simpl; [apply readonly_ret |].
  apply readonly_bind; [apply readonly_fstring | intros s].
  destruct done; [apply IH |]. apply readonly_bind; [apply readonly_scan | intros; apply IH].
Qed.

Lemma readonly_get_ids mp up : readonly (get_connection_ids_by_reference mp up).
Proof.
  unfold get_connection_ids_by_reference. apply readonly_bind; [apply readonly_dumps | intros m].
  apply readonly_bind; [| intros; apply readonly_ret].
  destruct (is_str up "__all__"); [apply readonly_scan |].
  apply readonly_bind; [apply readonly_py_iter | intros; apply readonly_scan_users].
Qed.

(** *** DynamoDB's equality on documents *)

Lemma sf_eqb_refl x : sf_eqb x x = true.
Proof.
  destruct x as [a | a | | a m e]; simpl; try (destruct a; reflexivity).
  - reflexivity.
  - rewrite Pos.eqb_refl, Z.eqb_refl. destruct a; reflexivity.
Qed.

Lemma sf_eqb_sound x y : sf_eqb x y = true -> x = y.
Proof.
  destruct x as [a | a | | a m e], y as [b | b | | b m' e']; simpl; intros H;
    try discriminate; try reflexivity.
  - apply Bool.eqb_prop in H. subst. reflexivity.
  - apply Bool.eqb_prop in H. subst. reflexivity.
  - apply andb_true_iff in H as [H H3]. apply andb_true_iff in H as [H1 H2].
    apply Bool.eqb_prop in H1. apply Pos.eqb_eq in H2. apply Z.eqb_eq in H3. subst. reflexivity.
Qed.

Lemma jv_eqb_refl v : jv_eqb v v = true.
Proof.
  induction v as [| b | z | f | s | vs IH | kvs IH] using jvalue_ind'; simpl.
  - reflexivity.
  - destruct b; reflexivity.
  - apply Z.eqb_refl.
  - apply sf_eqb_refl.
  - apply String.eqb_refl.
  - induction IH as [| v vs Hv _ IHvs]; [reflexivity |]. simpl. rewrite Hv. exact IHvs.
  - induction IH as [| [k v] kvs Hv _ IHkvs]; [reflexivity |]. simpl in Hv |- *.
    rewrite String.eqb_refl, Hv. exact IHkvs.
Qed.

Lemma jv_eqb_sound a b : jv_eqb a b = true -> a = b.
Proof.
  revert b.
  induction a as [| x | z | f | s | vs IH | kvs IH] using jvalue_ind';
    intros [| y | z' | f' | t | ws | lws] H; simpl in H; try discriminate.
  - reflexivity.
  - destruct x, y; try discriminate; reflexivity.
  - apply Z.eqb_eq in H. subst. reflexivity.
  - apply sf_eqb_sound in H. subst. reflexivity.
  - apply String.eqb_eq in H. subst. reflexivity.
  - f_equal. revert ws H. induction IH as [| v vs Hv _ IHvs]; intros [| w' ws] H;
      simpl in H; try discriminate; [reflexivity |].
    apply andb_true_iff in H as [H1 H2]. f_equal; auto.
  - f_equal. revert lws H. induction IH as [| [k v] kvs Hv _ IHkvs]; intros [| [k' v'] lws] H;
      simpl in H; try discriminate; [reflexivity |].
    apply andb_true_iff in H as [H1 H2]. apply andb_true_iff in H1 as [Hk H1].
    apply String.eqb_eq in Hk. subst k'. simpl in Hv. f_equal; [f_equal; auto | auto].
Qed.

(** *** Storage *)

(** [Storage.delete_connection] returns the id it is given, logs it and
    sends nothing; for a non-empty id the rows left are exactly the rows
    of the other connections (an id with no row is no error); for the
    empty id the table is untouched. *)
Theorem delete_connection_rows x w :
  fst (delete_connection x w) = Ok x /\
  w_logs (snd (delete_connection x w)) = (w_logs w ++ [String.append "delete_connection connection_id: " x])%list /\
  w_sent (snd (delete_connection x w)) = w_sent w /\
  (String.eqb x "" = true -> w_table (snd (delete_connection x w)) = w_table w) /\
  (String.eqb x "" = false -> forall it,
     In it (w_table (snd (delete_connection x w))) <-> In it (w_table w) /\ PK it <> x).
Proof.
  destruct (delete_connection_heap x w) as (_ & _ & _ & Hs & Ht & Hr).
  split; [exact Hr |]. split.
  { unfold delete_connection, bind, log, modify, ret. simpl. destruct (String.eqb x ""); reflexivity. }
  split; [exact Hs |]. split.
  - intros E. rewrite Ht, E. reflexivity.
  - intros E it. rewrite Ht, E. unfold delete_item.
    rewrite filter_In, negb_true_iff, String.eqb_neq. reflexivity.
Qed.

Lemma delete_connection_rows_witness :
  String.eqb "1092" "" = false /\
  forall it,
    In it (w_table (snd (delete_connection "1092"
             (with_table [mkItem "1092" (JStr "m") (JStr "72") 0;
                          mkItem "2001" (JStr "m") (JStr "99") 0] []))))
    <-> In it [mkItem "1092" (JStr "m") (JStr "72") 0; mkItem "2001" (JStr "m") (JStr "99") 0]
        /\ PK it <> "1092".
Proof.
  split; [reflexivity |].
  exact (proj2 (proj2 (proj2 (proj2 (delete_connection_rows "1092"
           (with_table [mkItem "1092" (JStr "m") (JStr "72") 0;
                        mkItem "2001" (JStr "m") (JStr "99") 0] []))))) eq_refl).
Defined.

(** [Storage.set_user_by_connection_id] on readable values that
    DynamoDB accepts (no float, every integer below 10^38 in magnitude),
    with a non-empty connection id, in a table whose primary keys are
    distinct: it returns the connection id, the
    keys stay distinct, the connection then has exactly one row, the one
    just written (an earlier row of that connection is replaced), and the
    rows of every other connection are as they were. *)
Theorem set_user_registers cid mp up ts w lom him m lou hiu u :
  allocd (w_heap w) lom him mp m -> allocd (w_heap w) lou hiu up u ->
  depth m <= recursion_limit -> depth u <= recursion_limit ->
  String.eqb cid "" = false -> ddb_ok m = true -> ddb_ok u = true ->
  List.NoDup (map PK (w_table w)) ->
  fst (set_user_by_connection_id cid mp up ts w) = Ok cid /\
  List.NoDup (map PK (w_table (snd (set_user_by_connection_id cid mp up ts w)))) /\
  List.filter (fun it => String.eqb (PK it) cid)
    (w_table (snd (set_user_by_connection_id cid mp up ts w))) = [mkItem cid m u ts] /\
  delete_item cid (w_table (snd (set_user_by_connection_id cid mp up ts w))) =
    delete_item cid (w_table w).
Proof.
  intros Hm Hu Hdm Hdu Hc Hom Hou Hk.
  rewrite (set_user_eq cid mp up ts w lom him m lou hiu u Hm Hu Hdm Hdu).
  unfold after_put. cbn [merchant_id user_id PK]. rewrite Hc, Hom, Hou.
  simpl. split; [reflexivity |]. split; [apply put_item_nodup, Hk |].
  split; [exact (put_item_find (mkItem cid m u ts) _ Hk) | exact (delete_put (mkItem cid m u ts) _)].
Qed.

Lemma set_user_registers_witness :
  List.NoDup (map PK (w_table one_id_world)) /\
  List.filter (fun it => String.eqb (PK it) "2001")
    (w_table (snd (set_user_by_connection_id "2001" (PStr "m") (PStr "72") 5 one_id_world)))
  = [mkItem "2001" (JStr "m") (JStr "72") 5].
Proof.
  assert (H : List.NoDup (map PK (w_table one_id_world))) by (repeat constructor; simpl; tauto).
  split; [exact H |].
  exact (proj1 (proj2 (proj2 (set_user_registers "2001" (PStr "m") (PStr "72") 5 one_id_world
           0 0 (JStr "m") 0 0 (JStr "72") (al_str _ 0 0 _ (le_n 0)) (al_str _ 0 0 _ (le_n 0))
           (Nat.le_0_l _) (Nat.le_0_l _) eq_refl eq_refl eq_refl H)))).
Defined.

(** [Storage.set_user_by_connection_id] never raises and always returns
    the connection id: either the row is written, or the failure is
    caught, logged, and the table is left as it was. *)
Theorem set_user_never_raises cid mp up ts w :
  fst (set_user_by_connection_id cid mp up ts w) = Ok cid /\
  ((exists m u, snd (set_user_by_connection_id cid mp up ts w) =
                set_table (put_item (mkItem cid m u ts) (w_table w)) w) \/
   snd (set_user_by_connection_id cid mp up ts w) = add_log "message_handle frontend ERROR" w).
Proof.
  unfold set_user_by_connection_id, try_except, bind, ret, log, modify.
  rewrite (run_readonly (dumps mp) w (readonly_dumps mp)).
  destruct (fst (dumps mp w)) as [m | e]; cbv beta iota.
  - rewrite (run_readonly (dumps up) w (readonly_dumps up)).
    destruct (fst (dumps up w)) as [u | e]; cbv beta iota.
    + unfold put_item_m, raise. destruct (ddb_errors _); [split; [reflexivity | right; reflexivity] |].
      cbn [PK]. destruct (String.eqb cid "").
      * split; [reflexivity | right; reflexivity].
      * split; [reflexivity | left; exists m, u; reflexivity].
    + split; [reflexivity | right; reflexivity].
  - split; [reflexivity | right; reflexivity].
Qed.

(** [Storage.get_connection_ids_by_reference] writes nothing: whatever
    its arguments, and also when it raises, the heap, the table, the
    frames sent and the log are as they were. *)
Theorem resolve_never_writes mp up w :
  snd (get_connection_ids_by_reference mp up w) = w.
Proof. apply readonly_get_ids. Qed.

(** With the selector "__all__", [get_connection_ids_by_reference]
    returns one target per registration of the merchant, whatever its
    user id, and no other, when DynamoDB accepts the merchant id (no
    float, every integer below 10^38 in magnitude); otherwise the scan
    raises boto3's serialization error. *)
Theorem resolve_all_targets mp m w lo hi :
  allocd (w_heap w) lo hi mp m -> depth m <= recursion_limit ->
  match ddb_error m with
  | None =>
      exists ids, get_connection_ids_by_reference mp (PStr "__all__") w = (Ok ids, w) /\
        forall c, In c ids <-> exists it, In it (w_table w) /\ merchant_id it = m /\ c = to_conn it
  | Some e => get_connection_ids_by_reference mp (PStr "__all__") w = (Raise e, w)
  end.
Proof.
  intros Hm Hd.
  destruct (ddb_error m) as [e |] eqn:Ee.
  { unfold get_connection_ids_by_reference.
    rewrite (bind_ok _ _ _ _ _ (dumps_allocd _ _ _ _ _ Hm Hd)). cbv beta.
    change (is_str (PStr "__all__") "__all__") with true. cbv iota.
    rewrite bind_eq. unfold scan. simpl ddb_errors. rewrite Ee. reflexivity. }
  assert (Hok : ddb_ok m = true) by (unfold ddb_ok; rewrite Ee; reflexivity).
  exists (map to_conn (List.filter (fun it => jv_eqb (merchant_id it) m) (w_table w))).
  split.
  - unfold get_connection_ids_by_reference.
    rewrite (bind_ok _ _ _ _ _ (dumps_allocd _ _ _ _ _ Hm Hd)). cbv beta.
    change (is_str (PStr "__all__") "__all__") with true. cbv iota.
    rewrite (bind_ok _ _ _ _ _ (scan_ok _ _ _ (ddb_errors_one m Hok))). reflexivity.
  - intros c. rewrite in_map_iff. split.
    + intros (it & <- & Hin). apply filter_In in Hin as [Hin He].
      apply jv_eqb_sound in He. eauto.
    + intros (it & Hin & He & ->). exists it. split; [reflexivity |].
      apply filter_In. split; [exact Hin |]. rewrite He. apply jv_eqb_refl.
Qed.

Lemma resolve_all_targets_witness :
  exists ids,
    get_connection_ids_by_reference (PStr "m") (PStr "__all__") two_ids_world
      = (Ok ids, two_ids_world) /\
    forall c, In c ids <-> exists it, In it (w_table two_ids_world) /\
                                merchant_id it = JStr "m" /\ c = to_conn it.
Proof.
  exact (resolve_all_targets (PStr "m") (JStr "m") two_ids_world 0 0
           (al_str _ 0 0 _ (le_n 0)) (Nat.le_0_l _)).
Defined.

(** For a selector list whose first element is an integer [z] (below
    10^4300 in magnitude, so that [f"{z}"] succeeds) followed by strings,
    and a merchant id DynamoDB accepts, only that first element is looked
    up, and it is matched as the text [f"{z}"]: the targets are the
    registrations whose user id is the string of its digits, never one
    whose user id is the number; the strings after it are not scanned. *)
Theorem resolve_int_user_id w mp m l z us lo hi :
  allocd (w_heap w) lo hi mp m -> depth m <= recursion_limit -> ddb_ok m = true ->
  (Z.abs z < 10 ^ 4300)%Z ->
  w_heap w !! l = Some (OList (PInt z :: map PStr us)) ->
  get_connection_ids_by_reference mp (PRef l) w =
  (Ok (map to_conn (List.filter (matches m (pretty z)) (w_table w))), w).
Proof.
  intros Hm Hd Hok Hz Hl. unfold get_connection_ids_by_reference.
  rewrite (bind_ok _ _ _ _ _ (dumps_allocd _ _ _ _ _ Hm Hd)). cbv beta. cbn [is_str].
  rewrite bind_assoc.
  assert (Hit : py_iter (PRef l) w = (Ok (PInt z :: map PStr us), w))
    by (unfold py_iter, bind, get_obj; rewrite Hl; reflexivity).
  rewrite (bind_ok _ _ _ _ _ Hit).
  assert (Hus : Forall (fun u => exists s, u = PStr s) (map PStr us))
    by (clear; induction us; simpl; constructor; eauto).
  assert (E : scan_users m (PInt z :: map PStr us) false [] w =
              (Ok (List.filter (matches m (pretty z)) (w_table w)), w)).
  { assert (Hf : fstring (PInt z) w = (Ok (pretty z), w))
      by (unfold fstring, int_str; rewrite (proj2 (Z.ltb_lt _ _) Hz); reflexivity).
    cbn [scan_users]. rewrite (bind_ok _ _ _ _ _ Hf). cbv beta.
    rewrite (bind_ok _ _ _ _ _ (scan_ok _ _ _ (ddb_errors_str m _ Hok))).
    rewrite scan_users_done by exact Hus. reflexivity. }
  rewrite (bind_ok _ _ _ _ _ E). reflexivity.
Qed.

Lemma resolve_int_user_id_witness :
  w_heap int_id_world !! 0 = Some (OList (PInt 72 :: map PStr [])) /\
  get_connection_ids_by_reference (PStr "m") (PRef 0) int_id_world
    = (Ok [mkConn "c1" (JStr "72")], int_id_world).
Proof.
  assert (H : w_heap int_id_world !! 0 = Some (OList (PInt 72 :: map PStr [])))
    by (vm_compute; reflexivity).
  split; [exact H |].
  rewrite (resolve_int_user_id int_id_world (PStr "m") (JStr "m") 0 72 [] 0 0
             (al_str _ 0 0 _ (le_n 0)) (Nat.le_0_l _) eq_refl ltac:(vm_compute; reflexivity) H).
  vm_compute. reflexivity.
Defined.

(** An empty selector, the empty string or an empty list, resolves to no
    target. *)
Theorem resolve_empty_selector mp m w lo hi l :
  allocd (w_heap w) lo hi mp m -> depth m <= recursion_limit ->
  get_connection_ids_by_reference mp (PStr "") w = (Ok [], w) /\
  (w_heap w !! l = Some (OList []) -> get_connection_ids_by_reference mp (PRef l) w = (Ok [], w)).
Proof.
  intros Hm Hd. split.
  - unfold get_connection_ids_by_reference.
    rewrite (bind_ok _ _ _ _ _ (dumps_allocd _ _ _ _ _ Hm Hd)). reflexivity.
  - intros Hl. unfold get_connection_ids_by_reference.
    rewrite (bind_ok _ _ _ _ _ (dumps_allocd _ _ _ _ _ Hm Hd)). cbv beta. cbn [is_str].
    rewrite bind_assoc.
    assert (Hit : py_iter (PRef l) w = (Ok [], w))
      by (unfold py_iter, bind, get_obj; rewrite Hl; reflexivity).
    rewrite (bind_ok _ _ _ _ _ Hit). reflexivity.
Qed.

Lemma resolve_empty_selector_witness :
  w_heap empty_ids_world !! 0 = Some (OList []) /\
  get_connection_ids_by_reference (PStr "m") (PRef 0) empty_ids_world = (Ok [], empty_ids_world).
Proof.
  assert (H : w_heap empty_ids_world !! 0 = Some (OList [])) by (vm_compute; reflexivity).
  split; [exact H |].
  exact (proj2 (resolve_empty_selector (PStr "m") (JStr "m") empty_ids_world 0 0 0
                  (al_str _ 0 0 _ (le_n 0)) (Nat.le_0_l _)) H).
Defined.

(** *** Handler *)

(** [Handler.handle_backend] never raises: whatever its arguments, it
    returns the resolved targets and logs them, or, when the arguments
    are falsy or the resolution raises, logs the failure and returns no
    target; it changes nothing but the log. *)
Theorem handle_backend_never_raises mp up w :
  (exists ids, handle_backend mp up w = (Ok ids, add_log "connection ids" w)) \/
  handle_backend mp up w = (Ok [], add_log "message_handle backend ERROR" w).
Proof.
  unfold handle_backend, try_except, both_truthy, bind.
  rewrite (run_readonly (truthy mp) w (readonly_truthy mp)).
  destruct (fst (truthy mp w)) as [[] | e]; cbv beta iota.
  - rewrite (run_readonly (truthy up) w (readonly_truthy up)).
    destruct (fst (truthy up w)) as [[] | e]; cbv beta iota.
    + rewrite (run_readonly _ w (readonly_get_ids mp up)).
      destruct (fst (get_connection_ids_by_reference mp up w)) as [ids | e]; cbv beta iota.
      * left. exists ids. reflexivity.
      * right. reflexivity.
    + right. reflexivity.
    + right. reflexivity.
  - right. reflexivity.
  - right. reflexivity.
Qed.

(** A [ping] message (a JSON object whose [id] is an object of type
    "ping") whose [audience] is absent or an object is answered with the
    text frame "pong" to the connection it came on; [handle] returns
    normally, and when that connection is already closed its registry
    row is deleted.  When its [audience] is present but not an object,
    [handle] raises [AttributeError] before sending anything and the
    registry is untouched. *)
Theorem handle_ping_pong cid s kvs ikvs w :
  String.eqb s "" = false -> json_loads s = Ok (JObj kvs) ->
  assoc "id" kvs = Some (JObj ikvs) ->
  get_or ikvs "type" JNull = JStr "ping" ->
  match get_or kvs "audience" (JObj []) with
  | JObj _ =>
      fst (handle cid (Some s) w) = Ok tt /\
      w_sent (snd (handle cid (Some s) w)) = (w_sent w ++ [(cid, WText "pong")])%list /\
      w_table (snd (handle cid (Some s) w)) = cleanup (w_live w) (w_table w) (mkConn cid JNull)
  | _ =>
      fst (handle cid (Some s) w) = Raise AttributeError /\
      w_sent (snd (handle cid (Some s) w)) = w_sent w /\
      w_table (snd (handle cid (Some s) w)) = w_table w
  end.
Proof.
  intros Hs Hj Hid Htype.
  destruct (get_or kvs "audience" (JObj [])) as [| | | | | | akvs] eqn:Haud;
    try (destruct (handle_audience_nonobj cid s kvs ikvs w Hs Hj Hid
                     ltac:(intros ?; rewrite Haud; discriminate))
           as (w' & -> & Et & _ & _ & Es & _); split; [reflexivity | split; assumption]).
  destruct (handle_prefix cid s kvs ikvs akvs w Hs Hj Hid Haud)
    as (w' & data & tp & mp & up & lo & hi & lot & hit & lom & him & lou & hiu &
        Eh & Et & El & _ & Es & _ & _ & _ & Ht & _).
  rewrite Eh. unfold dispatch.
  rewrite (is_str_allocd _ _ _ _ _ "frontend" Ht), (is_str_allocd _ _ _ _ _ "backend" Ht),
    (is_str_allocd _ _ _ _ _ "ping" Ht), Htype.
  replace (jv_is_str (JStr "ping") "frontend") with false by reflexivity.
  replace (jv_is_str (JStr "ping") "backend") with false by reflexivity.
  replace (jv_is_str (JStr "ping") "ping") with true by reflexivity.
  destruct (send_world cid (WText "pong") w') as (_ & _ & _ & H4 & H5 & H6).
  rewrite H4, H5, H6, Es, Et, El. split; [reflexivity | split; reflexivity].
Qed.

Lemma handle_ping_pong_witness :
  String.eqb (dq "{'id': {'type': 'ping'}}") "" = false /\
  w_sent (snd (handle "1092" (Some (dq "{'id': {'type': 'ping'}}"))
                 (with_table [mkItem "1092" (JStr "m") (JStr "72") 0] [])))
    = [("1092", WText "pong")] /\
  w_table (snd (handle "1092" (Some (dq "{'id': {'type': 'ping'}}"))
                  (with_table [mkItem "1092" (JStr "m") (JStr "72") 0] []))) = [].
Proof.
  pose proof (handle_ping_pong "1092" (dq "{'id': {'type': 'ping'}}")
              [("id", JObj [("type", JStr "ping")])] [("type", JStr "ping")]
              (with_table [mkItem "1092" (JStr "m") (JStr "72") 0] [])
              eq_refl ltac:(vm_compute; reflexivity) eq_refl eq_refl) as H.
  change (get_or [("id", JObj [("type", JStr "ping")])] "audience" (JObj [])) with (JObj []) in H.
  cbv iota in H. destruct H as (_ & H2 & H3).
  split; [reflexivity |]. split; [rewrite H2; reflexivity | rewrite H3; reflexivity].
Defined.

(** A message (a JSON object whose [id] is an object) whose [id.type]
    is none of "frontend", "backend" and "ping" (also an absent type)
    registers nothing and sends nothing.  When its [audience] is absent
    or an object it is logged as unexpected and [handle] returns
    normally; when its [audience] is present but not an object, [handle]
    raises [AttributeError] and logs nothing. *)
Theorem handle_unknown_client cid s kvs ikvs w :
  String.eqb s "" = false -> json_loads s = Ok (JObj kvs) ->
  assoc "id" kvs = Some (JObj ikvs) ->
  jv_is_str (get_or ikvs "type" JNull) "frontend" = false ->
  jv_is_str (get_or ikvs "type" JNull) "backend" = false ->
  jv_is_str (get_or ikvs "type" JNull) "ping" = false ->
  w_table (snd (handle cid (Some s) w)) = w_table w /\
  w_sent (snd (handle cid (Some s) w)) = w_sent w /\
  match get_or kvs "audience" (JObj []) with
  | JObj _ =>
      fst (handle cid (Some s) w) = Ok tt /\
      w_logs (snd (handle cid (Some s) w)) =
        (w_logs w ++ ["message_handle client expecting frontend or backend"])%list
  | _ =>
      fst (handle cid (Some s) w) = Raise AttributeError /\
      w_logs (snd (handle cid (Some s) w)) = w_logs w
  end.
Proof.
  intros Hs Hj Hid H1 H2 H3.
  destruct (get_or kvs "audience" (JObj [])) as [| | | | | | akvs] eqn:Haud;
    try (destruct (handle_audience_nonobj cid s kvs ikvs w Hs Hj Hid
                     ltac:(intros ?; rewrite Haud; discriminate))
           as (w' & -> & Et & _ & _ & Es & El);
         split; [assumption | split; [assumption | split; [reflexivity | assumption]]]).
  destruct (handle_prefix cid s kvs ikvs akvs w Hs Hj Hid Haud)
    as (w' & data & tp & mp & up & lo & hi & lot & hit & lom & him & lou & hiu &
        Eh & Et & _ & _ & Es & Elg & _ & _ & Ht & _).
  rewrite Eh. unfold dispatch.
  rewrite (is_str_allocd _ _ _ _ _ "frontend" Ht), (is_str_allocd _ _ _ _ _ "backend" Ht),
    (is_str_allocd _ _ _ _ _ "ping" Ht), H1, H2, H3.
  simpl. rewrite Et, Es, Elg. split; [reflexivity | split; [reflexivity | split; reflexivity]].
Qed.

Lemma handle_unknown_client_witness :
  String.eqb (dq "{'id': {'merchant_id': 'm'}}") "" = false /\
  fst (handle "1092" (Some (dq "{'id': {'merchant_id': 'm'}}")) world0) = Ok tt /\
  w_logs (snd (handle "1092" (Some (dq "{'id': {'merchant_id': 'm'}}")) world0))
    = ["message_handle client expecting frontend or backend"].
Proof.
  pose proof (handle_unknown_client "1092" (dq "{'id': {'merchant_id': 'm'}}")
              [("id", JObj [("merchant_id", JStr "m")])] [("merchant_id", JStr "m")]
              world0 eq_refl ltac:(vm_compute; reflexivity) eq_refl
              eq_refl eq_refl eq_refl) as H.
  change (get_or [("id", JObj [("merchant_id", JStr "m")])] "audience" (JObj [])) with (JObj []) in H.
  cbv iota in H. destruct H as (_ & _ & H1 & H4).
  split; [reflexivity |]. split; [exact H1 | rewrite H4; reflexivity].
Defined.

(** *** Sender *)

(** A payload whose [audience] is absent or not an object makes
    [broadcast] raise [AttributeError] at the first target, before any
    frame is sent and before any registry change. *)
Theorem broadcast_no_audience c ts data w lo hi kvs :
  allocd (w_heap w) lo hi data (JObj kvs) -> hi <= w_next w ->
  depth (JObj kvs) <= recursion_limit ->
  (forall akvs, get_or kvs "audience" JNull <> JObj akvs) ->
  fst (broadcast (c :: ts) data w) = Raise AttributeError /\
  w_sent (snd (broadcast (c :: ts) data w)) = w_sent w /\
  w_table (snd (broadcast (c :: ts) data w)) = w_table w.
Proof.
  intros Hal Hhi Hd Hno.
  assert (E : fst (broadcast_one c data w) = Raise AttributeError /\
              w_sent (snd (broadcast_one c data w)) = w_sent w /\
              w_table (snd (broadcast_one c data w)) = w_table w).
  { unfold broadcast_one, deepcopy. rewrite bind_assoc.
    rewrite (bind_ok _ _ _ _ _ (dumps_allocd _ _ _ _ _ Hal Hd)).
    rewrite bind_alloc_m.
    pose proof (alloc_spec (JObj kvs) (w_heap w) (w_next w)) as Hs.
    destruct (alloc (JObj kvs) (w_heap w) (w_next w)) as [[md h1] n1].
    destruct Hs as (Hle & Hfr & Hmd).
    set (w1 := set_heap h1 n1 w).
    assert (Hal1 : allocd (w_heap w1) lo hi data (JObj kvs)).
    { eapply allocd_frame; [exact Hal |]. intros l Hl. apply Hfr. lia. }
    destruct (py_get_or w1 _ _ _ _ "audience" PNone JNull 0 0 Hal1 (al_null _ 0 0 (le_n 0)))
      as (pa & loa & hia & Epa & Hpa & _).
    rewrite (bind_ok _ _ _ _ _ Epa).
    rewrite bind_eq, (py_get_nonobj _ _ _ _ _ _ _ Hpa Hno).
    split; [reflexivity | split; reflexivity]. }
  destruct E as (H1 & H2 & H3).
  rewrite broadcast_eq. cbn [broadcast_loop]. rewrite bind_eq.
  destruct (broadcast_one c data w) as [r w1]. simpl in H1, H2, H3. subst r.
  split; [reflexivity | split; assumption].
Qed.

(** A payload whose [audience] object has no [message] field (or a
    null, boolean, integer or float there) makes [broadcast] raise [TypeError]
    (the [in] test on a non-container) at the first target, before any
    frame is sent and before any registry change. *)
Theorem broadcast_allowlist_not_container c ts data w lo hi kvs akvs :
  allocd (w_heap w) lo hi data (JObj kvs) -> hi <= w_next w ->
  depth (JObj kvs) <= recursion_limit ->
  assoc "audience" kvs = Some (JObj akvs) ->
  (get_or akvs "message" JNull = JNull \/ (exists b, get_or akvs "message" JNull = JBool b) \/
   (exists z, get_or akvs "message" JNull = JNum z) \/
   exists f, get_or akvs "message" JNull = JFloat f) ->
  (exists msg, fst (broadcast (c :: ts) data w) = Raise (TypeError msg)) /\
  w_sent (snd (broadcast (c :: ts) data w)) = w_sent w /\
  w_table (snd (broadcast (c :: ts) data w)) = w_table w.
Proof.
  intros Hal Hhi Hd Ha Hv.
  assert (E : (exists msg, fst (broadcast_one c data w) = Raise (TypeError msg)) /\
              w_sent (snd (broadcast_one c data w)) = w_sent w /\
              w_table (snd (broadcast_one c data w)) = w_table w).
  { unfold broadcast_one, deepcopy. rewrite bind_assoc.
    rewrite (bind_ok _ _ _ _ _ (dumps_allocd _ _ _ _ _ Hal Hd)).
    rewrite bind_alloc_m.
    pose proof (alloc_spec (JObj kvs) (w_heap w) (w_next w)) as Hs.
    destruct (alloc (JObj kvs) (w_heap w) (w_next w)) as [[md h1] n1].
    destruct Hs as (Hle & Hfr & Hmd).
    set (w1 := set_heap h1 n1 w).
    assert (Hal1 : allocd (w_heap w1) lo hi data (JObj kvs)).
    { eapply allocd_frame; [exact Hal |]. intros l Hl. apply Hfr. lia. }
    destruct (py_get_field w1 _ _ _ _ _ _ PNone Hal1 Ha) as (pa & loa & hia & Epa & Hpa & _).
    rewrite (bind_ok _ _ _ _ _ Epa).
    destruct (py_get_or w1 _ _ _ _ "message" PNone JNull 0 0 Hpa (al_null _ 0 0 (le_n 0)))
      as (pl & lol & hil & Epl & Hpl & _).
    rewrite (bind_ok _ _ _ _ _ Epl).
    assert (Hp : pl = PNone \/ (exists b, pl = PBool b) \/ (exists z, pl = PInt z) \/
                 exists f, pl = PFloat f).
    { destruct Hv as [E | [[b E] | [[z E] | [f E]]]]; rewrite E in Hpl; inversion Hpl; subst; eauto 6. }
    rewrite bind_eq.
    destruct Hp as [-> | [[b ->] | [[z ->] | [f ->]]]];
      (split; [eexists; reflexivity | split; reflexivity]). }
  destruct E as ([msg H1] & H2 & H3).
  rewrite broadcast_eq. cbn [broadcast_loop]. rewrite bind_eq.
  destruct (broadcast_one c data w) as [r w1]. simpl in H1, H2, H3. subst r.
  split; [exists msg; reflexivity | split; assumption].
Qed.

Lemma broadcast_no_audience_witness :
  let kvs := [("content", JObj [("message", JStr "hi")])] in
  let w := mkWorld (snd (fst (alloc (JObj kvs) ∅ 0))) (snd (alloc (JObj kvs) ∅ 0))
             [mkItem "2001" (JStr "m") (JStr "99") 0] ["2001"] 0 [] [] in
  let data := fst (fst (alloc (JObj kvs) ∅ 0)) in
  allocd (w_heap w) 0 (w_next w) data (JObj kvs) /\
  fst (broadcast [mkConn "2001" (JStr "99")] data w) = Raise AttributeError /\
  w_sent (snd (broadcast [mkConn "2001" (JStr "99")] data w)) = [] /\
  w_table (snd (broadcast [mkConn "2001" (JStr "99")] data w)) = [mkItem "2001" (JStr "m") (JStr "99") 0].
Proof.
  cbv zeta.
  assert (Hal : allocd (snd (fst (alloc (JObj [("content", JObj [("message", JStr "hi")])]) ∅ 0)))
                  0 (snd (alloc (JObj [("content", JObj [("message", JStr "hi")])]) ∅ 0))
                  (fst (fst (alloc (JObj [("content", JObj [("message", JStr "hi")])]) ∅ 0)))
                  (JObj [("content", JObj [("message", JStr "hi")])])).
  { pose proof (alloc_spec (JObj [("content", JObj [("message", JStr "hi")])]) ∅ 0) as H.
    destruct (alloc _ ∅ 0) as [[p h] n]. apply H. }
  split; [exact Hal |].
  apply (broadcast_no_audience _ _ _
           (mkWorld _ _ [mkItem "2001" (JStr "m") (JStr "99") 0] ["2001"] 0 [] []) 0 _ _
           Hal (le_n _)); [vm_compute; lia |].
  intros akvs H. vm_compute in H. discriminate H.
Defined.

Lemma broadcast_allowlist_not_container_witness :
  let kvs := [("audience", JObj [("data", JStr "__all__")]);
              ("content", JObj [("message", JStr "hi")])] in
  let w := mkWorld (snd (fst (alloc (JObj kvs) ∅ 0))) (snd (alloc (JObj kvs) ∅ 0))
             [] ["2001"] 0 [] [] in
  let data := fst (fst (alloc (JObj kvs) ∅ 0)) in
  allocd (w_heap w) 0 (w_next w) data (JObj kvs) /\
  (exists msg, fst (broadcast [mkConn "2001" (JStr "99")] data w) = Raise (TypeError msg)) /\
  w_sent (snd (broadcast [mkConn "2001" (JStr "99")] data w)) = [] /\
  w_table (snd (broadcast [mkConn "2001" (JStr "99")] data w)) = [].
Proof.
  cbv zeta.
  assert (Hal : allocd (snd (fst (alloc (JObj [("audience", JObj [("data", JStr "__all__")]);
                                               ("content", JObj [("message", JStr "hi")])]) ∅ 0)))
                  0 (snd (alloc (JObj [("audience", JObj [("data", JStr "__all__")]);
                                       ("content", JObj [("message", JStr "hi")])]) ∅ 0))
                  (fst (fst (alloc (JObj [("audience", JObj [("data", JStr "__all__")]);
                                          ("content", JObj [("message", JStr "hi")])]) ∅ 0)))
                  (JObj [("audience", JObj [("data", JStr "__all__")]);
                         ("content", JObj [("message", JStr "hi")])])).
  { pose proof (alloc_spec (JObj [("audience", JObj [("data", JStr "__all__")]);
                                 ("content", JObj [("message", JStr "hi")])]) ∅ 0) as H.
    destruct (alloc _ ∅ 0) as [[p h] n]. apply H. }
  split; [exact Hal |].
  apply (broadcast_allowlist_not_container _ _ _ (mkWorld _ _ [] ["2001"] 0 [] []) 0 _ _
           [("data", JStr "__all__")] Hal (le_n _)); [vm_compute; lia | reflexivity |].
  left. reflexivity.
Defined.

(** *** The routes of app.py *)

Lemma disconnect_table c w :
  w_table (snd (disconnect c w)) =
  if String.eqb c "" then w_table w else delete_item c (w_table w).
Proof.
  unfold disconnect. rewrite bind_eq.
  pose proof (delete_connection_heap c w) as (_ & _ & _ & _ & H5 & _).
  destruct (delete_connection c w) as [[r | e] w2]; exact H5.
Qed.

(** A session of a connection with a non-empty id, opened, sent a
    [frontend] message (a JSON object whose [id] is an object of type
    "frontend", whatever its other fields, the message accepted, refused
    or raising) and closed, leaves the registry with no row for that
    connection and every other row as it was before the session. *)
Theorem session_leaves_no_row c s kvs ikvs w :
  String.eqb c "" = false ->
  String.eqb s "" = false -> json_loads s = Ok (JObj kvs) ->
  assoc "id" kvs = Some (JObj ikvs) ->
  get_or ikvs "type" JNull = JStr "frontend" ->
  w_table (snd (disconnect c (snd (message c (Some s) (snd (connect c w))))))
    = delete_item c (w_table w).
Proof.
  intros Hc Hs Hj Hid Htype.
  set (w0 := snd (connect c w)).
  assert (T0 : w_table w0 = w_table w) by reflexivity.
  unfold message. rewrite disconnect_table, Hc.
  destruct (get_or kvs "audience" (JObj [])) as [| | | | | | akvs] eqn:Haud;
    try (destruct (handle_audience_nonobj c s kvs ikvs w0 Hs Hj Hid
                     ltac:(intros ?; rewrite Haud; discriminate))
           as (w' & -> & Et & _); simpl; rewrite Et, T0; reflexivity).
  destruct (handle_prefix c s kvs ikvs akvs w0 Hs Hj Hid Haud)
    as (w' & data & tp & mp & up & lo & hi & lot & hit & lom & him & lou & hiu &
        Eh & Et & _ & _ & _ & _ & _ & _ & Ht & _).
  rewrite Eh. unfold dispatch.
  rewrite (is_str_allocd _ _ _ _ _ "frontend" Ht), Htype.
  replace (jv_is_str (JStr "frontend") "frontend") with true by reflexivity.
  rewrite bind_eq.
  pose proof (handle_frontend_table c mp up w') as HT.
  destruct (handle_frontend c mp up w') as [[r | e] w''].
  - simpl in HT |- *. destruct HT as [E | (m & u & ts & E)]; rewrite E, Et, T0;
      [reflexivity | exact (delete_put (mkItem c m u ts) _)].
  - simpl in HT |- *. destruct HT as [E | (m & u & ts & E)]; rewrite E, Et, T0;
      [reflexivity | exact (delete_put (mkItem c m u ts) _)].
Qed.

Lemma session_leaves_no_row_witness :
  let s := dq "{'id': {'type': 'frontend', 'merchant_id': 'm'}, 'audience': {'data': '72'}}" in
  let w := with_table [mkItem "1092" (JStr "m") (JStr "1") 0; mkItem "2001" (JStr "m") (JStr "99") 0]
                      ["1092"; "2001"] in
  String.eqb s "" = false /\
  w_table (snd (disconnect "1092" (snd (message "1092" (Some s) (snd (connect "1092" w))))))
    = [mkItem "2001" (JStr "m") (JStr "99") 0].
Proof.
  cbv zeta. split; [reflexivity |].
  rewrite (session_leaves_no_row "1092"
             (dq "{'id': {'type': 'frontend', 'merchant_id': 'm'}, 'audience': {'data': '72'}}")
             [("id", JObj [("type", JStr "frontend"); ("merchant_id", JStr "m")]);
              ("audience", JObj [("data", JStr "72")])]
             [("type", JStr "frontend"); ("merchant_id", JStr "m")]
             (with_table [mkItem "1092" (JStr "m") (JStr "1") 0;
                          mkItem "2001" (JStr "m") (JStr "99") 0] ["1092"; "2001"])
             eq_refl eq_refl ltac:(vm_compute; reflexivity) eq_refl eq_refl).
  reflexivity.
Defined.
